(** * Finance-Dash: statement ingestion, categorisation and deduplication

    A shallow embedding of the ingestion core of the repository
    (parser/pdf_parser.py, parser/csv_parser.py, parser/bank_parser.py,
    utils/categorizer.py, database/operations.py and the upload handling of
    main.py), followed by the properties established about it.

    Modelling conventions.
    - Python [str] values are byte strings ([string]); the text is read as
      ASCII, and a non-ASCII character is the sequence of its UTF-8 bytes.
      [\d], [\s], [\w], [str.lower] and [str.strip] are the ASCII ones.
    - A Python [float] is an infinity, not-a-number, or a finite value;
      a finite value that was read from a decimal literal is modelled by
      the exact decimal it denotes (type [dec], a normalised mantissa and
      a count of fractional digits), unless the literal is so small or so
      large that the nearest double is zero or an infinity.  Sign tests,
      comparison with zero, [abs] and negation are exact.
    - The database is SQLite, the default of database/models.py.
    - Exceptions are values: a function that can raise returns [result].
    - [datetime.now().year] is an explicit argument [current_year]. *)

From Stdlib Require Import ZArith List String Ascii Bool Lia.
Import ListNotations.

Open Scope string_scope.
Open Scope Z_scope.

(** ** Python string primitives *)

Module PyStr.

Definition is_digit (c : ascii) : bool :=
  let n := nat_of_ascii c in (48 <=? n)%nat && (n <=? 57)%nat.

(** ASCII white space as [str.strip] and the regex class [\s] see it:
    TAB, LF, VT, FF, CR, the separators 28..31 and the blank. *)
Definition is_space (c : ascii) : bool :=
  let n := nat_of_ascii c in
  ((9 <=? n)%nat && (n <=? 13)%nat) || ((28 <=? n)%nat && (n <=? 32)%nat).

(** The regex class [\w] on ASCII text. *)
Definition is_word (c : ascii) : bool :=
  let n := nat_of_ascii c in
  is_digit c || ((65 <=? n)%nat && (n <=? 90)%nat)
  || ((97 <=? n)%nat && (n <=? 122)%nat) || (n =? 95)%nat.

Definition lower_char (c : ascii) : ascii :=
  let n := nat_of_ascii c in
  if ((65 <=? n)%nat && (n <=? 90)%nat)%bool then ascii_of_nat (n + 32) else c.

(** [s.lower()] *)
Fixpoint lower (s : string) : string :=
  match s with
  | EmptyString => EmptyString
  | String c s' => String (lower_char c) (lower s')
  end.

(** [s.startswith(p)] *)
Fixpoint startswith (p s : string) : bool :=
  match p, s with
  | EmptyString, _ => true
  | String _ _, EmptyString => false
  | String a p', String b s' => Ascii.eqb a b && startswith p' s'
  end.

(** [p in s] *)
Fixpoint contains (p s : string) : bool :=
  startswith p s ||
  match s with
  | EmptyString => false
  | String _ s' => contains p s'
  end.

(** [c in s] for a single character. *)
Fixpoint has_char (c : ascii) (s : string) : bool :=
  match s with
  | EmptyString => false
  | String b s' => Ascii.eqb c b || has_char c s'
  end.

Fixpoint filter (f : ascii -> bool) (s : string) : string :=
  match s with
  | EmptyString => EmptyString
  | String c s' => if f c then String c (filter f s') else filter f s'
  end.

Fixpoint remove_from (p : string) (skip : nat) (s : string) : string :=
  match s with
  | EmptyString => EmptyString
  | String c s' =>
      match skip with
      | S k => remove_from p k s'
      | O => if startswith p s
             then remove_from p (String.length p - 1) s'
             else String c (remove_from p O s')
      end
  end.

(** [s.replace(p, '')] for a non-empty [p]: the occurrences of [p] are
    removed from left to right, without overlap. *)
Definition remove (p s : string) : string := remove_from p O s.

Fixpoint lstrip (s : string) : string :=
  match s with
  | EmptyString => EmptyString
  | String c s' => if is_space c then lstrip s' else s
  end.

Fixpoint rstrip (s : string) : string :=
  match s with
  | EmptyString => EmptyString
  | String c s' =>
      match rstrip s' with
      | EmptyString => if is_space c then EmptyString else String c EmptyString
      | r => String c r
      end
  end.

(** [s.strip()] *)
Definition strip (s : string) : string := rstrip (lstrip s).

(** [s.split(sep)] for a one-character separator. *)
Fixpoint split (sep : ascii) (s : string) : list string :=
  match s with
  | EmptyString => [EmptyString]
  | String c s' =>
      if Ascii.eqb c sep then EmptyString :: split sep s'
      else match split sep s' with
           | [] => [String c EmptyString]
           | w :: ws => String c w :: ws
           end
  end.

Definition digit_val (c : ascii) : Z := Z.of_nat (nat_of_ascii c) - 48.

Definition digit_char (d : Z) : ascii := ascii_of_nat (Z.to_nat (d + 48)).

Fixpoint all_digits (s : string) : bool :=
  match s with
  | EmptyString => true
  | String c s' => is_digit c && all_digits s'
  end.

(** Value of a run of decimal digits, most significant first. *)
Fixpoint digits_val (acc : Z) (s : string) : Z :=
  match s with
  | EmptyString => acc
  | String c s' => digits_val (10 * acc + digit_val c) s'
  end.

Fixpoint nat_digits (fuel : nat) (n : Z) (acc : string) : string :=
  match fuel with
  | O => acc
  | S k =>
      let acc' := String (digit_char (n mod 10)) acc in
      if n / 10 =? 0 then acc' else nat_digits k (n / 10) acc'
  end.

(** [str(n)] for a non-negative integer. *)
Definition of_Z (n : Z) : string :=
  nat_digits (S (Z.to_nat (Z.log2 n))) n EmptyString.

Fixpoint zeros (k : nat) : string :=
  match k with
  | O => EmptyString
  | S k' => String "0" (zeros k')
  end.

(** Decimal rendering padded with zeros on the left to [w] characters. *)
Definition pad (w : nat) (n : Z) : string :=
  let s := of_Z n in zeros (w - String.length s) ++ s.

End PyStr.

(** ** Python floats *)

(** [mkDec m k] denotes [m / 10^k]. *)
Record dec : Type := mkDec { mant : Z; scale : nat }.

Module Dec.

Fixpoint normalize_aux (m : Z) (k : nat) : dec :=
  match k with
  | O => mkDec m O
  | S k' => if m mod 10 =? 0 then normalize_aux (m / 10) k' else mkDec m k
  end.

(** Trailing zeros of the fraction are dropped, so that equal values have
    equal representations. *)
Definition normalize (d : dec) : dec := normalize_aux (mant d) (scale d).

Definition zero : dec := mkDec 0 O.

(** unary minus, [abs], and the comparisons with zero *)
Definition neg (d : dec) : dec := mkDec (- mant d) (scale d).
Definition abs (d : dec) : dec := mkDec (Z.abs (mant d)) (scale d).
Definition is_zero (d : dec) : bool := mant d =? 0.
Definition ltb0 (d : dec) : bool := mant d <? 0.
Definition gtb0 (d : dec) : bool := 0 <? mant d.

End Dec.

(** A float: a finite value, written as the decimal that was read, an
    infinity with its sign, or not-a-number. *)
Inductive pyfloat : Type :=
| Finite (d : dec)
| Infinite (negative : bool)
| NotANumber.

Coercion Finite : dec >-> pyfloat.

Module PyFloat.

(** [-x], [abs(x)], [x == 0], [x < 0], [x > 0] and [math.isnan(x)]; every
    comparison with not-a-number is false, so [x != 0] holds of it. *)
Definition neg (x : pyfloat) : pyfloat :=
  match x with
  | Finite d => Finite (Dec.neg d)
  | Infinite negative => Infinite (negb negative)
  | NotANumber => NotANumber
  end.

Definition abs (x : pyfloat) : pyfloat :=
  match x with
  | Finite d => Finite (Dec.abs d)
  | Infinite _ => Infinite false
  | NotANumber => NotANumber
  end.

Definition is_zero (x : pyfloat) : bool :=
  match x with
  | Finite d => Dec.is_zero d
  | _ => false
  end.

Definition ltb0 (x : pyfloat) : bool :=
  match x with
  | Finite d => Dec.ltb0 d
  | Infinite negative => negative
  | NotANumber => false
  end.

Definition gtb0 (x : pyfloat) : bool :=
  match x with
  | Finite d => Dec.gtb0 d
  | Infinite negative => negb negative
  | NotANumber => false
  end.

Definition isnan (x : pyfloat) : bool :=
  match x with
  | NotANumber => true
  | _ => false
  end.

(** The white space [float] skips at both ends of its argument: TAB, LF,
    VT, FF, CR and the blank (not the separators 28..31, which
    [str.strip] removes as well). *)
Definition is_space (c : ascii) : bool :=
  let n := nat_of_ascii c in
  ((9 <=? n)%nat && (n <=? 13)%nat) || (n =? 32)%nat.

Fixpoint lstrip (s : string) : string :=
  match s with
  | EmptyString => EmptyString
  | String c s' => if is_space c then lstrip s' else s
  end.

Fixpoint rstrip (s : string) : string :=
  match s with
  | EmptyString => EmptyString
  | String c s' =>
      match rstrip s' with
      | EmptyString => if is_space c then EmptyString else String c EmptyString
      | r => String c r
      end
  end.

Definition strip (s : string) : string := rstrip (lstrip s).

(** An underscore is accepted between two digits only; [prev] is the
    character before [s]. *)
Fixpoint underscores_ok (prev : ascii) (s : string) : bool :=
  match s with
  | EmptyString => negb (Ascii.eqb prev "_")
  | String c s' =>
      (if Ascii.eqb c "_" then PyStr.is_digit prev
       else if Ascii.eqb prev "_" then PyStr.is_digit c
       else true)
      && underscores_ok c s'
  end.

Definition not_underscore (c : ascii) : bool := negb (Ascii.eqb c "_").

Fixpoint span_digits (s : string) : string * string :=
  match s with
  | EmptyString => (EmptyString, EmptyString)
  | String c s' =>
      if PyStr.is_digit c
      then let (d, r) := span_digits s' in (String c d, r)
      else (EmptyString, s)
  end.

(** digits [. digits] or [. digits], with at least one digit *)
Definition unsigned (s : string) : option dec :=
  let (ip, r) := span_digits s in
  match r with
  | EmptyString =>
      match ip with
      | EmptyString => None
      | _ => Some (mkDec (PyStr.digits_val 0 ip) O)
      end
  | String c r' =>
      if Ascii.eqb c "."
      then if PyStr.all_digits r'
           then match (ip ++ r')%string with
                | EmptyString => None
                | ds => Some (Dec.normalize
                                (mkDec (PyStr.digits_val 0 ds) (String.length r')))
                end
           else None
      else None
  end.

(** The text before the first [e] or [E], and the text after it if there
    is one. *)
Fixpoint split_exponent (s : string) : string * option string :=
  match s with
  | EmptyString => (EmptyString, None)
  | String c s' =>
      if Ascii.eqb c "e" || Ascii.eqb c "E" then (EmptyString, Some s')
      else let (m, e) := split_exponent s' in (String c m, e)
  end.

Definition digits (s : string) : option Z :=
  match s with
  | EmptyString => None
  | _ => if PyStr.all_digits s then Some (PyStr.digits_val 0 s) else None
  end.

(** [sign] digits, the part after the [e] *)
Definition exponent (e : string) : option Z :=
  match e with
  | String c e' =>
      if Ascii.eqb c "-" then option_map Z.opp (digits e')
      else if Ascii.eqb c "+" then digits e'
      else digits e
  | EmptyString => None
  end.

(** [d * 10^k] *)
Definition scale10 (d : dec) (k : Z) : dec :=
  if 0 <=? k
  then Dec.normalize (mkDec (mant d * 10 ^ k) (scale d))
  else Dec.normalize (mkDec (mant d) (scale d + Z.to_nat (- k))).

(** What is left of a decimal when it is rounded to the nearest double:
    a magnitude of at most [2^-1075], half the least positive double,
    rounds to zero, and one of [2^1024 - 2^970] or more, half-way past
    the greatest double, to an infinity.  In between the float is kept as
    the decimal that was read. *)
Definition round (d : dec) : pyfloat :=
  let m := Z.abs (mant d) in
  let p := 10 ^ Z.of_nat (scale d) in
  if m * 2 ^ 1075 <=? p then Finite Dec.zero
  else if (2 ^ 1024 - 2 ^ 970) * p <=? m then Infinite (mant d <? 0)
  else Finite d.

(** [float(s)] for a string; [None] stands for [ValueError].  The
    argument is stripped of white space, underscores between digits are
    dropped, and what remains is a sign followed by [inf], [infinity] or
    [nan] in any letter case, or by a decimal number with an optional
    exponent. *)
Definition float (s : string) : option pyfloat :=
  let t := strip s in
  if underscores_ok "000" t then
    let t := PyStr.filter not_underscore t in
    let (negative, body) :=
      match t with
      | String c t' =>
          if Ascii.eqb c "-" then (true, t')
          else if Ascii.eqb c "+" then (false, t')
          else (false, t)
      | EmptyString => (false, EmptyString)
      end in
    let low := PyStr.lower body in
    if String.eqb low "inf" || String.eqb low "infinity"
    then Some (Infinite negative)
    else if String.eqb low "nan" then Some NotANumber
    else
      let (m, e) := split_exponent body in
      match unsigned m, match e with Some x => exponent x | None => Some 0 end with
      | Some d, Some k =>
          let v := scale10 d k in
          Some (round (if negative then Dec.neg v else v))
      | _, _ => None
      end
  else None.

End PyFloat.

(** ** Results of fallible code *)

(** [Err msg] is a raised exception carrying [msg]. *)
Inductive result (A : Type) : Type :=
| Ok (a : A)
| Err (msg : string).
Arguments Ok {A} a.
Arguments Err {A} msg.

Definition first_some {A B : Type} (f : A -> option B) : list A -> option B :=
  fix go (l : list A) : option B :=
    match l with
    | [] => None
    | x :: l' => match f x with
                 | Some b => Some b
                 | None => go l'
                 end
    end.

(** [d.get(key)] on a dictionary kept in insertion order. *)
Fixpoint dict_get {A : Type} (key : string) (d : list (string * A)) : option A :=
  match d with
  | [] => None
  | (k, v) :: d' => if String.eqb k key then Some v else dict_get key d'
  end.

(** The rows a loop appends: one for each pass that does not skip. *)
Fixpoint filter_map {A B : Type} (f : A -> option B) (l : list A) : list B :=
  match l with
  | [] => []
  | x :: l' => match f x with
               | Some y => y :: filter_map f l'
               | None => filter_map f l'
               end
  end.

(** ** datetime and datetime.strptime *)

(** The time of day is always midnight in this program and is left out. *)
Record datetime : Type := mkDate { year : Z; month : Z; day : Z }.

Module Strptime.

(** The directives the program uses; any other character of a format is
    matched literally. *)
Inductive fitem : Type :=
| DirY   (* %Y : four digits *)
| Diry   (* %y : two digits *)
| Dirm   (* %m *)
| Dird   (* %d *)
| Lit (c : ascii).

(** Formats of this program hold the four directives above, [%%] and
    literal characters that are not white space; anything else is
    rejected ([ValueError] for a bad directive or a stray [%]). *)
Fixpoint parse_format (fmt : string) : option (list fitem) :=
  match fmt with
  | EmptyString => Some []
  | String c rest =>
      if Ascii.eqb c "%" then
        match rest with
        | EmptyString => None
        | String d rest' =>
            let item :=
              if Ascii.eqb d "Y" then Some DirY
              else if Ascii.eqb d "y" then Some Diry
              else if Ascii.eqb d "m" then Some Dirm
              else if Ascii.eqb d "d" then Some Dird
              else if Ascii.eqb d "%" then Some (Lit "%")
              else None in
            match item, parse_format rest' with
            | Some i, Some l => Some (i :: l)
            | _, _ => None
            end
        end
      else if PyStr.is_space c then None
      else option_map (cons (Lit c)) (parse_format rest)
  end.

(** The fields collected so far; [None] is "no such directive matched". *)
Record fields : Type := mkFields
  { f_year : option Z; f_month : option Z; f_day : option Z }.

Definition no_fields : fields := mkFields None None None.

Definition in_range (c : ascii) (lo hi : nat) : bool :=
  let n := nat_of_ascii c in ((lo <=? n)%nat && (n <=? hi)%nat)%bool.

(** Ways a directive can match at the head of [s], in the order in which
    the alternatives of its regular expression are tried:
    [%m] is [1[0-2]|0[1-9]|[1-9]],
    [%d] is [3[0-1]|[1-2]\d|0[1-9]|[1-9]| [1-9]],
    [%y] is [\d\d] and [%Y] is [\d\d\d\d]. *)
Definition candidates (i : fitem) (s : string) : list (Z * string) :=
  match i with
  | Lit c =>
      match s with
      | String a r => if Ascii.eqb a c then [(0, r)] else []
      | _ => []
      end
  | DirY =>
      match s with
      | String a (String b (String c (String d r))) =>
          if PyStr.all_digits (String a (String b (String c (String d ""))))
          then [(PyStr.digits_val 0 (String a (String b (String c (String d "")))), r)]
          else []
      | _ => []
      end
  | Diry =>
      match s with
      | String a (String b r) =>
          if PyStr.all_digits (String a (String b ""))
          then [(PyStr.digits_val 0 (String a (String b "")), r)]
          else []
      | _ => []
      end
  | Dirm =>
      match s with
      | String a r =>
          let two :=
            match r with
            | String b r' =>
                if (Ascii.eqb a "1" && in_range b 48 50)
                   || (Ascii.eqb a "0" && in_range b 49 57)
                then [(PyStr.digits_val 0 (String a (String b "")), r')]
                else []
            | _ => []
            end in
          let one := if in_range a 49 57 then [(PyStr.digit_val a, r)] else [] in
          two ++ one
      | _ => []
      end
  | Dird =>
      match s with
      | String a r =>
          let two :=
            match r with
            | String b r' =>
                if (Ascii.eqb a "3" && in_range b 48 49)
                   || (in_range a 49 50 && PyStr.is_digit b)
                   || (Ascii.eqb a "0" && in_range b 49 57)
                then [(PyStr.digits_val 0 (String a (String b "")), r')]
                else []
            | _ => []
            end in
          let one := if in_range a 49 57 then [(PyStr.digit_val a, r)] else [] in
          let blank :=
            match r with
            | String b r' =>
                if Ascii.eqb a " " && in_range b 49 57
                then [(PyStr.digit_val b, r')]
                else []
            | _ => []
            end in
          two ++ one ++ blank
      | _ => []
      end
  end.

Definition record_field (i : fitem) (v : Z) (fs : fields) : fields :=
  match i with
  | DirY => mkFields (Some v) (f_month fs) (f_day fs)
  | Diry => mkFields (Some (if v <=? 68 then v + 2000 else v + 1900))
                     (f_month fs) (f_day fs)
  | Dirm => mkFields (f_year fs) (Some v) (f_day fs)
  | Dird => mkFields (f_year fs) (f_month fs) (Some v)
  | Lit _ => fs
  end.

(** Backtracking match of the compiled format at the start of the data:
    the first way that lets the rest of the format match is taken. *)
Fixpoint match_items (items : list fitem) (s : string) (fs : fields)
  : option (fields * string) :=
  match items with
  | [] => Some (fs, s)
  | i :: items' =>
      first_some
        (fun vr : Z * string =>
           match_items items' (snd vr) (record_field i (fst vr) fs))
        (candidates i s)
  end.

Definition is_leap (y : Z) : bool :=
  (y mod 4 =? 0) && (negb (y mod 100 =? 0) || (y mod 400 =? 0)).

Definition days_in_month (y m : Z) : Z :=
  if m =? 2 then (if is_leap y then 29 else 28)
  else if (m =? 4) || (m =? 6) || (m =? 9) || (m =? 11) then 30
  else 31.

(** The checks of the [datetime] constructor. *)
Definition valid_date (y m d : Z) : bool :=
  (1 <=? y) && (y <=? 9999) && (1 <=? m) && (m <=? 12)
  && (1 <=? d) && (d <=? days_in_month y m).

Definition default (o : option Z) (d : Z) : Z :=
  match o with Some v => v | None => d end.

(** [datetime.strptime(data, fmt)]; [None] is [ValueError].  A field with
    no directive keeps its default: year 1900, month 1, day 1. *)
Definition strptime (data fmt : string) : option datetime :=
  match parse_format fmt with
  | None => None
  | Some items =>
      match match_items items data no_fields with
      | Some (fs, EmptyString) =>
          let y := default (f_year fs) 1900 in
          let m := default (f_month fs) 1 in
          let d := default (f_day fs) 1 in
          if valid_date y m d then Some (mkDate y m d) else None
      | _ => None   (* no match, or unconverted data remains *)
      end
  end.

End Strptime.

(** ** The regular expressions of the text extractor *)

Module Regex.

(** Each transaction pattern of the program is a sequence of quantified
    character classes and optional literals, inside or outside one of its
    three capture groups; [grp] is the group number, 0 for none. *)
Inductive item : Type :=
| Rep (cls : ascii -> bool) (min : nat) (max : option nat)
      (greedy : bool) (grp : nat)
| OptLit (lit : string) (grp : nat).

Definition captures : Type := (string * string * string)%type.

Definition no_captures : captures := ("", "", "").

Definition push (g : nat) (t : string) (c : captures) : captures :=
  let '(a, b, d) := c in
  match g with
  | 1%nat => ((a ++ t)%string, b, d)
  | 2%nat => (a, (b ++ t)%string, d)
  | 3%nat => (a, b, (d ++ t)%string)
  | _ => c
  end.

Definition below (n : nat) (max : option nat) : bool :=
  match max with
  | None => true
  | Some m => (n <? m)%nat
  end.

Section Repeat.
Variable R : Type.
Variables (cls : ascii -> bool) (min : nat) (max : option nat)
          (greedy : bool) (grp : nat).
Variable k : string -> captures -> option R.

(** [n] characters of the class were taken already.  A greedy
    quantifier first tries to take one more, a lazy one first tries to
    stop. *)
Fixpoint rep (n : nat) (s : string) (c : captures) : option R :=
  if greedy then
    match
      match s with
      | String a s' =>
          if cls a && below n max
          then rep (S n) s' (push grp (String a "") c)
          else None
      | EmptyString => None
      end
    with
    | Some r => Some r
    | None => if (min <=? n)%nat then k s c else None
    end
  else
    match (if (min <=? n)%nat then k s c else None) with
    | Some r => Some r
    | None =>
        match s with
        | String a s' =>
            if cls a && below n max
            then rep (S n) s' (push grp (String a "") c)
            else None
        | EmptyString => None
        end
    end.
End Repeat.

Fixpoint drop (n : nat) (s : string) : string :=
  match n, s with
  | O, _ => s
  | S n', String _ s' => drop n' s'
  | S _, EmptyString => EmptyString
  end.

(** [re.match]: the leftmost-priority backtracking match at the start of
    [s]; returns the groups and the unmatched rest. *)
Fixpoint match_here (items : list item) (s : string) (c : captures)
  : option (captures * string) :=
  match items with
  | [] => Some (c, s)
  | Rep cls min max greedy grp :: items' =>
      rep _ cls min max greedy grp (match_here items') O s c
  | OptLit lit grp :: items' =>
      if PyStr.startswith lit s
      then match match_here items' (drop (String.length lit) s) (push grp lit c) with
           | Some r => Some r
           | None => match_here items' s c
           end
      else match_here items' s c
  end.

Fixpoint findall_from (items : list item) (skip : nat) (s : string)
  : list captures :=
  match s with
  | EmptyString => []
  | String _ s' =>
      match skip with
      | S j => findall_from items j s'
      | O =>
          match match_here items s no_captures with
          | Some (c, rest) =>
              c :: findall_from items
                     (String.length s - String.length rest - 1) s'
          | None => findall_from items O s'
          end
      end
  end.

(** [re.findall(pattern, text, re.MULTILINE)] for a pattern with three
    groups that cannot match the empty string: the matches from left to
    right, without overlap. *)
Definition findall (items : list item) (text : string) : list captures :=
  findall_from items O text.

Definition digit : ascii -> bool := PyStr.is_digit.
Definition space : ascii -> bool := PyStr.is_space.
Definition dot (c : ascii) : bool := negb (Ascii.eqb c "010").
Definition chr (a : ascii) (c : ascii) : bool := Ascii.eqb c a.
Definition digit_or_comma (c : ascii) : bool :=
  PyStr.is_digit c || Ascii.eqb c ",".
Definition slash_or_dash (c : ascii) : bool :=
  Ascii.eqb c "/" || Ascii.eqb c "-".

Definition exactly (cls : ascii -> bool) (n : nat) (g : nat) : item :=
  Rep cls n (Some n) true g.
Definition between (cls : ascii -> bool) (lo hi : nat) (g : nat) : item :=
  Rep cls lo (Some hi) true g.
Definition opt (cls : ascii -> bool) (g : nat) : item :=
  Rep cls 0 (Some 1%nat) true g.
Definition plus (cls : ascii -> bool) (g : nat) : item :=
  Rep cls 1 None true g.
Definition star (cls : ascii -> bool) (g : nat) : item :=
  Rep cls 0 None true g.
Definition plus_lazy (cls : ascii -> bool) (g : nat) : item :=
  Rep cls 1 None false g.

End Regex.

(** ** Transactions as the extractors build them *)

(** One row of the transactions DataFrame.  [tx_type] is the string the
    code stores under the key ['type']; [tx_category] is [None] until the
    categorizer adds the column. *)
Record txrow : Type := mkTx
  { tx_date : datetime;
    tx_description : string;
    tx_amount : pyfloat;
    tx_type : string;
    tx_bank : string;
    tx_category : option string }.

(** The rupee sign, U+20B9, as its three UTF-8 bytes. *)
Definition rupee : string := String "226" (String "130" (String "185" "")).

(** ** parser/pdf_parser.py *)

Module PDFParser.

Import Regex.

(** [-?\$?[\d,]+\.?\d*] as the third group *)
Definition amount_dollar : list item :=
  [opt (chr "-") 3; opt (chr "$") 3; plus digit_or_comma 3;
   opt (chr ".") 3; star digit 3].

(** [-?\₹?[\d,]+\.?\d*] as the third group *)
Definition amount_rupee : list item :=
  [opt (chr "-") 3; OptLit rupee 3; plus digit_or_comma 3;
   opt (chr ".") 3; star digit 3].

(** [\s+(.+?)\s+] *)
Definition description_part : list item :=
  [plus space 0; plus_lazy dot 2; plus space 0].

(** [(\d{2}/\d{2})] *)
Definition date_md : list item :=
  [exactly digit 2 1; exactly (chr "/") 1 1; exactly digit 2 1].

(** [(\d{2}/\d{2}/\d{4})] and [(\d{2}-\d{2}-\d{4})] *)
Definition date_full (sep : ascii) : list item :=
  [exactly digit 2 1; exactly (chr sep) 1 1; exactly digit 2 1;
   exactly (chr sep) 1 1; exactly digit 4 1].

Record pattern_info : Type := mkPattern
  { transaction_pattern : list item; date_format : string }.

Definition bank_patterns : list (string * pattern_info) :=
  [ ("chase",
     mkPattern (date_md ++ description_part ++ amount_dollar)%list "%m/%d");
    ("wells_fargo",
     mkPattern (date_full "/" ++ description_part ++ amount_dollar)%list "%m/%d/%Y");
    ("bank_of_america",
     mkPattern (date_full "/" ++ description_part ++ amount_dollar)%list "%m/%d/%Y");
    ("citibank",
     mkPattern (date_full "/" ++ description_part ++ amount_dollar)%list "%m/%d/%Y");
    ("hdfc",
     mkPattern (date_full "/" ++ description_part ++ amount_rupee)%list "%d/%m/%Y");
    ("axis",
     mkPattern (date_full "-" ++ description_part ++ amount_rupee)%list "%d-%m-%Y") ].

Definition _detect_bank_from_pdf (text : string) : string :=
  let text_lower := PyStr.lower text in
  if PyStr.contains "chase" text_lower || PyStr.contains "jpmorgan" text_lower
  then "chase"
  else if PyStr.contains "wells fargo" text_lower then "wells_fargo"
  else if PyStr.contains "bank of america" text_lower then "bank_of_america"
  else if PyStr.contains "citibank" text_lower || PyStr.contains "citi" text_lower
  then "citibank"
  else if PyStr.contains "hdfc" text_lower then "hdfc"
  else if PyStr.contains "axis" text_lower then "axis"
  else "unknown".

(** The characters kept by [re.sub(r'[^\d.,-]', '', amount_str)]. *)
Definition amount_char (c : ascii) : bool :=
  PyStr.is_digit c || Ascii.eqb c "." || Ascii.eqb c "," || Ascii.eqb c "-".

Definition cleaned (amount_str : string) : string :=
  PyStr.remove "," (PyStr.filter amount_char amount_str).

Definition _parse_amount (amount_str : string) : pyfloat :=
  let is_negative :=
    PyStr.has_char "-" amount_str || PyStr.has_char "(" amount_str in
  match PyFloat.float (cleaned amount_str) with
  | Some amount => if is_negative then PyFloat.neg amount else amount
  | None => Dec.zero            (* except ValueError: return 0.0 *)
  end.

Definition date_formats : list string :=
  ["%m/%d/%Y"; "%d/%m/%Y"; "%Y-%m-%d"; "%m-%d-%Y"; "%d-%m-%Y"; "%m/%d"; "%d/%m"].

Definition two_fields (sep : ascii) (date_str : string) : bool :=
  (List.length (PyStr.split sep date_str) =? 2)%nat.

Definition _parse_date_flexible (current_year : Z) (date_str : string)
  : option datetime :=
  first_some
    (fun fmt : string =>
       if two_fields "/" date_str || two_fields "-" date_str then
         let y := PyStr.of_Z current_year in
         if PyStr.has_char "/" fmt
         then Strptime.strptime (date_str ++ "/" ++ y) (fmt ++ "/" ++ y)
         else Strptime.strptime (date_str ++ "-" ++ y) (fmt ++ "-" ++ y)
       else Strptime.strptime date_str fmt)
    date_formats.

Definition type_of (amount : pyfloat) : string :=
  if PyFloat.ltb0 amount then "debit" else "credit".

(** The date step of the loop body of [_parse_bank_specific_pdf]. *)
Definition bank_date (current_year : Z) (date_format date_str : string)
  : option datetime :=
  if two_fields "/" date_str then
    let y := PyStr.of_Z current_year in
    Strptime.strptime (date_str ++ "/" ++ y) (date_format ++ "/" ++ y)
  else Strptime.strptime date_str date_format.

(** One pass of the loop of [_parse_generic_pdf]; [None] is a match that
    is skipped. *)
Definition generic_match (current_year : Z) (m : captures) : option txrow :=
  let '(date_str, description, amount_str) := m in
  match _parse_date_flexible current_year date_str with
  | None => None
  | Some date =>
      let amount := _parse_amount amount_str in
      Some (mkTx date (PyStr.strip description) (PyFloat.abs amount)
                 (type_of amount) "unknown" None)
  end.

(** [\d{1,2}[/-]\d{1,2}[/-]\d{2,4}] and [\d{1,2}/\d{1,2}], each followed
    by the description and the amount *)
Definition generic_patterns : list (list item) :=
  [ ([between digit 1 2 1; exactly slash_or_dash 1 1; between digit 1 2 1;
      exactly slash_or_dash 1 1; between digit 2 4 1]
       ++ description_part ++ amount_dollar)%list;
    ([between digit 1 2 1; exactly (chr "/") 1 1; between digit 1 2 1]
       ++ description_part ++ amount_dollar)%list ].

Definition _parse_generic_pdf (current_year : Z) (text : string) : list txrow :=
  List.concat
    (List.map
       (fun pattern => filter_map (generic_match current_year) (findall pattern text))
       generic_patterns).

(** One pass of the loop of [_parse_bank_specific_pdf]. *)
Definition bank_match (current_year : Z) (bank_format date_format : string)
           (m : captures) : option txrow :=
  let '(date_str, description, amount_str) := m in
  match bank_date current_year date_format date_str with
  | None => None                       (* ValueError: the match is skipped *)
  | Some date =>
      let amount := _parse_amount amount_str in
      Some (mkTx date (PyStr.strip description) (PyFloat.abs amount)
                 (type_of amount) bank_format None)
  end.

Definition _parse_bank_specific_pdf (current_year : Z) (text bank_format : string)
  : list txrow :=
  match dict_get bank_format bank_patterns with
  | None => _parse_generic_pdf current_year text
  | Some pattern_info =>
      filter_map
        (bank_match current_year bank_format (date_format pattern_info))
        (findall (transaction_pattern pattern_info) text)
  end.

(** The text that [parse_pdf] assembles from the pages; a page without
    text contributes nothing. *)
Fixpoint full_text (pages : list string) : string :=
  match pages with
  | [] => ""
  | page_text :: rest =>
      match page_text with
      | EmptyString => full_text rest
      | _ => page_text ++ String "010" "" ++ full_text rest
      end
  end.

(** [parse_pdf] once pdfplumber has produced the page texts. *)
Definition parse_pages (current_year : Z) (pages : list string) : list txrow :=
  let text := full_text pages in
  let bank_format := _detect_bank_from_pdf text in
  if String.eqb bank_format "unknown"
  then _parse_generic_pdf current_year text
  else _parse_bank_specific_pdf current_year text bank_format.

End PDFParser.

(** ** The pandas values the tabular extractor reads *)

(** A cell is observed by the code only through [pd.isna]/[pd.notna] and
    [str]: [NaN] is a missing value, [Val s] a value whose [str] is [s]. *)
Inductive cell : Type :=
| NaN
| Val (s : string).

(** A row ([pandas.Series]): its index labels with their values. *)
Definition row : Type := list (string * cell).

(** A frame as [pd.read_csv] returns it: the header and the data lines,
    each line as long as the header. *)
Record DataFrame : Type := mkFrame
  { columns : list string; data : list (list cell) }.

Module Pandas.

Definition notna (v : cell) : bool :=
  match v with NaN => false | Val _ => true end.

Definition str (v : cell) : string :=
  match v with NaN => "nan" | Val s => s end.

(** [name in row.index] *)
Fixpoint in_index (name : string) (r : row) : bool :=
  match r with
  | [] => false
  | (k, _) :: r' => String.eqb k name || in_index name r'
  end.

(** [row[name]]; [None] is [KeyError]. *)
Fixpoint loc (name : string) (r : row) : option cell :=
  match r with
  | [] => None
  | (k, v) :: r' => if String.eqb k name then Some v else loc name r'
  end.

(** [df.iterrows()], without the positions *)
Definition iterrows (df : DataFrame) : list row :=
  List.map (fun line => List.combine (columns df) line) (data df).

End Pandas.

(** ** parser/csv_parser.py *)

Module CSVParser.

Record column_mapping : Type := mkMapping
  { m_date : list string;
    m_description : list string;
    m_amount : list string;
    m_type : list string }.

Definition bank_column_mappings : list (string * column_mapping) :=
  [ ("chase",
     mkMapping ["Transaction Date"; "Date"] ["Description"] ["Amount"] ["Type"]);
    ("wells_fargo",
     mkMapping ["Date"] ["Description"] ["Amount"] ["Type"]);
    ("bank_of_america",
     mkMapping ["Date"] ["Description"] ["Amount"] ["Type"]);
    ("citibank",
     mkMapping ["Date"] ["Description"] ["Debit"; "Credit"] ["Type"]);
    ("hdfc",
     mkMapping ["Date"] ["Narration"; "Description"]
               ["Debit"; "Credit"; "Amount"] ["Type"]);
    ("axis",
     mkMapping ["Tran Date"; "Date"] ["Particulars"; "Description"]
               ["Debit"; "Credit"; "Amount"] ["Type"]) ].

(** [self.bank_column_mappings.get(bank_format, {})] read through
    [.get(key, [])]: an unknown bank has every list empty. *)
Definition mapping_of (bank_format : string) : column_mapping :=
  match dict_get bank_format bank_column_mappings with
  | Some m => m
  | None => mkMapping [] [] [] []
  end.

(** [' '.join(l)] *)
Fixpoint join_blank (l : list string) : string :=
  match l with
  | [] => ""
  | [x] => x
  | x :: l' => x ++ " " ++ join_blank l'
  end.

Definition _detect_bank_from_columns (cols : list string) : string :=
  let columns_lower := List.map PyStr.lower cols in
  let columns_str := join_blank columns_lower in
  let any_col (w : string) := List.existsb (PyStr.contains w) columns_lower in
  if PyStr.contains "transaction date" columns_str || any_col "chase"
  then "chase"
  else if any_col "wells" then "wells_fargo"
  else if List.existsb
            (fun col => PyStr.contains "bofa" col
                        || PyStr.contains "bankofamerica" col) columns_lower
  then "bank_of_america"
  else if any_col "citi" then "citibank"
  else if PyStr.contains "narration" columns_str || any_col "hdfc" then "hdfc"
  else if PyStr.contains "particulars" columns_str
          || PyStr.contains "tran date" columns_str
  then "axis"
  else "unknown".

Definition date_formats : list string :=
  ["%Y-%m-%d"; "%m/%d/%Y"; "%d/%m/%Y"; "%m-%d-%Y"; "%d-%m-%Y"; "%Y/%m/%d";
   "%m/%d/%y"; "%d/%m/%y"; "%y-%m-%d"].

Definition _parse_date (date_str : cell) : option datetime :=
  match date_str with
  | NaN => None
  | Val s =>
      let s' := PyStr.strip s in
      first_some (fun fmt => Strptime.strptime s' fmt) date_formats
  end.

Fixpoint _find_column (r : row) (possible_names : list string) : option string :=
  match possible_names with
  | [] => None
  | name :: rest =>
      if Pandas.in_index name r then Some name else _find_column r rest
  end.

(** [pd.notna(val) and str(val).strip() != ''] *)
Definition filled (val : cell) : bool :=
  Pandas.notna val && negb (String.eqb (PyStr.strip (Pandas.str val)) "").

(** [float(str(val).replace(',', '').replace('$', '').replace('₹', ''))];
    [None] is [ValueError]. *)
Definition to_float (val : cell) : option pyfloat :=
  PyFloat.float
    (PyStr.remove rupee (PyStr.remove "$" (PyStr.remove "," (Pandas.str val)))).

(** ['debit' if amount < 0 else 'credit'] *)
Definition sign_type (amount : pyfloat) : string :=
  if PyFloat.ltb0 amount then "debit" else "credit".

(** The first loop of [_extract_amount_and_type], run for the banks with
    separate debit and credit columns: either it returns from the
    function ([inl]) or it ends with [debit_val] and [credit_val]. *)
Fixpoint split_columns (r : row) (amount_cols : list string)
         (debit_val credit_val : option pyfloat)
  : (option pyfloat * string) + (option pyfloat * option pyfloat) :=
  match amount_cols with
  | [] => inr (debit_val, credit_val)
  | col :: rest =>
      match Pandas.loc col r with
      | Some val =>
          if filled val then
            match to_float val with
            | Some amount =>
                if PyStr.contains "debit" (PyStr.lower col)
                then split_columns r rest (Some amount) credit_val
                else if PyStr.contains "credit" (PyStr.lower col)
                then split_columns r rest debit_val (Some amount)
                else inl (Some (PyFloat.abs amount), sign_type amount)
            | None => split_columns r rest debit_val credit_val
            end
          else split_columns r rest debit_val credit_val
      | None => split_columns r rest debit_val credit_val
      end
  end.

(** The second loop: the first filled and numeric amount column decides. *)
Fixpoint single_column (r : row) (amount_cols : list string)
  : option pyfloat * string :=
  match amount_cols with
  | [] => (None, "debit")
  | col :: rest =>
      match Pandas.loc col r with
      | Some val =>
          if filled val then
            match to_float val with
            | Some amount => (Some (PyFloat.abs amount), sign_type amount)
            | None => single_column r rest
            end
          else single_column r rest
      | None => single_column r rest
      end
  end.

Definition separate_banks : list string := ["citibank"; "hdfc"; "axis"].

Definition _extract_amount_and_type (r : row) (mapping : column_mapping)
           (bank_format : string) : option pyfloat * string :=
  let amount_cols := m_amount mapping in
  if List.existsb (String.eqb bank_format) separate_banks then
    match split_columns r amount_cols None None with
    | inl returned => returned
    | inr (debit_val, credit_val) =>
        match debit_val, credit_val with
        | Some d, _ =>
            if PyFloat.gtb0 d then (Some d, "debit")
            else match credit_val with
                 | Some c => if PyFloat.gtb0 c then (Some c, "credit")
                             else single_column r amount_cols
                 | None => single_column r amount_cols
                 end
        | None, Some c =>
            if PyFloat.gtb0 c then (Some c, "credit")
            else single_column r amount_cols
        | None, None => single_column r amount_cols
        end
    end
  else single_column r amount_cols.

(** The date step of the loop body of [_parse_bank_specific_csv];
    [None] is [continue]. *)
Definition row_date (mapping : column_mapping) (r : row) : option datetime :=
  match _find_column r (m_date mapping) with
  | None => None
  | Some date_col =>
      if String.eqb date_col EmptyString then None
      else match Pandas.loc date_col r with
           | None => None
           | Some date_val => _parse_date date_val
           end
  end.

(** [str(row[desc_col]) if desc_col else 'Unknown'] *)
Definition row_description (mapping : column_mapping) (r : row) : option string :=
  match _find_column r (m_description mapping) with
  | Some desc_col =>
      if String.eqb desc_col EmptyString then Some "Unknown"
      else option_map Pandas.str (Pandas.loc desc_col r)
  | None => Some "Unknown"
  end.

(** One pass of the loop of [_parse_bank_specific_csv]; [None] is a row
    that is skipped. *)
Definition bank_row (bank_format : string) (r : row) : option txrow :=
  let mapping := mapping_of bank_format in
  match row_date mapping r with
  | None => None
  | Some date =>
      match row_description mapping r with
      | None => None
      | Some description =>
          match _extract_amount_and_type r mapping bank_format with
          | (Some amount, trans_type) =>
              if negb (PyFloat.is_zero amount)
              then Some (mkTx date (PyStr.strip description)
                              (PyFloat.abs amount) trans_type bank_format None)
              else None
          | (None, _) => None
          end
      end
  end.

Definition _parse_bank_specific_csv (df : DataFrame) (bank_format : string)
  : list txrow :=
  filter_map (bank_row bank_format) (Pandas.iterrows df).

Definition any_word (words : list string) (col : string) : bool :=
  List.existsb (fun word => PyStr.contains word (PyStr.lower col)) words.

(** The amount loop of [_parse_generic_csv]: the first filled and numeric
    amount column gives the amount and the type. *)
Fixpoint generic_amount (r : row) (amount_cols : list string)
  : option (option pyfloat * string) :=
  match amount_cols with
  | [] => Some (None, "debit")
  | amount_col :: rest =>
      match Pandas.loc amount_col r with
      | None => None                                   (* KeyError *)
      | Some val =>
          if filled val then
            match to_float val with
            | Some amount =>
                Some (Some amount,
                      if PyStr.contains "credit" (PyStr.lower amount_col)
                      then "credit"
                      else if PyFloat.gtb0 amount
                              && negb (PyStr.contains "debit" (PyStr.lower amount_col))
                      then "credit"
                      else "debit")
            | None => generic_amount r rest
            end
          else generic_amount r rest
      end
  end.

(** One pass of the row loop of [_parse_generic_csv]. *)
Definition generic_row (date_col desc_col : string) (amount_cols : list string)
           (r : row) : option txrow :=
  match Pandas.loc date_col r with
  | None => None
  | Some date_val =>
      match _parse_date date_val with
      | None => None
      | Some date =>
          match Pandas.loc desc_col r with
          | None => None
          | Some desc_val =>
              let description := Pandas.str desc_val in
              match generic_amount r amount_cols with
              | Some (Some amount, trans_type) =>
                  if negb (PyFloat.is_zero amount)
                  then Some (mkTx date (PyStr.strip description)
                                  (PyFloat.abs amount) trans_type "unknown" None)
                  else None
              | _ => None
              end
          end
      end
  end.

Definition missing_columns : string :=
  "Could not identify required columns in CSV".

(** The three list comprehensions over [df.columns]. *)
Definition date_columns (df : DataFrame) : list string :=
  List.filter (any_word ["date"; "time"]) (columns df).

Definition description_columns (df : DataFrame) : list string :=
  List.filter (any_word ["description"; "narration"; "particulars"; "memo"])
              (columns df).

Definition amount_columns (df : DataFrame) : list string :=
  List.filter (any_word ["amount"; "debit"; "credit"]) (columns df).

Definition _parse_generic_csv (df : DataFrame) : result (list txrow) :=
  match date_columns df, description_columns df, amount_columns df with
  | date_col :: _, desc_col :: _, (_ :: _) as amount_cols =>
      Ok (filter_map (generic_row date_col desc_col amount_cols)
                               (Pandas.iterrows df))
  | _, _, _ => Err missing_columns       (* raise Exception(...) *)
  end.

(** [parse_csv] from the frame that [pd.read_csv] returned ([Err] when the
    bytes could not be decoded or read): every exception leaves as
    ["Error parsing CSV: ..."]. *)
Definition parse_csv (read : result DataFrame) : result (list txrow) :=
  let wrap (e : string) := Err ("Error parsing CSV: " ++ e) in
  match read with
  | Err e => wrap e
  | Ok df =>
      let bank_format := _detect_bank_from_columns (columns df) in
      if String.eqb bank_format "unknown" then
        match _parse_generic_csv df with
        | Ok l => Ok l
        | Err e => wrap e
        end
      else Ok (_parse_bank_specific_csv df bank_format)
  end.

End CSVParser.

(** ** utils/categorizer.py *)

Module TransactionCategorizer.

(** The dictionary in its insertion order, which is the order in which
    [category_patterns.items()] yields it. *)
Definition category_patterns : list (string * list string) :=
  [ ("Food & Dining",
     ["restaurant"; "cafe"; "coffee"; "starbucks"; "mcdonalds"; "subway";
      "pizza"; "burger"; "food"; "dining"; "doordash"; "uber eats";
      "grubhub"; "swiggy"; "zomato"; "dominos"; "kfc"; "taco bell"]);
    ("Groceries",
     ["walmart"; "target"; "costco"; "kroger"; "safeway"; "whole foods";
      "trader joe"; "grocery"; "supermarket"; "big bazaar"; "dmart";
      "reliance fresh"; "more"; "spencer"]);
    ("Transportation",
     ["uber"; "lyft"; "taxi"; "metro"; "bus"; "train"; "airline";
      "gas station"; "shell"; "exxon"; "chevron"; "bp"; "ola";
      "autorickshaw"; "parking"; "toll"]);
    ("Shopping",
     ["amazon"; "ebay"; "flipkart"; "myntra"; "ajio"; "nike";
      "adidas"; "h&m"; "zara"; "uniqlo"; "walmart"; "target";
      "best buy"; "apple store"; "macy"; "nordstrom"]);
    ("Entertainment",
     ["netflix"; "spotify"; "disney"; "hulu"; "amazon prime";
      "youtube"; "movie"; "theater"; "cinema"; "concert";
      "hotstar"; "zee5"; "sony liv"; "voot"]);
    ("Utilities",
     ["electric"; "electricity"; "water"; "gas"; "internet";
      "phone"; "mobile"; "broadband"; "wifi"; "cable";
      "bsnl"; "airtel"; "jio"; "vodafone"]);
    ("Healthcare",
     ["hospital"; "clinic"; "pharmacy"; "medical"; "doctor";
      "dentist"; "cvs"; "walgreens"; "apollo"; "fortis";
      "max healthcare"; "aiims"]);
    ("Banking & Finance",
     ["bank"; "atm"; "transfer"; "fee"; "interest"; "loan";
      "credit card"; "mortgage"; "insurance"; "premium";
      "mutual fund"; "sip"; "investment"]);
    ("Education",
     ["school"; "university"; "college"; "tuition"; "course";
      "udemy"; "coursera"; "khan academy"; "byju"; "unacademy"]);
    ("Travel",
     ["hotel"; "airbnb"; "booking"; "expedia"; "makemytrip";
      "goibibo"; "yatra"; "cleartrip"; "oyo"; "treebo"]);
    ("Salary/Income",
     ["salary"; "payroll"; "wages"; "income"; "bonus";
      "dividend"; "interest earned"; "refund"]) ].

(** Some pattern of the list occurs in the lower-cased description. *)
Definition hit (description_lower : string) (patterns : list string) : bool :=
  List.existsb
    (fun pattern => PyStr.contains (PyStr.lower pattern) description_lower)
    patterns.

(** The two nested loops: the first category with a hit is returned. *)
Fixpoint walk (table : list (string * list string)) (description_lower : string)
  : option string :=
  match table with
  | [] => None
  | (category, patterns) :: rest =>
      if hit description_lower patterns then Some category
      else walk rest description_lower
  end.

(** The word [w] starts [s] and is followed by a word boundary. *)
Definition word_at (w s : string) : bool :=
  PyStr.startswith w s &&
  match Regex.drop (String.length w) s with
  | EmptyString => true
  | String c _ => negb (PyStr.is_word c)
  end.

Fixpoint search_from (words : list string) (after_word : bool) (s : string)
  : bool :=
  (negb after_word && List.existsb (fun w => word_at w s) words)
  || match s with
     | EmptyString => false
     | String c s' => search_from words (PyStr.is_word c) s'
     end.

(** [re.search(r'\b(w1|...|wn)\b', s)] for words made of letters. *)
Definition word_search (words : list string) (s : string) : bool :=
  search_from words false s.

Definition _categorize_transaction (description : cell) : string :=
  match description with
  | NaN => "Other"
  | Val d =>
      let description_lower := PyStr.lower d in
      match walk category_patterns description_lower with
      | Some category => category
      | None =>
          if word_search ["atm"; "withdrawal"] description_lower
          then "Banking & Finance"
          else if word_search ["transfer"; "payment"] description_lower
          then "Banking & Finance"
          else if word_search ["gas"; "fuel"; "petrol"; "diesel"] description_lower
          then "Transportation"
          else if word_search ["medical"; "health"; "medicine"] description_lower
          then "Healthcare"
          else "Other"
      end
  end.

(** [categorize_transactions]: an empty frame is returned as it is, with
    no category column; otherwise every row gets its category. *)
Definition categorize_transactions (df : list txrow) : list txrow :=
  List.map
    (fun t => mkTx (tx_date t) (tx_description t) (tx_amount t) (tx_type t)
                   (tx_bank t)
                   (Some (_categorize_transaction (Val (tx_description t)))))
    df.

End TransactionCategorizer.

(** ** hashlib.sha256 *)

Module SHA256.

Definition mask : Z := 4294967295.
Definition w32 (x : Z) : Z := Z.land x mask.
Definition add32 (x y : Z) : Z := w32 (x + y).
Definition rotr (n x : Z) : Z :=
  w32 (Z.lor (Z.shiftr x n) (Z.shiftl x (32 - n))).
Definition shr (n x : Z) : Z := Z.shiftr x n.
Definition not32 (x : Z) : Z := Z.lxor x mask.

Definition Ch (x y z : Z) : Z :=
  Z.lxor (Z.land x y) (Z.land (not32 x) z).
Definition Maj (x y z : Z) : Z :=
  Z.lxor (Z.lxor (Z.land x y) (Z.land x z)) (Z.land y z).
Definition Sigma0 (x : Z) : Z :=
  Z.lxor (Z.lxor (rotr 2 x) (rotr 13 x)) (rotr 22 x).
Definition Sigma1 (x : Z) : Z :=
  Z.lxor (Z.lxor (rotr 6 x) (rotr 11 x)) (rotr 25 x).
Definition sigma0 (x : Z) : Z :=
  Z.lxor (Z.lxor (rotr 7 x) (rotr 18 x)) (shr 3 x).
Definition sigma1 (x : Z) : Z :=
  Z.lxor (Z.lxor (rotr 17 x) (rotr 19 x)) (shr 10 x).

(** The round constants: the first 32 bits of the fractional parts of the
    cube roots of the first 64 primes. *)
Definition K : list Z :=
  [
    1116352408; 1899447441; 3049323471; 3921009573; 961987163;
    1508970993; 2453635748; 2870763221; 3624381080; 310598401;
    607225278; 1426881987; 1925078388; 2162078206; 2614888103;
    3248222580; 3835390401; 4022224774; 264347078; 604807628;
    770255983; 1249150122; 1555081692; 1996064986; 2554220882;
    2821834349; 2952996808; 3210313671; 3336571891; 3584528711;
    113926993; 338241895; 666307205; 773529912; 1294757372;
    1396182291; 1695183700; 1986661051; 2177026350; 2456956037;
    2730485921; 2820302411; 3259730800; 3345764771; 3516065817;
    3600352804; 4094571909; 275423344; 430227734; 506948616;
    659060556; 883997877; 958139571; 1322822218; 1537002063;
    1747873779; 1955562222; 2024104815; 2227730452; 2361852424;
    2428436474; 2756734187; 3204031479; 3329325298 ].

Definition bytes_of (s : string) : list Z :=
  List.map (fun c => Z.of_nat (nat_of_ascii c)) (list_ascii_of_string s).

(** Big-endian bytes of [x], [n] of them. *)
Fixpoint be_bytes (n : nat) (x : Z) : list Z :=
  match n with
  | O => []
  | S n' => Z.land (Z.shiftr x (8 * Z.of_nat n')) 255 :: be_bytes n' x
  end.

(** The message, the byte 0x80, zeros up to 56 modulo 64, and the length
    in bits on eight bytes. *)
Definition pad (msg : list Z) : list Z :=
  let len := Z.of_nat (List.length msg) in
  let k := Z.to_nat ((55 - len) mod 64) in
  (msg ++ 128 :: List.repeat 0 k ++ be_bytes 8 (8 * len))%list.

Fixpoint words (bytes : list Z) : list Z :=
  match bytes with
  | a :: b :: c :: d :: rest =>
      (Z.shiftl a 24 + Z.shiftl b 16 + Z.shiftl c 8 + d) :: words rest
  | _ => []
  end.

(** [rev_w] holds the schedule so far, last word first. *)
Fixpoint schedule (n : nat) (rev_w : list Z) : list Z :=
  match n with
  | O => List.rev rev_w
  | S n' =>
      let w := add32 (add32 (sigma1 (List.nth 1 rev_w 0)) (List.nth 6 rev_w 0))
                     (add32 (sigma0 (List.nth 14 rev_w 0)) (List.nth 15 rev_w 0)) in
      schedule n' (w :: rev_w)
  end.

Definition state : Type := (Z * Z * Z * Z * Z * Z * Z * Z)%type.

Definition round (st : state) (kw : Z * Z) : state :=
  let '(a, b, c, d, e, f, g, h) := st in
  let t1 := add32 (add32 (add32 h (Sigma1 e)) (add32 (Ch e f g) (fst kw))) (snd kw) in
  let t2 := add32 (Sigma0 a) (Maj a b c) in
  (add32 t1 t2, a, b, c, add32 d t1, e, f, g).

Definition compress (st : state) (block : list Z) : state :=
  let w := schedule 48 (List.rev (words block)) in
  let '(a, b, c, d, e, f, g, h) := List.fold_left round (List.combine K w) st in
  let '(a0, b0, c0, d0, e0, f0, g0, h0) := st in
  (add32 a0 a, add32 b0 b, add32 c0 c, add32 d0 d,
   add32 e0 e, add32 f0 f, add32 g0 g, add32 h0 h).

Fixpoint blocks (n : nat) (bytes : list Z) (st : state) : state :=
  match n with
  | O => st
  | S n' => blocks n' (List.skipn 64 bytes) (compress st (List.firstn 64 bytes))
  end.

Definition hex_char (d : Z) : ascii :=
  if d <? 10 then ascii_of_nat (Z.to_nat (d + 48))
  else ascii_of_nat (Z.to_nat (d + 87)).

Fixpoint hex (n : nat) (x : Z) : string :=
  match n with
  | O => ""
  | S n' => String (hex_char (Z.land (Z.shiftr x (4 * Z.of_nat n')) 15)) (hex n' x)
  end.

(** The initial hash value: the first 32 bits of the fractional parts of
    the square roots of the first 8 primes. *)
Definition initial : state :=
  (1779033703, 3144134277, 1013904242, 2773480762,
   1359893119, 2600822924, 528734635, 1541459225).

(** [hashlib.sha256(msg).hexdigest()] *)
Definition hexdigest (msg : string) : string :=
  let padded := pad (bytes_of msg) in
  let '(a, b, c, d, e, f, g, h) :=
    blocks (List.length padded / 64) padded initial in
  hex 8 a ++ hex 8 b ++ hex 8 c ++ hex 8 d ++
  hex 8 e ++ hex 8 f ++ hex 8 g ++ hex 8 h.

End SHA256.

(** ** str of a float, of a date and of bytes *)

Module PyRepr.

Fixpoint rstrip_zeros (s : string) : string :=
  match s with
  | EmptyString => EmptyString
  | String c s' =>
      match rstrip_zeros s' with
      | EmptyString => if Ascii.eqb c "0" then EmptyString else String c EmptyString
      | r => String c r
      end
  end.

Fixpoint take (n : nat) (s : string) : string :=
  match n, s with
  | S n', String c s' => String c (take n' s')
  | _, _ => EmptyString
  end.

(** [repr] of the finite float denoted by a normalised [d]: fixed
    notation while the decimal point lies within [-4 < decpt <= 16],
    exponent notation otherwise.  It agrees with Python for the decimals
    a float holds exactly to 15 digits. *)
Definition finite (d : dec) : string :=
  let sign := if Dec.ltb0 d then "-" else "" in
  let digits := PyStr.of_Z (Z.abs (mant d)) in
  let n := String.length digits in
  let decpt := (Z.of_nat n - Z.of_nat (scale d)) in
  if Dec.is_zero d then "0.0"
  else if (decpt <=? -4) || (16 <? decpt) then
    let ds := rstrip_zeros digits in
    let frac := Regex.drop 1 ds in
    let e := decpt - 1 in
    sign ++ take 1 ds
         ++ match frac with EmptyString => "" | _ => "." ++ frac end
         ++ "e" ++ (if e <? 0 then "-" else "+") ++ PyStr.pad 2 (Z.abs e)
  else if (scale d =? 0)%nat then sign ++ digits ++ ".0"
  else if (0 <? decpt) then
    sign ++ take (Z.to_nat decpt) digits ++ "." ++ Regex.drop (Z.to_nat decpt) digits
  else sign ++ "0." ++ PyStr.zeros (Z.to_nat (- decpt)) ++ digits.

(** [repr] of a float, which is also what [str] and an f-string give. *)
Definition float (x : pyfloat) : string :=
  match x with
  | Finite d => finite d
  | Infinite negative => if negative then "-inf" else "inf"
  | NotANumber => "nan"
  end.

(** [date.strftime('%Y%m%d')] *)
Definition strftime_Ymd (d : datetime) : string :=
  PyStr.pad 4 (year d) ++ PyStr.pad 2 (month d) ++ PyStr.pad 2 (day d).

Definition hex2 (n : nat) : string :=
  String (SHA256.hex_char (Z.of_nat (n / 16)))
         (String (SHA256.hex_char (Z.of_nat (n mod 16))) "").

Definition double_quote : ascii := "034"%char.

Fixpoint escape (quote : ascii) (b : string) : string :=
  match b with
  | EmptyString => EmptyString
  | String c b' =>
      let n := nat_of_ascii c in
      (if Ascii.eqb c quote || Ascii.eqb c "\" then String "\" (String c "")
       else if (n =? 9)%nat then "\t"
       else if (n =? 10)%nat then "\n"
       else if (n =? 13)%nat then "\r"
       else if (n <? 32)%nat || (127 <=? n)%nat then "\x" ++ hex2 n
       else String c "")
      ++ escape quote b'
  end.

(** [str(b)] of a bytes object: the literal [b'...'], in double quotes
    when the bytes hold an apostrophe and no double quote. *)
Definition bytes (b : string) : string :=
  let quote : ascii :=
    if PyStr.has_char "'" b && negb (PyStr.has_char double_quote b)
    then double_quote else "'"%char in
  String "b" (String quote (escape quote b ++ String quote "")).

End PyRepr.

(** ** database/models.py and database/operations.py *)

Record BankAccount : Type := mkAccount
  { acc_id : nat; acc_user_id : nat; bank_name : string; account_name : string }.

Record Transaction : Type := mkTransaction
  { t_user_id : nat;
    t_bank_account_id : nat;
    t_date : datetime;
    t_description : string;
    t_amount : pyfloat;
    transaction_type : string;
    t_category : string;
    original_file_name : string;
    transaction_hash : string }.

Record UploadedFile : Type := mkUploaded
  { uf_user_id : nat;
    file_name : string;
    file_hash : string;
    file_size : nat;
    bank_detected : string;
    transactions_count : nat;
    processing_status : string }.

(** The three tables the upload handling touches, in insertion order. *)
Record Store : Type := mkStore
  { bank_accounts : list BankAccount;
    transactions : list Transaction;
    uploaded_files : list UploadedFile }.

Module BankAccountManager.

Definition same_account (user_id : nat) (bank account : string)
           (a : BankAccount) : bool :=
  (acc_user_id a =? user_id)%nat && String.eqb (bank_name a) bank
  && String.eqb (account_name a) account.

(** Returns the account and the store, with the account added when the
    query found none; a new row gets the next primary key.  The table has
    no unique column and the insert gives each of its not-null columns a
    value, so no constraint makes it fail. *)
Definition create_or_get_account (st : Store) (user_id : nat)
           (bank account : string) : BankAccount * Store :=
  match List.find (same_account user_id bank account) (bank_accounts st) with
  | Some a => (a, st)
  | None =>
      let a := mkAccount (S (List.length (bank_accounts st))) user_id bank account in
      (a, mkStore (bank_accounts st ++ [a]) (transactions st) (uploaded_files st))
  end.

End BankAccountManager.

Module TransactionManager.

Definition generate_transaction_hash (date : datetime) (amount : pyfloat)
           (description : string) : string :=
  let hash_string :=
    PyRepr.strftime_Ymd date ++ PyRepr.float amount ++ description in
  SHA256.hexdigest hash_string.

Definition existing (st : Store) (user_id : nat) (tx_hash : string) : bool :=
  List.existsb
    (fun t => (t_user_id t =? user_id)%nat && String.eqb (transaction_hash t) tx_hash)
    (transactions st).

(** The error of an insert into [transactions] without an amount. *)
Definition amount_is_null : string :=
  "IntegrityError: NOT NULL constraint failed: transactions.amount".

(** The loop of [save_transactions] and the commit that follows it; the
    query of each pass sees the rows added by the passes before it.
    SQLite stores a not-a-number as NULL and the column [amount] is not
    nullable: a row added with such an amount makes the next flush of the
    session fail, at the query of the following pass or at the commit.
    The session is then rolled back, so that no row of the call is
    stored, and the error is raised again. *)
Fixpoint save_rows (rows : list txrow) (user_id bank_account_id : nat)
         (file : string) (st : Store) (saved_count duplicate_count : nat)
  : result (Store * nat * nat) :=
  match rows with
  | [] => Ok (st, saved_count, duplicate_count)
  | r :: rest =>
      let tx_hash :=
        generate_transaction_hash (tx_date r) (tx_amount r) (tx_description r) in
      if existing st user_id tx_hash
      then save_rows rest user_id bank_account_id file st
                     saved_count (S duplicate_count)
      else if PyFloat.isnan (tx_amount r) then Err amount_is_null
      else
        let t := mkTransaction user_id bank_account_id (tx_date r)
                   (tx_description r) (tx_amount r) (tx_type r)
                   (match tx_category r with Some c => c | None => "Other" end)
                   file tx_hash in
        save_rows rest user_id bank_account_id file
                  (mkStore (bank_accounts st) (transactions st ++ [t])
                           (uploaded_files st))
                  (S saved_count) duplicate_count
  end.

Definition save_transactions (st : Store) (transactions_df : list txrow)
           (user_id bank_account_id : nat) (file : string)
  : result (Store * nat * nat) :=
  save_rows transactions_df user_id bank_account_id file st O O.

End TransactionManager.

Module FileManager.

Definition generate_file_hash (file_content : string) : string :=
  SHA256.hexdigest file_content.

Definition is_file_processed (st : Store) (file_content : string) : bool :=
  let h := generate_file_hash file_content in
  List.existsb (fun f => String.eqb (file_hash f) h) (uploaded_files st).

(** The insert fails on the unique constraint of [file_hash] when the
    hash is already in the table; the session is rolled back and the
    error raised again. *)
Definition record_file_upload (st : Store) (user_id : nat)
           (name file_content bank : string) (count : nat) : result Store :=
  let h := generate_file_hash file_content in
  if List.existsb (fun f => String.eqb (file_hash f) h) (uploaded_files st)
  then Err "IntegrityError: UNIQUE constraint failed: uploaded_files.file_hash"
  else
    let uploaded_file :=
      mkUploaded user_id name h (String.length file_content) bank count "processed" in
    Ok (mkStore (bank_accounts st) (transactions st)
                (uploaded_files st ++ [uploaded_file])).

End FileManager.

(** The users table: [username] and [email] are both unique columns. *)
Record User : Type := mkUser
  { usr_id : nat; username : string; email : string }.

Module UserManager.

(** [create_or_get_user]: the user with that name if there is one,
    whatever the e-mail asked for; otherwise a new user with the next
    primary key, unless the e-mail is taken, in which case the insert
    fails on the unique constraint, the session is rolled back and the
    error raised again.  Returns the user and the table. *)
Definition create_or_get_user (users : list User) (name mail : string)
  : result (User * list User) :=
  match List.find (fun u => String.eqb (username u) name) users with
  | Some user => Ok (user, users)
  | None =>
      if List.existsb (fun u => String.eqb (email u) mail) users
      then Err "IntegrityError: UNIQUE constraint failed: users.email"
      else
        let user := mkUser (S (List.length users)) name mail in
        Ok (user, (users ++ [user])%list)
  end.

Definition get_user_by_id (users : list User) (user_id : nat) : option User :=
  List.find (fun u => (usr_id u =? user_id)%nat) users.

(** [get_default_user()]: [create_or_get_user] with its default
    arguments. *)
Definition get_default_user (users : list User) : result (User * list User) :=
  create_or_get_user users "default_user" "user@example.com".

End UserManager.

(** ** parser/bank_parser.py *)

(** What the program takes from outside: the frame [pd.read_csv] builds
    from the decoded bytes, the page texts pdfplumber extracts (an empty
    string for a page without text), each [Err] when the library raises,
    and the year of [datetime.now()]. *)
Record Env : Type := mkEnv
  { read_csv : string -> result DataFrame;
    extract_pages : string -> result (list string);
    current_year : Z }.

(** An uploaded file: its name and its bytes. *)
Record upload : Type := mkUpload { name : string; content : string }.

Module BankParser.

Definition parse_pdf (env : Env) (f : upload) : result (list txrow) :=
  match extract_pages env (content f) with
  | Err e => Err ("Error parsing PDF: " ++ e)
  | Ok pages => Ok (PDFParser.parse_pages (current_year env) pages)
  end.

Definition parse_csv (env : Env) (f : upload) : result (list txrow) :=
  CSVParser.parse_csv (read_csv env (content f)).

Definition file_extension (f : upload) : string :=
  PyStr.lower (List.last (PyStr.split "." (name f)) "").

Definition parse_file (env : Env) (f : upload) : result (list txrow) :=
  let wrap (e : string) := Err ("Error parsing file " ++ name f ++ ": " ++ e) in
  let ext := file_extension f in
  if String.eqb ext "pdf" then
    match parse_pdf env f with Ok l => Ok l | Err e => wrap e end
  else if String.eqb ext "csv" then
    match parse_csv env f with Ok l => Ok l | Err e => wrap e end
  else wrap ("Unsupported file format: " ++ ext).

Definition detect_bank_format (content : string) : string :=
  let content_lower := PyStr.lower content in
  if PyStr.contains "chase" content_lower || PyStr.contains "jpmorgan" content_lower
  then "chase"
  else if PyStr.contains "wells fargo" content_lower
          || PyStr.contains "wellsfargo" content_lower
  then "wells_fargo"
  else if PyStr.contains "bank of america" content_lower
          || PyStr.contains "bankofamerica" content_lower
  then "bank_of_america"
  else if PyStr.contains "citibank" content_lower || PyStr.contains "citi" content_lower
  then "citibank"
  else if PyStr.contains "hdfc" content_lower then "hdfc"
  else if PyStr.contains "axis" content_lower then "axis"
  else "unknown".

End BankParser.

(** ** main.py: the upload handling *)

Module Main.

(** [st.session_state], as far as the upload handling reads it. *)
Record session_state : Type := mkSession
  { db_initialized : bool; current_user : option User }.

(** What [process_uploaded_files] reports for one file. *)
Inductive outcome : Type :=
| AlreadyProcessed              (* warning: "... was already processed before" *)
| Processed (saved_count duplicate_count : nat)          (* success *)
| NoTransactions                (* warning: "No transactions found in ..." *)
| Failed (msg : string).        (* error: "Error processing ..." *)

(** What it reports for the whole call. *)
Inductive report : Type :=
| NotInitialized   (* error: "Database not initialized. Cannot save transactions." *)
| Reports (outcomes : list outcome).

(** The body of the loop of [process_uploaded_files] for one file: every
    exception raised inside it is caught and reported, and the loop goes
    on.  What the managers have committed before the exception stays. *)
Definition process_file (env : Env) (user_id : nat) (st : Store) (f : upload)
  : Store * outcome :=
  let file_content := content f in
  if FileManager.is_file_processed st file_content then (st, AlreadyProcessed)
  else
    match BankParser.parse_file env f with
    | Err e => (st, Failed e)
    | Ok [] => (st, NoTransactions)
    | Ok parsed =>
        let categorized := TransactionCategorizer.categorize_transactions parsed in
        let bank_format := BankParser.detect_bank_format (PyRepr.bytes file_content) in
        let (bank_account, st1) :=
          BankAccountManager.create_or_get_account st user_id bank_format "Primary" in
        match TransactionManager.save_transactions
                st1 categorized user_id (acc_id bank_account) (name f) with
        | Err e => (st1, Failed e)
        | Ok (st2, saved_count, duplicate_count) =>
            match FileManager.record_file_upload
                    st2 user_id (name f) file_content bank_format saved_count with
            | Ok st3 => (st3, Processed saved_count duplicate_count)
            | Err e => (st2, Failed e)
            end
        end
    end.

(** The loop over the uploaded files, with the report of each. *)
Fixpoint process_files (env : Env) (user_id : nat) (st : Store)
         (files : list upload) : Store * list outcome :=
  match files with
  | [] => (st, [])
  | f :: rest =>
      let (st', o) := process_file env user_id st f in
      let (st'', os) := process_files env user_id st' rest in
      (st'', o :: os)
  end.

(** [process_uploaded_files]: without a database or without a current
    user it reports one error and returns; otherwise it runs the loop for
    the current user. *)
Definition process_uploaded_files (env : Env) (session : session_state)
           (st : Store) (files : list upload) : Store * report :=
  match current_user session with
  | Some user =>
      if db_initialized session
      then let (st', os) := process_files env (usr_id user) st files in
           (st', Reports os)
      else (st, NotInitialized)
  | None => (st, NotInitialized)
  end.

End Main.

(** * Vocabulary of the properties *)

(** The line feed, which a string literal cannot hold. *)
Definition newline : string := String "010" EmptyString.

(** The hash under which [save_transactions] stores a row. *)
Definition row_hash (r : txrow) : string :=
  TransactionManager.generate_transaction_hash
    (tx_date r) (tx_amount r) (tx_description r).

(** The transaction [save_transactions] adds for a row that is new. *)
Definition stored (r : txrow) (u acc : nat) (file : string) : Transaction :=
  mkTransaction u acc (tx_date r) (tx_description r) (tx_amount r) (tx_type r)
                (match tx_category r with Some c => c | None => "Other" end)
                file (row_hash r).

(** *** Sample uploads

    Three small CSV files and what [pd.read_csv] returns for them; the
    PDF reader refuses them all. *)

Definition sample_csv : string :=
  "Date,Description,Amount" ++ newline ++ "01/15/2024,COFFEE,-5.99" ++ newline.

Definition header_only_csv : string := "Date,Description,Amount" ++ newline.

Definition unlabelled_csv : string :=
  "Posted,Details,Value" ++ newline ++ "01/15/2024,COFFEE,-5.99" ++ newline.

Definition sample_env : Env :=
  mkEnv
    (fun bytes =>
       if String.eqb bytes sample_csv
       then Ok (mkFrame ["Date"; "Description"; "Amount"]
                        [[Val "01/15/2024"; Val "COFFEE"; Val "-5.99"]])
       else if String.eqb bytes header_only_csv
       then Ok (mkFrame ["Date"; "Description"; "Amount"] [])
       else if String.eqb bytes unlabelled_csv
       then Ok (mkFrame ["Posted"; "Details"; "Value"]
                        [[Val "01/15/2024"; Val "COFFEE"; Val "-5.99"]])
       else Err "No columns to parse from file")
    (fun _ => Err "No /Root object! - Is this really a PDF?")
    2026.

Definition empty_store : Store := mkStore [] [] [].

(** *** Floats *)

(** The float is zero, positive or plus infinity. *)
Definition nonnegative (x : pyfloat) : Prop :=
  match x with
  | Finite d => 0 <= mant d
  | Infinite negative => negative = false
  | NotANumber => False
  end.

(** The float is zero, negative or minus infinity. *)
Definition nonpositive (x : pyfloat) : Prop :=
  match x with
  | Finite d => mant d <= 0
  | Infinite negative => negative = true
  | NotANumber => False
  end.

(** Every character of the string satisfies [f]. *)
Fixpoint all_chars (f : ascii -> bool) (s : string) : bool :=
  match s with
  | EmptyString => true
  | String c s' => f c && all_chars f s'
  end.

(** The characters left in an amount by [cleaned]: digits, the point and
    the minus sign. *)
Definition plain_char (c : ascii) : bool :=
  PyStr.is_digit c || Ascii.eqb c "." || Ascii.eqb c "-".

(** *** Cells of a row

    The float the amount loops read in column [col] of a row: [None]
    when the column is absent, the cell missing or blank, or [float]
    raises on its text -- the loops pass over all of these alike. *)
Definition cell_value (r : row) (col : string) : option pyfloat :=
  match Pandas.loc col r with
  | Some val => if CSVParser.filled val then CSVParser.to_float val else None
  | None => None
  end.

(** The cell holds zero or nothing. *)
Definition zero_or_empty (r : row) (col : string) : Prop :=
  match cell_value r col with
  | Some z => PyFloat.is_zero z = true
  | None => True
  end.

(** What [_extract_amount_and_type] returns for these banks, from the
    numbers in the debit and the credit column, when no combined amount
    column holds a number. *)
Definition split_outcome (dv cv : option pyfloat) : option pyfloat * string :=
  match dv, cv with
  | Some d, Some c =>
      if PyFloat.gtb0 d then (Some d, "debit")
      else if PyFloat.gtb0 c then (Some c, "credit")
      else (Some (PyFloat.abs d), CSVParser.sign_type d)
  | Some d, None =>
      if PyFloat.gtb0 d then (Some d, "debit")
      else (Some (PyFloat.abs d), CSVParser.sign_type d)
  | None, Some c =>
      if PyFloat.gtb0 c then (Some c, "credit")
      else (Some (PyFloat.abs c), CSVParser.sign_type c)
  | None, None => (None, "debit")
  end.

(** *** Counting separators in dates and formats *)

(** Occurrences of the character [c] in [s]. *)
Fixpoint count (c : ascii) (s : string) : nat :=
  match s with
  | EmptyString => O
  | String b s' => ((if Ascii.eqb c b then 1 else 0) + count c s')%nat
  end.

(** The literal items for a run of characters. *)
Fixpoint lit_items (s : string) : list Strptime.fitem :=
  match s with
  | EmptyString => []
  | String c s' => Strptime.Lit c :: lit_items s'
  end.

(** 1 for the literal [c], 0 for any other item. *)
Definition lit_weight (c : ascii) (i : Strptime.fitem) : nat :=
  match i with
  | Strptime.Lit b => if Ascii.eqb c b then 1%nat else 0%nat
  | _ => 0%nat
  end.

(** Occurrences of the literal [c] in a compiled format. *)
Fixpoint lits (c : ascii) (items : list Strptime.fitem) : nat :=
  match items with
  | [] => O
  | i :: items' => (lit_weight c i + lits c items')%nat
  end.

(** The item is one of the two year directives. *)
Definition sets_year (i : Strptime.fitem) : bool :=
  match i with
  | Strptime.DirY | Strptime.Diry => true
  | _ => false
  end.

(** A separator: a character no directive can consume. *)
Definition separator (c : ascii) : Prop :=
  PyStr.is_digit c = false /\ Ascii.eqb c " " = false.

(** The type is one of the two strings and the stored amount is not
    negative. *)
Definition well_typed (t : txrow) : Prop :=
  (tx_type t = "credit" \/ tx_type t = "debit") /\ nonnegative (tx_amount t).

(** *** Capture groups of a match *)

(** The third group of a match holds no opening parenthesis. *)
Definition no_paren (c : Regex.captures) : Prop :=
  PyStr.has_char "(" (snd c) = false.

(** An item that adds no opening parenthesis to the third group. *)
Definition paren_free (i : Regex.item) : Prop :=
  match i with
  | Regex.Rep cls _ _ _ g => g = 3%nat -> cls "("%char = false
  | Regex.OptLit lit g => g = 3%nat -> PyStr.has_char "(" lit = false
  end.

(** The institution tags a detector can return. *)
Definition bank_tags : list string :=
  ["chase"; "wells_fargo"; "bank_of_america"; "citibank"; "hdfc"; "axis"].

(** The institutions with one signed amount column. *)
Definition signed_banks : list string :=
  ["chase"; "wells_fargo"; "bank_of_america"].

(** *** Stored transactions of an owner *)

Definition owned_by (user_id : nat) (t : Transaction) : bool :=
  (t_user_id t =? user_id)%nat.

(** The hashes of the transactions stored for an owner, oldest first. *)
Definition user_hashes (user_id : nat) (st : Store) : list string :=
  List.map transaction_hash (List.filter (owned_by user_id) (transactions st)).

(** What identifies a bank account to [create_or_get_account]. *)
Definition account_key (a : BankAccount) : nat * string * string :=
  (acc_user_id a, bank_name a, account_name a).

(** The category labels: those of the keyword table and 'Other'. *)
Definition category_labels : list string :=
  (List.map fst TransactionCategorizer.category_patterns ++ ["Other"])%list.

(** The fields of a row that the categorizer has to leave alone. *)
Definition uncategorized (t : txrow) : txrow :=
  mkTx (tx_date t) (tx_description t) (tx_amount t) (tx_type t) (tx_bank t) None.

(** *** Consistency of the store

    No two uploaded-file records share a hash, no two transactions of
    one owner share a hash, and no two bank accounts share their owner,
    bank and name. *)
Definition consistent (st : Store) : Prop :=
  NoDup (List.map file_hash (uploaded_files st))
  /\ (forall user_id, NoDup (user_hashes user_id st))
  /\ NoDup (List.map account_key (bank_accounts st)).

(** The reports that stand for a recorded file. *)
Definition is_processed (o : Main.outcome) : bool :=
  match o with
  | Main.Processed _ _ => true
  | _ => false
  end.

(** *** The users table

    User names are pairwise distinct, so are e-mails, and the primary
    keys count up from 1. *)
Definition users_ok (users : list User) : Prop :=
  NoDup (List.map username users)
  /\ NoDup (List.map email users)
  /\ List.map usr_id users = List.seq 1 (List.length users).

(** * Properties *)

(** ** The amount parser of the text extractor *)

Lemma parse_amount_of_unparseable (s : string) :
  PyFloat.float (PDFParser.cleaned s) = None ->
  PDFParser._parse_amount s = Dec.zero.
Proof.
  intros H. unfold PDFParser._parse_amount. now rewrite H.
Qed.

Lemma parse_amount_of_numeric (s : string) (a : pyfloat) :
  PyFloat.float (PDFParser.cleaned s) = Some a ->
  PDFParser._parse_amount s =
  if PyStr.has_char "-" s || PyStr.has_char "(" s then PyFloat.neg a else a.
Proof.
  intros H. unfold PDFParser._parse_amount. now rewrite H.
Qed.

(** C2, as stated, fails: the input "abc" has no numeric remainder, and
    the parser answers with the float 0.0, the very value it gives for
    the parsed input "0". *)
Lemma parse_amount_zero_is_the_error_signal :
  PyFloat.float (PDFParser.cleaned "abc") = None
  /\ PDFParser._parse_amount "abc" = Dec.zero
  /\ PyFloat.float (PDFParser.cleaned "0") = Some (Finite Dec.zero)
  /\ PDFParser._parse_amount "0" = PDFParser._parse_amount "abc".
Proof. repeat split; vm_compute; reflexivity. Qed.

(** C2 (amended): for every input whose cleaned remainder is not numeric
    the amount parser returns 0.0, without raising; this is also the
    value of a parsed "0", so the result alone does not tell the two
    apart. *)
Theorem parse_amount_unparseable_returns_zero (s : string) :
  PyFloat.float (PDFParser.cleaned s) = None ->
  PDFParser._parse_amount s = Dec.zero
  /\ PDFParser._parse_amount s = PDFParser._parse_amount "0".
Proof.
  intros H. rewrite (parse_amount_of_unparseable s H). split; reflexivity.
Qed.

Lemma parse_amount_unparseable_returns_zero_witness :
  PyFloat.float (PDFParser.cleaned "$,") = None
  /\ PDFParser._parse_amount "$," = Dec.zero
  /\ PDFParser._parse_amount "$," = PDFParser._parse_amount "0".
Proof.
  split; [reflexivity | apply (parse_amount_unparseable_returns_zero "$,"); reflexivity].
Defined.

(** ** The transaction hash *)

(** The hash of a row of one owner is on record once the row has been
    added. *)
Lemma existing_after_add (st : Store) (u : nat) (t : Transaction) :
  t_user_id t = u ->
  TransactionManager.existing
    (mkStore (bank_accounts st) (transactions st ++ [t]) (uploaded_files st))
    u (transaction_hash t) = true.
Proof.
  intros <-. unfold TransactionManager.existing. cbn [transactions].
  rewrite List.existsb_app. cbn [List.existsb].
  rewrite Nat.eqb_refl, String.eqb_refl. cbn [andb orb].
  apply Bool.orb_true_r.
Qed.

(** C4 fails on the code from right to left.  The hash is taken of the
    date, the printed amount and the description written one after the
    other with nothing in between, so the end of the amount and the start
    of the description run together: on any date, an amount of 1.0 with a
    description that starts with a 5 and an amount of 1.05 with the rest
    of that description are hashed from the same text.  The two
    transactions differ and have the same hash; saved one after the other
    for one owner, the second is counted as a duplicate of the first and
    its amount is never stored. *)
Theorem transaction_hash_runs_fields_together (date : datetime)
        (description : string) :
  let t1 := mkTx date ("5" ++ description) (mkDec 1 0) "debit" "chase" None in
  let t2 := mkTx date description (mkDec 105 2) "debit" "chase" None in
  (tx_date t1, tx_amount t1, tx_description t1)
  <> (tx_date t2, tx_amount t2, tx_description t2)
  /\ PyRepr.float (tx_amount t1) ++ tx_description t1
     = PyRepr.float (tx_amount t2) ++ tx_description t2
  /\ row_hash t1 = row_hash t2
  /\ forall (st : Store) (user_id account : nat) (file : string),
       exists st' saved_count,
         TransactionManager.save_transactions st [t1; t2] user_id account file
         = Ok (st', saved_count, (2 - saved_count)%nat)
         /\ (saved_count <= 1)%nat
         /\ forall t, In t (transactions st') ->
                      In t (transactions st) \/ t_amount t = mkDec 1 0.
Proof.
  cbv zeta. cbn [tx_date tx_amount tx_description].
  assert (T : PyRepr.float (mkDec 1 0) ++ "5" ++ description
              = PyRepr.float (mkDec 105 2) ++ description) by reflexivity.
  assert (H : row_hash (mkTx date ("5" ++ description) (mkDec 1 0)
                             "debit" "chase" None)
              = row_hash (mkTx date description (mkDec 105 2)
                               "debit" "chase" None)).
  { unfold row_hash, TransactionManager.generate_transaction_hash.
    cbn [tx_date tx_amount tx_description]. now rewrite T. }
  split; [intros K; discriminate K |]. split; [exact T |]. split; [exact H |].
  intros st u acc file. unfold TransactionManager.save_transactions.
  cbn [TransactionManager.save_rows tx_date tx_amount tx_description tx_type
       tx_category PyFloat.isnan].
  unfold row_hash in H. cbn [tx_date tx_amount tx_description] in H.
  rewrite <- H.
  set (h := TransactionManager.generate_transaction_hash date (mkDec 1 0)
              ("5" ++ description)).
  destruct (TransactionManager.existing st u h) eqn:E1.
  - exists st, O. split; [reflexivity |]. split; [lia | auto].
  - set (t := mkTransaction u acc date ("5" ++ description) (mkDec 1 0)
                "debit" "Other" file h).
    assert (E2 : TransactionManager.existing
                   (mkStore (bank_accounts st) (transactions st ++ [t])
                            (uploaded_files st)) u h = true)
      by exact (existing_after_add st u t eq_refl).
    rewrite E2.
    eexists. exists 1%nat. split; [reflexivity |]. split; [lia |].
    cbn [transactions]. intros t' Ht'. apply List.in_app_or in Ht'.
    destruct Ht' as [Ht' | [<- | []]]; [now left | now right].
Qed.

(** ** The categorizer *)

Lemma walk_first_hit (pre post : list (string * list string))
      (c : string) (pats : list string) (dl : string) :
  (forall c' p', In (c', p') pre -> TransactionCategorizer.hit dl p' = false) ->
  TransactionCategorizer.hit dl pats = true ->
  TransactionCategorizer.walk (pre ++ (c, pats) :: post) dl = Some c.
Proof.
  intros Hpre Hhit. induction pre as [|[c0 p0] pre IH]; simpl.
  - now rewrite Hhit.
  - rewrite (Hpre c0 p0) by (now left).
    apply IH. intros c' p' Hin. apply (Hpre c' p'). now right.
Qed.

Lemma walk_no_hit (table : list (string * list string)) (dl : string) :
  (forall c p, In (c, p) table -> TransactionCategorizer.hit dl p = false) ->
  TransactionCategorizer.walk table dl = None.
Proof.
  induction table as [|[c0 p0] table IH]; intros H; simpl.
  - reflexivity.
  - rewrite (H c0 p0) by (now left). apply IH.
    intros c p Hin. apply (H c p). now right.
Qed.

(** The category of a description is the first one of the table, in its
    order, with a keyword inside the lower-cased description. *)
Lemma categorize_first_hit (pre post : list (string * list string))
      (c : string) (pats : list string) (d : string) :
  TransactionCategorizer.category_patterns = (pre ++ (c, pats) :: post)%list ->
  (forall c' p', In (c', p') pre ->
                 TransactionCategorizer.hit (PyStr.lower d) p' = false) ->
  TransactionCategorizer.hit (PyStr.lower d) pats = true ->
  TransactionCategorizer._categorize_transaction (Val d) = c.
Proof.
  intros Ht Hpre Hhit. unfold TransactionCategorizer._categorize_transaction.
  rewrite Ht. now rewrite (walk_first_hit pre post c pats _ Hpre Hhit).
Qed.

Lemma hit_iff (dl : string) (keywords : list string) :
  TransactionCategorizer.hit dl keywords = true <->
  exists keyword, In keyword keywords
                  /\ PyStr.contains (PyStr.lower keyword) dl = true.
Proof. unfold TransactionCategorizer.hit. apply List.existsb_exists. Qed.

Lemma no_hit (dl : string) (keywords : list string) :
  (forall keyword, In keyword keywords ->
                   PyStr.contains (PyStr.lower keyword) dl = false) ->
  TransactionCategorizer.hit dl keywords = false.
Proof.
  intros H. destruct (TransactionCategorizer.hit dl keywords) eqn:E; [|reflexivity].
  apply hit_iff in E. destruct E as (k & Hin & Hk).
  rewrite (H k Hin) in Hk. discriminate.
Qed.

Lemma category_names_distinct :
  NoDup (List.map fst TransactionCategorizer.category_patterns).
Proof.
  unfold TransactionCategorizer.category_patterns. cbn [List.map fst].
  repeat (constructor; [cbn [In]; intuition discriminate |]). constructor.
Qed.

(** C6: the category table is walked in its fixed order, and the first
    category one of whose keywords occurs in the description, letter case
    set aside, is the answer; no category further down the table is the
    answer then, whether it has a keyword in the description or not.  So
    "UBER EATS ORDER" is categorised 'Food & Dining', which heads the
    table and lists "uber eats", and not 'Transportation', which comes
    later and lists "uber", a keyword that occurs in the description as
    well. *)
Theorem first_category_with_a_keyword_wins :
  (forall (description : string) (before after : list (string * list string))
          (category : string) (keywords : list string) (keyword : string),
      TransactionCategorizer.category_patterns
      = (before ++ (category, keywords) :: after)%list ->
      In keyword keywords ->
      PyStr.contains (PyStr.lower keyword) (PyStr.lower description) = true ->
      (forall earlier keywords' keyword',
          In (earlier, keywords') before -> In keyword' keywords' ->
          PyStr.contains (PyStr.lower keyword') (PyStr.lower description) = false) ->
      TransactionCategorizer._categorize_transaction (Val description) = category
      /\ forall later keywords',
           In (later, keywords') after ->
           TransactionCategorizer._categorize_transaction (Val description)
           <> later)
  /\ TransactionCategorizer._categorize_transaction (Val "UBER EATS ORDER")
     = "Food & Dining"
  /\ TransactionCategorizer._categorize_transaction (Val "UBER EATS ORDER")
     <> "Transportation"
  /\ (exists keywords after,
        TransactionCategorizer.category_patterns
        = ("Food & Dining", keywords) :: after
        /\ In "uber eats" keywords
        /\ PyStr.contains (PyStr.lower "uber eats") (PyStr.lower "UBER EATS ORDER")
           = true
        /\ exists keywords',
             In ("Transportation", keywords') after
             /\ In "uber" keywords'
             /\ PyStr.contains (PyStr.lower "uber") (PyStr.lower "UBER EATS ORDER")
                = true).
Proof.
  assert (Rule :
            forall (description : string) (before after : list (string * list string))
                   (category : string) (keywords : list string) (keyword : string),
              TransactionCategorizer.category_patterns
              = (before ++ (category, keywords) :: after)%list ->
              In keyword keywords ->
              PyStr.contains (PyStr.lower keyword) (PyStr.lower description) = true ->
              (forall earlier keywords' keyword',
                  In (earlier, keywords') before -> In keyword' keywords' ->
                  PyStr.contains (PyStr.lower keyword') (PyStr.lower description)
                  = false) ->
              TransactionCategorizer._categorize_transaction (Val description)
              = category
              /\ forall later keywords',
                   In (later, keywords') after ->
                   TransactionCategorizer._categorize_transaction (Val description)
                   <> later).
  { intros description before after category keywords keyword Ht Hin Hk Hbefore.
    assert (E : TransactionCategorizer._categorize_transaction (Val description)
                = category).
    { apply (categorize_first_hit before after category keywords description Ht).
      - intros c' p' Hc'. apply no_hit. intros k' Hk'.
        exact (Hbefore c' p' k' Hc' Hk').
      - apply hit_iff. now exists keyword. }
    split; [exact E |].
    intros later keywords' Hlater. rewrite E. intros <-.
    pose proof category_names_distinct as N. rewrite Ht in N.
    rewrite List.map_app in N. cbn [List.map fst] in N.
    apply List.NoDup_remove_2 in N. apply N.
    apply List.in_or_app. right.
    apply List.in_map_iff. exists (category, keywords'). now split. }
  split; [exact Rule |].
  set (table := TransactionCategorizer.category_patterns).
  destruct (Rule "UBER EATS ORDER" [] (List.tl table) "Food & Dining"
                 (snd (List.nth 0 table (EmptyString, []))) "uber eats")
    as [E Later].
  - reflexivity.
  - cbn; tauto.
  - reflexivity.
  - intros earlier keywords' keyword' [].
  - split; [exact E |]. split.
    + apply (Later "Transportation" (snd (List.nth 2 table (EmptyString, [])))).
      cbn; tauto.
    + exists (snd (List.nth 0 table (EmptyString, []))), (List.tl table).
      split; [reflexivity |]. split; [cbn; tauto |]. split; [reflexivity |].
      exists (snd (List.nth 2 table (EmptyString, []))).
      split; [cbn; tauto |]. split; [cbn; tauto | reflexivity].
Qed.

(** ** The file-level duplicate check and the upload handling *)

Section UploadHandling.

Import Main.

Lemma save_rows_keeps_files (rows : list txrow) (u b : nat) (file : string) :
  forall (st : Store) (s d : nat) (st' : Store) (s' d' : nat),
    TransactionManager.save_rows rows u b file st s d = Ok (st', s', d') ->
    uploaded_files st' = uploaded_files st.
Proof.
  induction rows as [|r rows IH]; intros st s d st' s' d' H; simpl in H.
  - injection H as <- _ _. reflexivity.
  - destruct (TransactionManager.existing st u _); [exact (IH _ _ _ _ _ _ H) |].
    destruct (PyFloat.isnan (tx_amount r)); [discriminate |].
    now rewrite (IH _ _ _ _ _ _ H).
Qed.

Lemma save_transactions_keeps_files (st : Store) (df : list txrow)
      (u b : nat) (file : string) (st' : Store) (s d : nat) :
  TransactionManager.save_transactions st df u b file = Ok (st', s, d) ->
  uploaded_files st' = uploaded_files st.
Proof. apply save_rows_keeps_files. Qed.

Lemma save_rows_cons (r : txrow) (rows : list txrow) (u acc : nat)
      (file : string) (st : Store) (s d : nat) :
  TransactionManager.save_rows (r :: rows) u acc file st s d =
  if TransactionManager.existing st u (row_hash r)
  then TransactionManager.save_rows rows u acc file st s (S d)
  else if PyFloat.isnan (tx_amount r)
  then Err TransactionManager.amount_is_null
  else TransactionManager.save_rows rows u acc file
         (mkStore (bank_accounts st) (transactions st ++ [stored r u acc file])
                  (uploaded_files st))
         (S s) d.
Proof. reflexivity. Qed.

(** The error of [save_rows] is that of an amount that is not a number,
    in a row that was given. *)
Lemma save_rows_error (rows : list txrow) (u acc : nat) (file : string) :
  forall (st : Store) (s d : nat) (e : string),
    TransactionManager.save_rows rows u acc file st s d = Err e ->
    e = TransactionManager.amount_is_null
    /\ exists r, In r rows /\ PyFloat.isnan (tx_amount r) = true.
Proof.
  induction rows as [|r rows IH]; intros st s d e H; [discriminate |].
  rewrite save_rows_cons in H.
  assert (Rest : forall st0 s0 d0,
             TransactionManager.save_rows rows u acc file st0 s0 d0 = Err e ->
             e = TransactionManager.amount_is_null
             /\ exists r', In r' (r :: rows) /\ PyFloat.isnan (tx_amount r') = true).
  { intros st0 s0 d0 K. destruct (IH _ _ _ _ K) as (E & r' & Hin & Hn).
    split; [exact E |]. exists r'. split; [now right | exact Hn]. }
  destruct (TransactionManager.existing st u (row_hash r)); [exact (Rest _ _ _ H) |].
  destruct (PyFloat.isnan (tx_amount r)) eqn:N; [|exact (Rest _ _ _ H)].
  injection H as <-. split; [reflexivity |]. exists r. split; [now left | exact N].
Qed.

(** Rows whose amount is a number are saved without an error. *)
Lemma save_rows_returns (rows : list txrow) (u b : nat) (file : string) :
  (forall r, In r rows -> PyFloat.isnan (tx_amount r) = false) ->
  forall (st : Store) (s d : nat),
    exists st' s' d',
      TransactionManager.save_rows rows u b file st s d = Ok (st', s', d').
Proof.
  induction rows as [|r rows IH]; intros H st s d; simpl.
  - eauto.
  - assert (H' : forall r', In r' rows -> PyFloat.isnan (tx_amount r') = false)
      by (intros r' Hr'; apply H; now right).
    destruct (TransactionManager.existing st u _); [apply (IH H') |].
    rewrite (H r (or_introl eq_refl)). apply (IH H').
Qed.

Lemma categorize_keeps_amounts (rows : list txrow) (r : txrow) :
  In r (TransactionCategorizer.categorize_transactions rows) ->
  exists r0, In r0 rows /\ tx_amount r = tx_amount r0.
Proof.
  unfold TransactionCategorizer.categorize_transactions. intros H.
  apply List.in_map_iff in H. destruct H as (r0 & <- & Hin).
  exists r0. split; [exact Hin | reflexivity].
Qed.

Lemma account_keeps_files (st : Store) (u : nat) (bank account : string) :
  uploaded_files (snd (BankAccountManager.create_or_get_account st u bank account))
  = uploaded_files st.
Proof.
  unfold BankAccountManager.create_or_get_account.
  destruct (List.find _ _); reflexivity.
Qed.

(** The test reads the table of uploaded files and nothing else. *)
Lemma is_file_processed_ext (st st' : Store) (c : string) :
  uploaded_files st' = uploaded_files st ->
  FileManager.is_file_processed st' c = FileManager.is_file_processed st c.
Proof. intros H. unfold FileManager.is_file_processed. now rewrite H. Qed.

Lemma is_file_processed_iff (st : Store) (c : string) :
  FileManager.is_file_processed st c = true <->
  exists r, In r (uploaded_files st)
            /\ file_hash r = FileManager.generate_file_hash c.
Proof.
  unfold FileManager.is_file_processed. rewrite List.existsb_exists.
  split; intros [r [Hin Hr]]; exists r; split; trivial.
  - now apply String.eqb_eq.
  - now apply String.eqb_eq.
Qed.

Lemma record_file_upload_ok (st : Store) (u : nat) (nm c bank : string) (n : nat) :
  FileManager.is_file_processed st c = false ->
  FileManager.record_file_upload st u nm c bank n
  = Ok (mkStore (bank_accounts st) (transactions st)
                (uploaded_files st
                 ++ [mkUploaded u nm (FileManager.generate_file_hash c)
                                (String.length c) bank n "processed"])).
Proof.
  unfold FileManager.is_file_processed, FileManager.record_file_upload.
  intros H. now rewrite H.
Qed.

Lemma record_file_upload_refused (st : Store) (u : nat) (nm c bank : string) (n : nat) :
  FileManager.is_file_processed st c = true ->
  exists e, FileManager.record_file_upload st u nm c bank n = Err e.
Proof.
  unfold FileManager.is_file_processed, FileManager.record_file_upload.
  intros H. rewrite H. eauto.
Qed.

Lemma record_file_upload_marks (st st' : Store) (u : nat) (nm c bank : string) (n : nat) :
  FileManager.record_file_upload st u nm c bank n = Ok st' ->
  FileManager.is_file_processed st' c = true
  /\ exists r, uploaded_files st' = (uploaded_files st ++ [r])%list
               /\ file_hash r = FileManager.generate_file_hash c
               /\ uf_user_id r = u.
Proof.
  unfold FileManager.record_file_upload.
  destruct (List.existsb _ _); [discriminate |].
  intros H. injection H as <-. split.
  - unfold FileManager.is_file_processed. simpl.
    rewrite List.existsb_app. simpl. rewrite String.eqb_refl.
    now rewrite Bool.orb_true_r.
  - eexists. simpl. repeat split.
Qed.

(** The ways the loop body can end, with the store each leaves. *)
Lemma process_file_already (env : Env) (u : nat) (st : Store) (f : upload) :
  FileManager.is_file_processed st (content f) = true ->
  process_file env u st f = (st, AlreadyProcessed).
Proof. intros H. unfold process_file. now rewrite H. Qed.

Lemma process_file_failed (env : Env) (u : nat) (st : Store) (f : upload) (e : string) :
  FileManager.is_file_processed st (content f) = false ->
  BankParser.parse_file env f = Err e ->
  process_file env u st f = (st, Failed e).
Proof. intros H P. unfold process_file. now rewrite H, P. Qed.

Lemma process_file_empty (env : Env) (u : nat) (st : Store) (f : upload) :
  FileManager.is_file_processed st (content f) = false ->
  BankParser.parse_file env f = Ok [] ->
  process_file env u st f = (st, NoTransactions).
Proof. intros H P. unfold process_file. now rewrite H, P. Qed.

(** With rows, the account is created or found and the rows are handed
    to [save_transactions]: the file is reported as failed with the
    account kept when that raises, and as processed, with its record
    added, when it returns. *)
Lemma process_file_with_rows (env : Env) (u : nat) (st : Store) (f : upload)
      (t : txrow) (l : list txrow) :
  FileManager.is_file_processed st (content f) = false ->
  BankParser.parse_file env f = Ok (t :: l) ->
  let bank := BankParser.detect_bank_format (PyRepr.bytes (content f)) in
  let acc := fst (BankAccountManager.create_or_get_account st u bank "Primary") in
  let st1 := snd (BankAccountManager.create_or_get_account st u bank "Primary") in
  process_file env u st f =
  match TransactionManager.save_transactions
          st1 (TransactionCategorizer.categorize_transactions (t :: l))
          u (acc_id acc) (name f) with
  | Err e => (st1, Failed e)
  | Ok (st2, s, d) =>
      (mkStore (bank_accounts st2) (transactions st2)
               (uploaded_files st2
                ++ [mkUploaded u (name f) (FileManager.generate_file_hash (content f))
                               (String.length (content f)) bank s "processed"]),
       Processed s d)
  end.
Proof.
  intros H P bank acc st1. unfold process_file. rewrite H, P.
  fold bank. unfold acc, st1.
  destruct (BankAccountManager.create_or_get_account st u bank "Primary")
    as [acc0 st0] eqn:E1. cbn [fst snd].
  destruct (TransactionManager.save_transactions st0 _ u (acc_id acc0) (name f))
    as [[[st2 s] d]|e] eqn:E2; [|reflexivity].
  assert (F2 : uploaded_files st2 = uploaded_files st).
  { rewrite (save_transactions_keeps_files _ _ _ _ _ _ _ _ E2).
    pose proof (account_keeps_files st u bank "Primary") as K1.
    rewrite E1 in K1. exact K1. }
  assert (N2 : FileManager.is_file_processed st2 (content f) = false).
  { now rewrite (is_file_processed_ext st st2). }
  now rewrite (record_file_upload_ok st2 u (name f) (content f) bank s N2).
Qed.

Lemma process_file_rows (env : Env) (u : nat) (st : Store) (f : upload)
      (t : txrow) (l : list txrow) :
  FileManager.is_file_processed st (content f) = false ->
  BankParser.parse_file env f = Ok (t :: l) ->
  (forall r, In r (t :: l) -> PyFloat.isnan (tx_amount r) = false) ->
  exists st' s d,
    process_file env u st f = (st', Processed s d)
    /\ FileManager.is_file_processed st' (content f) = true.
Proof.
  intros H P Hn. rewrite (process_file_with_rows env u st f t l H P).
  set (bank := BankParser.detect_bank_format (PyRepr.bytes (content f))).
  set (acc := fst (BankAccountManager.create_or_get_account st u bank "Primary")).
  set (st1 := snd (BankAccountManager.create_or_get_account st u bank "Primary")).
  destruct (save_rows_returns
              (TransactionCategorizer.categorize_transactions (t :: l))
              u (acc_id acc) (name f)) with (st := st1) (s := O) (d := O)
    as (st2 & s & d & E).
  { intros r Hr. destruct (categorize_keeps_amounts _ _ Hr) as (r0 & Hr0 & ->).
    now apply Hn. }
  unfold TransactionManager.save_transactions. rewrite E.
  eexists. exists s, d. split; [reflexivity |].
  unfold FileManager.is_file_processed. cbn [uploaded_files].
  rewrite List.existsb_app. cbn [List.existsb file_hash].
  unfold FileManager.generate_file_hash. rewrite String.eqb_refl.
  cbn [orb]. apply Bool.orb_true_r.
Qed.

(** The five ways [process_file] can end. *)
Lemma process_file_inversion (env : Env) (u : nat) (st st' : Store) (f : upload)
      (o : outcome) :
  process_file env u st f = (st', o) ->
  (FileManager.is_file_processed st (content f) = true
   /\ st' = st /\ o = AlreadyProcessed)
  \/ (FileManager.is_file_processed st (content f) = false
      /\ ((exists e, BankParser.parse_file env f = Err e
                     /\ st' = st /\ o = Failed e)
          \/ (BankParser.parse_file env f = Ok [] /\ st' = st
              /\ o = NoTransactions)
          \/ (exists t l acc st1,
                BankParser.parse_file env f = Ok (t :: l)
                /\ BankAccountManager.create_or_get_account st u
                     (BankParser.detect_bank_format (PyRepr.bytes (content f)))
                     "Primary" = (acc, st1)
                /\ ((exists e,
                        TransactionManager.save_transactions st1
                          (TransactionCategorizer.categorize_transactions (t :: l))
                          u (acc_id acc) (name f) = Err e
                        /\ st' = st1 /\ o = Failed e)
                    \/ (exists st2 s d,
                          TransactionManager.save_transactions st1
                            (TransactionCategorizer.categorize_transactions (t :: l))
                            u (acc_id acc) (name f) = Ok (st2, s, d)
                          /\ FileManager.record_file_upload st2 u (name f) (content f)
                               (BankParser.detect_bank_format
                                  (PyRepr.bytes (content f))) s
                             = Ok st'
                          /\ o = Processed s d))))).
Proof.
  intros K.
  destruct (FileManager.is_file_processed st (content f)) eqn:H.
  - rewrite (process_file_already env u st f H) in K. injection K as <- <-.
    left. auto.
  - right. split; [reflexivity |].
    destruct (BankParser.parse_file env f) as [[|t l]|e] eqn:P.
    + rewrite (process_file_empty env u st f H P) in K. injection K as <- <-.
      right. left. auto.
    + right. right.
      rewrite (process_file_with_rows env u st f t l H P) in K.
      set (bank := BankParser.detect_bank_format (PyRepr.bytes (content f))) in *.
      destruct (BankAccountManager.create_or_get_account st u bank "Primary")
        as [acc st1] eqn:E1. cbn [fst snd] in K.
      exists t, l, acc, st1. split; [reflexivity |]. split; [reflexivity |].
      destruct (TransactionManager.save_transactions st1 _ u (acc_id acc) (name f))
        as [[[st2 s] d]|e] eqn:E2.
      * right. exists st2, s, d. split; [reflexivity |].
        injection K as <- <-. split; [|reflexivity].
        apply record_file_upload_ok.
        rewrite (is_file_processed_ext st st2); [exact H |].
        rewrite (save_transactions_keeps_files _ _ _ _ _ _ _ _ E2).
        pose proof (account_keeps_files st u bank "Primary") as K1.
        rewrite E1 in K1. exact K1.
      * left. exists e. injection K as <- <-. auto.
    + rewrite (process_file_failed env u st f e H P) in K. injection K as <- <-.
      left. exists e. auto.
Qed.

(** A file reported as processed has its hash on record afterwards. *)
Lemma processed_is_recorded (env : Env) (u : nat) (st st1 : Store) (f : upload)
      (s d : nat) :
  process_file env u st f = (st1, Processed s d) ->
  FileManager.is_file_processed st1 (content f) = true.
Proof.
  intros H. apply process_file_inversion in H.
  destruct H as [(_ & _ & K) | (N & [(e & _ & _ & K) | [(_ & _ & K) | K]])];
    try discriminate.
  destruct K as (t & l & acc & sa & _ & _ & [(e & _ & _ & K) | K]);
    [discriminate |].
  destruct K as (st2 & s' & d' & _ & R & _).
  exact (proj1 (record_file_upload_marks _ _ _ _ _ _ _ R)).
Qed.

(** No step of the upload handling removes an uploaded-file record. *)
Lemma process_file_keeps_records (env : Env) (u : nat) (st : Store) (f : upload)
      (c : string) :
  FileManager.is_file_processed st c = true ->
  FileManager.is_file_processed (fst (process_file env u st f)) c = true.
Proof.
  intros Hc.
  destruct (process_file env u st f) as [st' o] eqn:E. cbn [fst].
  apply process_file_inversion in E.
  destruct E as [(_ & -> & _) | (N & [(e & _ & -> & _) | [(_ & -> & _) | K]])];
    trivial.
  destruct K as (t & l & acc & st1 & _ & A & K).
  assert (F1 : uploaded_files st1 = uploaded_files st).
  { pose proof (account_keeps_files st u
                  (BankParser.detect_bank_format (PyRepr.bytes (content f)))
                  "Primary") as K1.
    rewrite A in K1. exact K1. }
  destruct K as [(e & _ & -> & _) | (st2 & s & d & S & R & _)].
  - now rewrite (is_file_processed_ext st st1).
  - destruct (record_file_upload_marks _ _ _ _ _ _ _ R) as (_ & r & Hr & _).
    unfold FileManager.is_file_processed in *.
    rewrite Hr, (save_transactions_keeps_files _ _ _ _ _ _ _ _ S), F1.
    rewrite List.existsb_app, Hc. reflexivity.
Qed.

Lemma process_files_keep_records (env : Env) (u : nat) (files : list upload) :
  forall (st : Store) (c : string),
    FileManager.is_file_processed st c = true ->
    FileManager.is_file_processed (fst (process_files env u st files)) c = true.
Proof.
  induction files as [|f files IH]; intros st c Hc; simpl.
  - exact Hc.
  - pose proof (process_file_keeps_records env u st f c Hc) as K.
    destruct (process_file env u st f) as [st' o]. simpl in K.
    specialize (IH st' c K).
    destruct (process_files env u st' files) as [st'' os].
    exact IH.
Qed.

(** [process_uploaded_files] is the loop for the current user, or
    nothing at all. *)
Lemma process_uploaded_files_cases (env : Env) (session : session_state)
      (st : Store) (files : list upload) :
  (exists user,
      current_user session = Some user /\ db_initialized session = true
      /\ process_uploaded_files env session st files
         = (fst (process_files env (usr_id user) st files),
            Reports (snd (process_files env (usr_id user) st files))))
  \/ ((current_user session = None \/ db_initialized session = false)
      /\ process_uploaded_files env session st files = (st, NotInitialized)).
Proof.
  unfold process_uploaded_files.
  destruct (current_user session) as [user|]; [|right; auto].
  destruct (db_initialized session); [|right; auto].
  left. exists user. split; [reflexivity |]. split; [reflexivity |].
  destruct (process_files env (usr_id user) st files); reflexivity.
Qed.

Lemma process_uploaded_files_keep_records (env : Env) (session : session_state)
      (files : list upload) (st : Store) (c : string) :
  FileManager.is_file_processed st c = true ->
  FileManager.is_file_processed
    (fst (process_uploaded_files env session st files)) c = true.
Proof.
  intros Hc.
  destruct (process_uploaded_files_cases env session st files)
    as [(user & _ & _ & ->) | (_ & ->)]; cbn [fst]; [|exact Hc].
  now apply process_files_keep_records.
Qed.

End UploadHandling.

Lemma record_keeps_hashes_unique (st st' : Store) (u : nat)
      (nm c bank : string) (n : nat) :
  NoDup (List.map file_hash (uploaded_files st)) ->
  FileManager.record_file_upload st u nm c bank n = Ok st' ->
  NoDup (List.map file_hash (uploaded_files st')).
Proof.
  intros Hnd. unfold FileManager.record_file_upload.
  destruct (List.existsb _ _) eqn:E; [discriminate |].
  intros H. injection H as <-. simpl.
  rewrite List.map_app. simpl.
  assert (Hnot : ~ In (FileManager.generate_file_hash c)
                      (List.map file_hash (uploaded_files st))).
  { intros Hin. apply List.in_map_iff in Hin. destruct Hin as [r [Hr Hin]].
    assert (T : List.existsb
                  (fun f => String.eqb (file_hash f) (FileManager.generate_file_hash c))
                  (uploaded_files st) = true).
    { apply List.existsb_exists. exists r. split; [exact Hin |].
      now apply String.eqb_eq. }
    rewrite T in E. discriminate. }
  induction (List.map file_hash (uploaded_files st)) as [|h hs IH]; simpl.
  - constructor; [intros [] | constructor].
  - inversion Hnd as [|? ? Hh Hhs]; subst. constructor.
    + rewrite List.in_app_iff. intros [K | [K | []]].
      * now apply Hh.
      * apply Hnot. now left.
    + apply IH; [exact Hhs |]. intros K. apply Hnot. now right.
Qed.

(** C5, as stated, fails for a file in which the parser finds no
    transaction: its first ingestion records nothing, and the second
    ingestion of the same bytes parses the file again and reports "no
    transactions found", not an already-processed file. *)
Lemma second_upload_of_empty_file_is_parsed_again :
  let f := mkUpload "empty.csv" header_only_csv in
  let first := Main.process_file sample_env 1 empty_store f in
  first = (empty_store, Main.NoTransactions)
  /\ Main.process_file sample_env 1 (fst first) f = (empty_store, Main.NoTransactions)
  /\ FileManager.is_file_processed (fst first) header_only_csv = false.
Proof. cbv zeta. repeat split; vm_compute; reflexivity. Qed.

(** C5 (amended): once an ingestion of a file has extracted at least one
    transaction and reported the file as processed, ingesting the same
    bytes again -- under any name, by any user, after any other uploads,
    whatever the parser would make of them -- finds the whole-file hash on
    record, leaves the store as it is (no new transaction, no parsing)
    and reports the file as already processed, not as an error. *)
Theorem reupload_is_rejected (env : Env) (u : nat) (st st1 : Store) (f : upload)
        (s d : nat)
        (env2 : Env) (session2 : Main.session_state) (others : list upload)
        (env3 : Env) (u3 : nat) (f' : upload) :
  Main.process_file env u st f = (st1, Main.Processed s d) ->
  content f' = content f ->
  let st2 := fst (Main.process_uploaded_files env2 session2 st1 others) in
  Main.process_file env3 u3 st2 f' = (st2, Main.AlreadyProcessed)
  /\ transactions (fst (Main.process_file env3 u3 st2 f')) = transactions st2.
Proof.
  intros P C st2.
  assert (R : FileManager.is_file_processed st2 (content f') = true).
  { rewrite C. apply process_uploaded_files_keep_records.
    exact (processed_is_recorded env u st st1 f s d P). }
  rewrite (process_file_already env3 u3 st2 f' R). split; reflexivity.
Qed.

Lemma reupload_is_rejected_witness :
  let f := mkUpload "january.csv" sample_csv in
  let st1 := fst (Main.process_file sample_env 1 empty_store f) in
  Main.process_file sample_env 1 empty_store f = (st1, Main.Processed 1 0)
  /\ Main.process_file sample_env 1 st1 (mkUpload "copy.csv" sample_csv)
     = (st1, Main.AlreadyProcessed)
  /\ transactions
       (fst (Main.process_file sample_env 1 st1 (mkUpload "copy.csv" sample_csv)))
     = transactions st1.
Proof.
  cbv zeta.
  assert (P : Main.process_file sample_env 1 empty_store
                (mkUpload "january.csv" sample_csv)
              = (fst (Main.process_file sample_env 1 empty_store
                        (mkUpload "january.csv" sample_csv)),
                 Main.Processed 1 0)) by (vm_compute; reflexivity).
  split; [exact P |].
  exact (reupload_is_rejected sample_env 1 empty_store _
           (mkUpload "january.csv" sample_csv) 1 0
           sample_env (Main.mkSession true None) [] sample_env 1
           (mkUpload "copy.csv" sample_csv)
           P eq_refl).
Defined.

(** C9: the already-processed test is not scoped to an owner.  When the
    table holds a record with the hash of some bytes, whoever uploaded
    it, the test is true for these bytes, every user who uploads them is
    answered "already processed" with the store untouched, and the
    unique hash column refuses a second record with that hash for every
    user; an insert that is accepted keeps the hashes pairwise
    distinct. *)
Theorem file_check_ignores_owner (st : Store) (r : UploadedFile) (c : string) :
  In r (uploaded_files st) ->
  file_hash r = FileManager.generate_file_hash c ->
  FileManager.is_file_processed st c = true
  /\ (forall (env : Env) (u : nat) (f : upload),
        content f = c ->
        Main.process_file env u st f = (st, Main.AlreadyProcessed))
  /\ (forall (u : nat) (nm bank : string) (n : nat),
        exists e, FileManager.record_file_upload st u nm c bank n = Err e)
  /\ (forall (u : nat) (nm c' bank : string) (n : nat) (st' : Store),
        NoDup (List.map file_hash (uploaded_files st)) ->
        FileManager.record_file_upload st u nm c' bank n = Ok st' ->
        NoDup (List.map file_hash (uploaded_files st'))).
Proof.
  intros Hin Hr.
  assert (T : FileManager.is_file_processed st c = true).
  { apply is_file_processed_iff. now exists r. }
  repeat split.
  - exact T.
  - intros env u f <-. now apply process_file_already.
  - intros u nm bank n. now apply record_file_upload_refused.
  - intros u nm c' bank n st'. apply record_keeps_hashes_unique.
Qed.

Lemma file_check_ignores_owner_witness :
  let st1 :=
    fst (Main.process_file sample_env 1 empty_store
           (mkUpload "january.csv" sample_csv)) in
  List.map uf_user_id (uploaded_files st1) = [1%nat]
  /\ FileManager.is_file_processed st1 sample_csv = true
  /\ Main.process_file sample_env 2 st1 (mkUpload "mine.csv" sample_csv)
     = (st1, Main.AlreadyProcessed).
Proof.
  cbv zeta. split; [vm_compute; reflexivity |].
  destruct (file_check_ignores_owner
              (fst (Main.process_file sample_env 1 empty_store
                      (mkUpload "january.csv" sample_csv)))
              (mkUploaded 1 "january.csv" (FileManager.generate_file_hash sample_csv)
                          (String.length sample_csv) "unknown" 1 "processed")
              sample_csv)
    as (T & A & _).
  - vm_compute. left. reflexivity.
  - reflexivity.
  - split; [exact T |].
    exact (A sample_env 2%nat (mkUpload "mine.csv" sample_csv) eq_refl).
Defined.

(** C10: when parsing an uploaded file yields no transaction, the
    upload handling leaves the whole store, the uploaded-file table
    included, as it was and the hash of the file is not on record; a
    later upload of the same bytes is therefore never answered "already
    processed": the file is parsed again, with the same report while the
    parser still finds nothing; if it finds rows, the file is processed,
    or reported with the error of the database when the amount of one of
    the rows is not a number, and it is processed whenever every amount
    is a number. *)
Theorem empty_parse_records_nothing (env : Env) (u : nat) (st : Store) (f : upload) :
  FileManager.is_file_processed st (content f) = false ->
  BankParser.parse_file env f = Ok [] ->
  let st' := fst (Main.process_file env u st f) in
  Main.process_file env u st f = (st, Main.NoTransactions)
  /\ uploaded_files st' = uploaded_files st
  /\ FileManager.is_file_processed st' (content f) = false
  /\ Main.process_file env u st' f = (st', Main.NoTransactions)
  /\ (forall (env2 : Env) (u2 : nat),
        snd (Main.process_file env2 u2 st' f) <> Main.AlreadyProcessed)
  /\ (forall (env2 : Env) (u2 : nat) (t : txrow) (l : list txrow),
        BankParser.parse_file env2 f = Ok (t :: l) ->
        exists st2,
          (exists s d,
              Main.process_file env2 u2 st' f = (st2, Main.Processed s d))
          \/ (Main.process_file env2 u2 st' f
               = (st2, Main.Failed TransactionManager.amount_is_null)
               /\ exists r, In r (t :: l)
                            /\ PyFloat.isnan (tx_amount r) = true))
  /\ (forall (env2 : Env) (u2 : nat) (t : txrow) (l : list txrow),
        BankParser.parse_file env2 f = Ok (t :: l) ->
        (forall r, In r (t :: l) -> PyFloat.isnan (tx_amount r) = false) ->
        exists st2 s d,
          Main.process_file env2 u2 st' f = (st2, Main.Processed s d)).
Proof.
  intros H P st'.
  assert (E : Main.process_file env u st f = (st, Main.NoTransactions))
    by now apply process_file_empty.
  assert (S' : st' = st) by (unfold st'; now rewrite E).
  rewrite S'. repeat split; trivial.
  - intros env2 u2. unfold Main.process_file. rewrite H.
    destruct (BankParser.parse_file env2 f) as [[|t l]|e]; simpl; try discriminate.
    destruct (BankAccountManager.create_or_get_account st u2 _ "Primary") as [acc st1].
    destruct (TransactionManager.save_transactions st1 _ u2 (acc_id acc) (name f))
      as [[[st2 s] d]|e]; [|simpl; discriminate].
    destruct (FileManager.record_file_upload st2 u2 (name f) (content f) _ s);
      simpl; discriminate.
  - intros env2 u2 t l P2.
    rewrite (process_file_with_rows env2 u2 st f t l H P2).
    destruct (TransactionManager.save_transactions _ _ u2 _ (name f))
      as [[[st2 s] d]|e] eqn:S.
    + eexists. left. exists s, d. reflexivity.
    + eexists. right. unfold TransactionManager.save_transactions in S.
      destruct (save_rows_error _ _ _ _ _ _ _ _ S) as (-> & r & Hr & Hn).
      split; [reflexivity |].
      destruct (categorize_keeps_amounts _ _ Hr) as (r0 & Hr0 & Ha).
      exists r0. rewrite <- Ha. now split.
  - intros env2 u2 t l P2 Hn.
    destruct (process_file_rows env2 u2 st f t l H P2 Hn) as (st2 & s & d & K & _).
    now exists st2, s, d.
Qed.

Lemma empty_parse_records_nothing_witness :
  let f := mkUpload "empty.csv" header_only_csv in
  FileManager.is_file_processed empty_store header_only_csv = false
  /\ BankParser.parse_file sample_env f = Ok []
  /\ Main.process_file sample_env 1 empty_store f = (empty_store, Main.NoTransactions).
Proof.
  cbv zeta.
  assert (H : FileManager.is_file_processed empty_store
                (content (mkUpload "empty.csv" header_only_csv)) = false)
    by reflexivity.
  assert (P : BankParser.parse_file sample_env (mkUpload "empty.csv" header_only_csv)
              = Ok []) by (vm_compute; reflexivity).
  split; [exact H | split; [exact P |]].
  exact (proj1 (empty_parse_records_nothing sample_env 1 empty_store
                  (mkUpload "empty.csv" header_only_csv) H P)).
Defined.

(** ** The generic tabular extractor *)

Lemma filter_map_length {A B : Type} (f : A -> option B) (l : list A) :
  (List.length (filter_map f l) <= List.length l)%nat.
Proof.
  induction l as [|x l IH]; simpl; [lia |].
  destruct (f x); simpl; lia.
Qed.

Lemma filter_map_in {A B : Type} (f : A -> option B) (l : list A) (y : B) :
  In y (filter_map f l) <-> exists x, In x l /\ f x = Some y.
Proof.
  induction l as [|x l IH]; simpl.
  - split; [intros [] | intros [x [[] _]]].
  - destruct (f x) as [z|] eqn:E; simpl; rewrite IH; split.
    + intros [<- | [x' [Hin Hx']]]; [exists x; auto | exists x'; auto].
    + intros [x' [[<- | Hin] Hx']]; [left; congruence | right; exists x'; auto].
    + intros [x' [Hin Hx']]; exists x'; auto.
    + intros [x' [[<- | Hin] Hx']]; [congruence | exists x'; auto].
Qed.

Lemma iterrows_length (df : DataFrame) :
  List.length (Pandas.iterrows df) = List.length (data df).
Proof. unfold Pandas.iterrows. apply List.length_map. Qed.

(** The generic extractor raises exactly when one of the three kinds of
    column is missing. *)
Lemma generic_csv_raises_iff (df : DataFrame) :
  (exists e, CSVParser._parse_generic_csv df = Err e) <->
  (CSVParser.date_columns df = [] \/ CSVParser.description_columns df = []
   \/ CSVParser.amount_columns df = []).
Proof.
  unfold CSVParser._parse_generic_csv.
  destruct (CSVParser.date_columns df) as [|dc dcs];
    destruct (CSVParser.description_columns df) as [|sc scs];
    destruct (CSVParser.amount_columns df) as [|ac acs];
    split; intros H; eauto;
    try (destruct H as [e H]; discriminate);
    destruct H as [H | [H | H]]; discriminate.
Qed.

(** C7, as stated, fails: with no date-like, description-like or
    amount-like header the generic extractor does not return an empty
    result, it raises; the upload handling reports an error for the file
    and writes nothing, so no file record is marked failed. *)
Lemma missing_columns_raise :
  let df := mkFrame ["Posted"; "Details"; "Value"]
                    [[Val "01/15/2024"; Val "COFFEE"; Val "-5.99"]] in
  let f := mkUpload "export.csv" unlabelled_csv in
  CSVParser._detect_bank_from_columns (columns df) = "unknown"
  /\ CSVParser._parse_generic_csv df = Err CSVParser.missing_columns
  /\ BankParser.parse_file sample_env f
     = Err ("Error parsing file export.csv: Error parsing CSV: "
            ++ "Could not identify required columns in CSV")
  /\ Main.process_file sample_env 1 empty_store f
     = (empty_store,
        Main.Failed ("Error parsing file export.csv: Error parsing CSV: "
                     ++ "Could not identify required columns in CSV"))
  /\ uploaded_files (fst (Main.process_file sample_env 1 empty_store f)) = [].
Proof. cbv zeta. repeat split; vm_compute; reflexivity. Qed.

(** C7 (amended): when the institution is unknown and the generic tabular
    extractor finds no date-like, no description-like or no amount-like
    column among the headers, it fails the whole file by raising "Could
    not identify required columns in CSV" (it does not return an empty
    result); the upload handling reports that error for the file, stores
    no transaction and creates no uploaded-file record.  Inside the
    generic extractor this is the only failure of the whole file: with
    the three kinds of column present it returns the rows that parse, and
    any other failure skips one row. *)
Theorem missing_columns_fail_the_file (env : Env) (u : nat) (st : Store)
        (f : upload) (df : DataFrame) :
  BankParser.file_extension f = "csv" ->
  read_csv env (content f) = Ok df ->
  CSVParser._detect_bank_from_columns (columns df) = "unknown" ->
  FileManager.is_file_processed st (content f) = false ->
  CSVParser.date_columns df = [] \/ CSVParser.description_columns df = []
  \/ CSVParser.amount_columns df = [] ->
  CSVParser._parse_generic_csv df = Err CSVParser.missing_columns
  /\ Main.process_file env u st f
     = (st, Main.Failed ("Error parsing file " ++ name f
                         ++ ": Error parsing CSV: " ++ CSVParser.missing_columns))
  /\ (forall df' : DataFrame,
        CSVParser.date_columns df' <> [] ->
        CSVParser.description_columns df' <> [] ->
        CSVParser.amount_columns df' <> [] ->
        exists date_col desc_col,
          CSVParser._parse_generic_csv df'
          = Ok (filter_map
                  (CSVParser.generic_row date_col desc_col
                                         (CSVParser.amount_columns df'))
                  (Pandas.iterrows df'))
          /\ (List.length
                (filter_map
                   (CSVParser.generic_row date_col desc_col
                                          (CSVParser.amount_columns df'))
                   (Pandas.iterrows df'))
              <= List.length (data df'))%nat).
Proof.
  intros Hext Hread Hbank Hnew Hmiss.
  assert (G : CSVParser._parse_generic_csv df = Err CSVParser.missing_columns).
  { unfold CSVParser._parse_generic_csv.
    destruct (CSVParser.date_columns df) as [|dc dcs];
      destruct (CSVParser.description_columns df) as [|sc scs];
      destruct (CSVParser.amount_columns df) as [|ac acs];
      try reflexivity.
    destruct Hmiss as [H | [H | H]]; discriminate. }
  split; [exact G | split].
  - apply process_file_failed; [exact Hnew |].
    unfold BankParser.parse_file. rewrite Hext. simpl.
    unfold BankParser.parse_csv, CSVParser.parse_csv.
    rewrite Hread, Hbank, G. reflexivity.
  - intros df' Hd Hs Ha. unfold CSVParser._parse_generic_csv.
    destruct (CSVParser.date_columns df') as [|dc dcs]; [contradiction |].
    destruct (CSVParser.description_columns df') as [|sc scs]; [contradiction |].
    destruct (CSVParser.amount_columns df') as [|ac acs]; [contradiction |].
    exists dc, sc. split; [reflexivity |].
    rewrite <- iterrows_length. apply filter_map_length.
Qed.

Lemma missing_columns_fail_the_file_witness :
  let f := mkUpload "export.csv" unlabelled_csv in
  let df := mkFrame ["Posted"; "Details"; "Value"]
                    [[Val "01/15/2024"; Val "COFFEE"; Val "-5.99"]] in
  CSVParser.date_columns df = []
  /\ CSVParser._parse_generic_csv df = Err CSVParser.missing_columns
  /\ Main.process_file sample_env 1 empty_store f
     = (empty_store,
        Main.Failed ("Error parsing file " ++ name f
                     ++ ": Error parsing CSV: " ++ CSVParser.missing_columns)).
Proof.
  cbv zeta. split; [reflexivity |].
  destruct (missing_columns_fail_the_file sample_env 1 empty_store
              (mkUpload "export.csv" unlabelled_csv)
              (mkFrame ["Posted"; "Details"; "Value"]
                       [[Val "01/15/2024"; Val "COFFEE"; Val "-5.99"]]))
    as (G & P & _).
  - reflexivity.
  - vm_compute; reflexivity.
  - reflexivity.
  - reflexivity.
  - left; reflexivity.
  - split; [exact G | exact P].
Defined.

(** ** Rows of the banks with separate debit and credit columns *)

Lemma split_columns_step (r : row) (col : string) (rest : list string)
      (dv cv : option pyfloat) :
  CSVParser.split_columns r (col :: rest) dv cv =
  match cell_value r col with
  | Some amount =>
      if PyStr.contains "debit" (PyStr.lower col)
      then CSVParser.split_columns r rest (Some amount) cv
      else if PyStr.contains "credit" (PyStr.lower col)
      then CSVParser.split_columns r rest dv (Some amount)
      else inl (Some (PyFloat.abs amount), CSVParser.sign_type amount)
  | None => CSVParser.split_columns r rest dv cv
  end.
Proof.
  unfold cell_value. cbn [CSVParser.split_columns].
  destruct (Pandas.loc col r) as [val|]; [|reflexivity].
  destruct (CSVParser.filled val); [|reflexivity].
  destruct (CSVParser.to_float val); reflexivity.
Qed.

Lemma single_column_step (r : row) (col : string) (rest : list string) :
  CSVParser.single_column r (col :: rest) =
  match cell_value r col with
  | Some amount => (Some (PyFloat.abs amount), CSVParser.sign_type amount)
  | None => CSVParser.single_column r rest
  end.
Proof.
  unfold cell_value. cbn [CSVParser.single_column].
  destruct (Pandas.loc col r) as [val|]; [|reflexivity].
  destruct (CSVParser.filled val); [|reflexivity].
  destruct (CSVParser.to_float val); reflexivity.
Qed.

Lemma separate_banks_cases (bank : string) :
  In bank CSVParser.separate_banks ->
  bank = "citibank" \/ bank = "hdfc" \/ bank = "axis".
Proof. simpl. intuition. Qed.

Lemma extract_separate (bank : string) (r : row) :
  In bank CSVParser.separate_banks ->
  bank = "citibank" \/ cell_value r "Amount" = None ->
  CSVParser._extract_amount_and_type r (CSVParser.mapping_of bank) bank
  = split_outcome (cell_value r "Debit") (cell_value r "Credit").
Proof.
  intros Hb Ha.
  assert (Cases :
            (bank = "citibank"
             /\ CSVParser.m_amount (CSVParser.mapping_of bank) = ["Debit"; "Credit"])
            \/ (cell_value r "Amount" = None
                /\ CSVParser.m_amount (CSVParser.mapping_of bank)
                   = ["Debit"; "Credit"; "Amount"])
            \/ (cell_value r "Amount" = None
                /\ CSVParser.m_amount (CSVParser.mapping_of bank)
                   = ["Debit"; "Credit"])).
  { destruct (separate_banks_cases bank Hb) as [-> | [-> | ->]].
    - left. split; reflexivity.
    - destruct Ha as [Ha | Ha]; [discriminate |]. right; left. now split.
    - destruct Ha as [Ha | Ha]; [discriminate |]. right; left. now split. }
  unfold CSVParser._extract_amount_and_type.
  assert (E : List.existsb (String.eqb bank) CSVParser.separate_banks = true).
  { apply List.existsb_exists. exists bank. split; [exact Hb | apply String.eqb_refl]. }
  rewrite E. clear E.
  assert (D : PyStr.contains "debit" (PyStr.lower "Debit") = true) by reflexivity.
  assert (C1 : PyStr.contains "debit" (PyStr.lower "Credit") = false) by reflexivity.
  assert (C2 : PyStr.contains "credit" (PyStr.lower "Credit") = true) by reflexivity.
  destruct (cell_value r "Debit") as [d|] eqn:ED;
    destruct (cell_value r "Credit") as [c|] eqn:EC;
    destruct Cases as [[_ ->] | [[HA ->] | [HA ->]]];
    repeat (rewrite split_columns_step; rewrite ?ED, ?EC, ?HA, ?D, ?C1, ?C2; cbv iota);
    cbn [CSVParser.split_columns split_outcome];
    repeat match goal with
           | |- context [PyFloat.gtb0 ?x] => destruct (PyFloat.gtb0 x)
           end;
    try reflexivity;
    repeat (rewrite single_column_step; rewrite ?ED, ?EC, ?HA; cbv iota);
    reflexivity.
Qed.

Lemma find_column_in_index (r : row) (names : list string) (n : string) :
  CSVParser._find_column r names = Some n -> Pandas.in_index n r = true.
Proof.
  induction names as [|a names IH]; simpl; [discriminate |].
  destruct (Pandas.in_index a r) eqn:E; [|exact IH].
  intros H. injection H as <-. exact E.
Qed.

Lemma in_index_loc (r : row) (n : string) :
  Pandas.in_index n r = true -> exists v, Pandas.loc n r = Some v.
Proof.
  induction r as [|[k v] r IH]; simpl; [discriminate |].
  destruct (String.eqb k n); simpl; eauto.
Qed.

(** The description step never fails. *)
Lemma row_description_total (mapping : CSVParser.column_mapping) (r : row) :
  exists description, CSVParser.row_description mapping r = Some description.
Proof.
  unfold CSVParser.row_description.
  destruct (CSVParser._find_column r (CSVParser.m_description mapping))
    as [n|] eqn:E; [|eauto].
  destruct (String.eqb n EmptyString); [eauto |].
  destruct (in_index_loc r n (find_column_in_index r _ n E)) as [v ->].
  simpl. eauto.
Qed.

Lemma sign_type_values (a : pyfloat) :
  CSVParser.sign_type a = "debit" \/ CSVParser.sign_type a = "credit".
Proof. unfold CSVParser.sign_type. destruct (PyFloat.ltb0 a); auto. Qed.

(** Facts of float arithmetic. *)
Lemma abs_abs (a : pyfloat) : PyFloat.abs (PyFloat.abs a) = PyFloat.abs a.
Proof.
  destruct a as [d| |]; try reflexivity.
  unfold PyFloat.abs, Dec.abs. cbn [mant scale]. do 2 f_equal. lia.
Qed.

Lemma abs_pos (a : pyfloat) : PyFloat.gtb0 a = true -> PyFloat.abs a = a.
Proof.
  destruct a as [[m k]|[|]|]; cbn; try discriminate; try reflexivity.
  unfold Dec.gtb0, Dec.abs. cbn [mant scale]. intros H. apply Z.ltb_lt in H.
  now rewrite Z.abs_eq by lia.
Qed.

Lemma zero_not_positive (a : pyfloat) :
  PyFloat.is_zero a = true -> PyFloat.gtb0 a = false.
Proof.
  destruct a as [d| |]; cbn; try discriminate.
  unfold Dec.is_zero, Dec.gtb0. intros H. apply Z.eqb_eq in H.
  apply Z.ltb_ge. lia.
Qed.

Lemma abs_of_zero (a : pyfloat) :
  PyFloat.is_zero a = true -> PyFloat.is_zero (PyFloat.abs a) = true.
Proof.
  destruct a as [d| |]; cbn; try discriminate.
  unfold Dec.is_zero, Dec.abs. cbn [mant]. intros H. apply Z.eqb_eq in H.
  apply Z.eqb_eq. lia.
Qed.

Lemma abs_of_nonzero (a : pyfloat) :
  PyFloat.is_zero a = false -> PyFloat.is_zero (PyFloat.abs a) = false.
Proof.
  destruct a as [d| |]; cbn; try reflexivity.
  unfold Dec.is_zero, Dec.abs. cbn [mant]. intros H. apply Z.eqb_neq in H.
  apply Z.eqb_neq. lia.
Qed.

(** A float that is neither zero, nor positive, nor not-a-number is
    negative. *)
Lemma negative_is_what_is_left (a : pyfloat) :
  PyFloat.is_zero a = false -> PyFloat.isnan a = false ->
  PyFloat.gtb0 a = false -> PyFloat.ltb0 a = true.
Proof.
  destruct a as [d|[|]|]; cbn; try discriminate; try reflexivity.
  unfold Dec.is_zero, Dec.gtb0, Dec.ltb0. intros Z0 _ P.
  apply Z.eqb_neq in Z0. apply Z.ltb_ge in P. apply Z.ltb_lt. lia.
Qed.

Lemma bank_row_of_parts (bank : string) (r : row) (date : datetime)
      (description : string) :
  CSVParser.row_date (CSVParser.mapping_of bank) r = Some date ->
  CSVParser.row_description (CSVParser.mapping_of bank) r = Some description ->
  CSVParser.bank_row bank r =
  match CSVParser._extract_amount_and_type r (CSVParser.mapping_of bank) bank with
  | (Some amount, trans_type) =>
      if negb (PyFloat.is_zero amount)
      then Some (mkTx date (PyStr.strip description) (PyFloat.abs amount)
                      trans_type bank None)
      else None
  | (None, _) => None
  end.
Proof. intros Hd Hs. unfold CSVParser.bank_row. now rewrite Hd, Hs. Qed.

Lemma bank_row_without_amount (bank : string) (r : row) :
  (forall a t,
      CSVParser._extract_amount_and_type r (CSVParser.mapping_of bank) bank
      = (Some a, t) -> PyFloat.is_zero a = true) ->
  CSVParser.bank_row bank r = None.
Proof.
  intros H. unfold CSVParser.bank_row.
  destruct (CSVParser.row_date _ r); [|reflexivity].
  destruct (CSVParser.row_description _ r); [|reflexivity].
  destruct (CSVParser._extract_amount_and_type r _ bank) as [[a|] t] eqn:E;
    [|reflexivity].
  rewrite (H a t eq_refl). reflexivity.
Qed.

Lemma single_row_frame (df : DataFrame) (bank : string) (r : row) :
  Pandas.iterrows df = [r] ->
  CSVParser._parse_bank_specific_csv df bank =
  match CSVParser.bank_row bank r with Some t => [t] | None => [] end.
Proof.
  intros H. unfold CSVParser._parse_bank_specific_csv. rewrite H. simpl.
  destruct (CSVParser.bank_row bank r); reflexivity.
Qed.

(** C8, as stated, fails on four rows of a bank with separate columns.
    A negative debit is stored as its absolute value, not as the debit
    value; a number in a combined "Amount" column takes over from the
    debit column; a row whose date does not parse yields nothing; and a
    debit cell that reads as not-a-number yields a transaction of kind
    'credit'. *)
Lemma debit_value_is_not_always_the_amount :
  let negative := [("Date", Val "01/15/2024"); ("Description", Val "ATM");
                   ("Debit", Val "-50.00"); ("Credit", NaN)] in
  let combined := [("Date", Val "15/01/2024"); ("Narration", Val "ATM");
                   ("Debit", Val "50.00"); ("Credit", Val "0");
                   ("Amount", Val "-20.00")] in
  let undated := [("Date", Val "yesterday"); ("Description", Val "ATM");
                  ("Debit", Val "50.00"); ("Credit", Val "0")] in
  let unread := [("Date", Val "01/15/2024"); ("Description", Val "ATM");
                 ("Debit", Val "NAN"); ("Credit", NaN)] in
  (cell_value negative "Debit" = Some (Finite (mkDec (-50) 0))
   /\ zero_or_empty negative "Credit"
   /\ CSVParser.bank_row "citibank" negative
      = Some (mkTx (mkDate 2024 1 15) "ATM" (mkDec 50 0) "debit" "citibank" None))
  /\ (cell_value combined "Debit" = Some (Finite (mkDec 50 0))
      /\ zero_or_empty combined "Credit"
      /\ CSVParser.bank_row "hdfc" combined
         = Some (mkTx (mkDate 2024 1 15) "ATM" (mkDec 20 0) "debit" "hdfc" None))
  /\ (cell_value undated "Debit" = Some (Finite (mkDec 50 0))
      /\ zero_or_empty undated "Credit"
      /\ CSVParser.bank_row "citibank" undated = None)
  /\ (cell_value unread "Debit" = Some NotANumber
      /\ zero_or_empty unread "Credit"
      /\ CSVParser.bank_row "citibank" unread
         = Some (mkTx (mkDate 2024 1 15) "ATM" NotANumber "credit" "citibank" None)).
Proof. cbv zeta. repeat split; vm_compute; reflexivity. Qed.

(** C8 (amended): for a row of a bank with separate debit and credit
    columns (citibank, hdfc, axis) whose credit cell is zero or empty and
    in which no combined "Amount" column holds a number: if the date of
    the row parses and the debit cell holds a number other than zero, the
    extraction yields exactly one transaction, of kind 'debit', whose
    amount is the absolute value of the debit value (the debit value
    itself when it is positive); if the debit cell is zero or empty as
    well, the row is skipped.  A cell is empty when the column is absent,
    the value missing or blank, or [float] raises on its text. *)
Theorem debit_row_yields_debit_transaction (bank : string) (r : row) :
  In bank CSVParser.separate_banks ->
  bank = "citibank" \/ cell_value r "Amount" = None ->
  zero_or_empty r "Credit" ->
  (forall (date : datetime) (v : pyfloat),
      CSVParser.row_date (CSVParser.mapping_of bank) r = Some date ->
      cell_value r "Debit" = Some v ->
      PyFloat.is_zero v = false ->
      PyFloat.isnan v = false ->
      exists description,
        CSVParser.row_description (CSVParser.mapping_of bank) r = Some description
        /\ CSVParser.bank_row bank r
           = Some (mkTx date (PyStr.strip description) (PyFloat.abs v)
                        "debit" bank None)
        /\ (PyFloat.gtb0 v = true -> PyFloat.abs v = v)
        /\ (forall df : DataFrame,
              Pandas.iterrows df = [r] ->
              CSVParser._parse_bank_specific_csv df bank
              = [mkTx date (PyStr.strip description) (PyFloat.abs v)
                      "debit" bank None]))
  /\ (zero_or_empty r "Debit" ->
      CSVParser.bank_row bank r = None
      /\ (forall df : DataFrame,
            Pandas.iterrows df = [r] ->
            CSVParser._parse_bank_specific_csv df bank = [])).
Proof.
  intros Hb Ha Hc.
  pose proof (extract_separate bank r Hb Ha) as X.
  unfold zero_or_empty in Hc. split.
  - intros date v Hd Hv Hnz Hnn.
    destruct (row_description_total (CSVParser.mapping_of bank) r) as [desc Hs].
    exists desc. split; [exact Hs |].
    assert (E : CSVParser._extract_amount_and_type r (CSVParser.mapping_of bank) bank
                = (Some (PyFloat.abs v), "debit")).
    { rewrite X, Hv. unfold split_outcome, CSVParser.sign_type.
      destruct (PyFloat.gtb0 v) eqn:P.
      - rewrite (abs_pos v P). now destruct (cell_value r "Credit").
      - rewrite (negative_is_what_is_left v Hnz Hnn P).
        destruct (cell_value r "Credit") as [c|]; [|reflexivity].
        now rewrite (zero_not_positive c Hc). }
    assert (B : CSVParser.bank_row bank r
                = Some (mkTx date (PyStr.strip desc) (PyFloat.abs v)
                             "debit" bank None)).
    { rewrite (bank_row_of_parts bank r date desc Hd Hs), E.
      rewrite (abs_of_nonzero v Hnz), abs_abs. reflexivity. }
    split; [exact B | split; [apply abs_pos |]].
    intros df Hdf. now rewrite (single_row_frame df bank r Hdf), B.
  - intros Hdz. unfold zero_or_empty in Hdz.
    assert (B : CSVParser.bank_row bank r = None).
    { apply bank_row_without_amount. intros a t. rewrite X.
      unfold split_outcome.
      destruct (cell_value r "Debit") as [d|], (cell_value r "Credit") as [c|];
        rewrite ?(zero_not_positive _ Hdz), ?(zero_not_positive _ Hc);
        intros K; first [discriminate | injection K as <- _];
        now apply abs_of_zero. }
    split; [exact B |].
    intros df Hdf. now rewrite (single_row_frame df bank r Hdf), B.
Qed.

Lemma debit_row_yields_debit_transaction_witness :
  let r := [("Date", Val "01/15/2024"); ("Description", Val "ATM WITHDRAWAL");
            ("Debit", Val "50.00"); ("Credit", Val "0")] in
  In "citibank" CSVParser.separate_banks
  /\ zero_or_empty r "Credit"
  /\ cell_value r "Debit" = Some (Finite (mkDec 50 0))
  /\ CSVParser.bank_row "citibank" r
     = Some (mkTx (mkDate 2024 1 15) "ATM WITHDRAWAL" (mkDec 50 0)
                  "debit" "citibank" None).
Proof.
  cbv zeta.
  assert (Hb : In "citibank" CSVParser.separate_banks) by (simpl; tauto).
  assert (Hc : zero_or_empty
                 [("Date", Val "01/15/2024"); ("Description", Val "ATM WITHDRAWAL");
                  ("Debit", Val "50.00"); ("Credit", Val "0")] "Credit")
    by (vm_compute; reflexivity).
  split; [exact Hb | split; [exact Hc | split; [vm_compute; reflexivity |]]].
  destruct (debit_row_yields_debit_transaction "citibank"
              [("Date", Val "01/15/2024"); ("Description", Val "ATM WITHDRAWAL");
               ("Debit", Val "50.00"); ("Credit", Val "0")]
              Hb (or_introl eq_refl) Hc) as [P _].
  destruct (P (mkDate 2024 1 15) (Finite (mkDec 50 0))) as (desc & Hs & B & _).
  - vm_compute; reflexivity.
  - vm_compute; reflexivity.
  - reflexivity.
  - reflexivity.
  - vm_compute in Hs. injection Hs as <-. exact B.
Defined.

(** ** The text extractor *)

(** C1 fails on the text extractor.  The line "01/16/2024 COFFEE 0" of a
    statement matches the transaction pattern; its amount parses to 0.0
    and the transaction is appended all the same, with amount 0.0 and
    type 'credit'.  An amount token that is not numeric (a lone comma)
    ends up the same way, through the 0.0 the amount parser returns for
    it.  The tabular extractors test [amount != 0] before appending. *)
Theorem text_extractor_stores_zero_amount :
  let page := "Wells Fargo statement" ++ newline
              ++ "01/16/2024 COFFEE 0" ++ newline
              ++ "01/17/2024 TEA , x" ++ newline in
  PDFParser.parse_pages 2026 [page]
  = [ mkTx (mkDate 2024 1 16) "COFFEE" (mkDec 0 0) "credit" "wells_fargo" None;
      mkTx (mkDate 2024 1 17) "TEA" (mkDec 0 0) "credit" "wells_fargo" None ]
  /\ List.map (fun t => PyFloat.gtb0 (tx_amount t)) (PDFParser.parse_pages 2026 [page])
     = [false; false].
Proof. cbv zeta. split; vm_compute; reflexivity. Qed.

(** C3 fails on every year-less date that parses.  For "01/15" in the
    processing year 2026 both date steps of the text extractor append
    the year to the string and to the format, so the year is matched as
    literal text and no directive sets it: the date comes out in 1900. *)
Lemma yearless_date_example :
  PDFParser._parse_date_flexible 2026 "01/15" = Some (mkDate 1900 1 15)
  /\ PDFParser.bank_date 2026 "%m/%d" "01/15" = Some (mkDate 1900 1 15)
  /\ Strptime.strptime "01/15/2026" "%m/%d/2026" = Some (mkDate 1900 1 15)
  /\ PDFParser.parse_pages 2026 ["Chase" ++ newline ++ "01/15 COFFEE 5.99"]
     = [mkTx (mkDate 1900 1 15) "COFFEE" (mkDec 599 2) "credit" "chase" None].
Proof. repeat split; vm_compute; reflexivity. Qed.

(** *** Year-less dates: counting separators *)

Lemma slash_separator : separator "/".
Proof. split; reflexivity. Qed.

Lemma dash_separator : separator "-".
Proof. split; reflexivity. Qed.

Lemma count_app (c : ascii) (a b : string) :
  count c (a ++ b) = (count c a + count c b)%nat.
Proof. induction a as [|x a IH]; simpl; [reflexivity | rewrite IH; lia]. Qed.

Lemma lits_app (c : ascii) (a b : list Strptime.fitem) :
  lits c (a ++ b) = (lits c a + lits c b)%nat.
Proof. induction a as [|x a IH]; simpl; [reflexivity | rewrite IH; lia]. Qed.

Lemma lits_lit_items (c : ascii) (s : string) : lits c (lit_items s) = count c s.
Proof. induction s as [|x s IH]; simpl; [reflexivity | now rewrite IH]. Qed.

Lemma split_not_nil (sep : ascii) (s : string) : PyStr.split sep s <> [].
Proof.
  destruct s as [|c s]; simpl; [discriminate |].
  destruct (Ascii.eqb c sep); [discriminate |].
  destruct (PyStr.split sep s); discriminate.
Qed.

Lemma split_length (sep : ascii) (s : string) :
  List.length (PyStr.split sep s) = S (count sep s).
Proof.
  induction s as [|c s IH]; simpl; [reflexivity |].
  rewrite (Ascii.eqb_sym sep c).
  destruct (Ascii.eqb c sep); simpl; [now rewrite IH |].
  destruct (PyStr.split sep s) eqn:E; [now destruct (split_not_nil sep s) |].
  simpl in *. exact IH.
Qed.

Lemma two_fields_count (sep : ascii) (s : string) :
  PDFParser.two_fields sep s = true <-> count sep s = 1%nat.
Proof.
  unfold PDFParser.two_fields. rewrite split_length, Nat.eqb_eq. lia.
Qed.

Lemma first_some_some {A B : Type} (f : A -> option B) (l : list A) (b : B) :
  first_some f l = Some b -> exists x, In x l /\ f x = Some b.
Proof.
  induction l as [|x l IH]; simpl; [discriminate |].
  destruct (f x) as [y|] eqn:E.
  - intros H. injection H as <-. exists x. auto.
  - intros H. destruct (IH H) as [x' [Hin Hx']]. exists x'. auto.
Qed.

Lemma digit_not_separator (sep b : ascii) :
  separator sep -> PyStr.is_digit b = true -> Ascii.eqb sep b = false.
Proof.
  intros [Hd _] Hb. destruct (Ascii.eqb sep b) eqn:E; [|reflexivity].
  apply Ascii.eqb_eq in E. subst. congruence.
Qed.

Lemma in_range_digit (b : ascii) (lo hi : nat) :
  (48 <= lo)%nat -> (hi <= 57)%nat ->
  Strptime.in_range b lo hi = true -> PyStr.is_digit b = true.
Proof.
  unfold Strptime.in_range, PyStr.is_digit. intros Hlo Hhi H.
  apply Bool.andb_true_iff in H. destruct H as [H1 H2].
  apply Nat.leb_le in H1. apply Nat.leb_le in H2.
  apply Bool.andb_true_iff. split; apply Nat.leb_le; lia.
Qed.

Lemma count_digit (sep b : ascii) (s : string) :
  separator sep -> PyStr.is_digit b = true ->
  count sep (String b s) = count sep s.
Proof. intros Hs Hb. simpl. now rewrite (digit_not_separator sep b Hs Hb). Qed.

Lemma count_blank (sep : ascii) (s : string) :
  separator sep -> count sep (String " " s) = count sep s.
Proof. intros [_ Hs]. simpl. now rewrite Hs. Qed.

Ltac digit_facts :=
  repeat match goal with
         | H : (_ || _)%bool = true |- _ => apply Bool.orb_true_iff in H; destruct H
         | H : (_ && _)%bool = true |- _ => apply Bool.andb_true_iff in H; destruct H
         | H : Ascii.eqb _ _ = true |- _ => apply Ascii.eqb_eq in H; subst
         | H : Strptime.in_range _ _ _ = true |- _ =>
             apply in_range_digit in H; [|lia|lia]
         end.

(** A directive consumes digits and blanks only; a literal consumes
    itself. *)
Lemma candidates_count (sep : ascii) (i : Strptime.fitem) (s : string)
      (v : Z) (r : string) :
  separator sep ->
  In (v, r) (Strptime.candidates i s) ->
  count sep s = (lit_weight sep i + count sep r)%nat.
Proof.
  intros Hsep Hin. unfold Strptime.candidates in Hin. destruct i.
  - (* %Y *)
    destruct s as [|a [|b [|c [|d s]]]]; try contradiction.
    cbv beta iota zeta in Hin.
    destruct (PyStr.all_digits _) eqn:E; [|contradiction].
    destruct Hin as [Hin | []]. injection Hin as _ <-.
    simpl in E. digit_facts.
    now rewrite !count_digit.
  - (* %y *)
    destruct s as [|a [|b s]]; try contradiction.
    cbv beta iota zeta in Hin.
    destruct (PyStr.all_digits _) eqn:E; [|contradiction].
    destruct Hin as [Hin | []]. injection Hin as _ <-.
    simpl in E. digit_facts.
    now rewrite !count_digit.
  - (* %m *)
    destruct s as [|a s]; [contradiction |].
    cbv beta iota zeta in Hin.
    apply List.in_app_or in Hin. destruct Hin as [Hin | Hin].
    + destruct s as [|b s]; [contradiction |].
      match type of Hin with
      | In _ (if ?c then _ else _) => destruct c eqn:E; [|contradiction]
      end.
      destruct Hin as [Hin | []]. injection Hin as _ <-.
      digit_facts; rewrite !count_digit; trivial; reflexivity.
    + destruct (Strptime.in_range a 49 57) eqn:E; [|contradiction].
      destruct Hin as [Hin | []]. injection Hin as _ <-.
      digit_facts. now rewrite count_digit.
  - (* %d *)
    destruct s as [|a s]; [contradiction |].
    cbv beta iota zeta in Hin.
    apply List.in_app_or in Hin. destruct Hin as [Hin | Hin].
    + destruct s as [|b s]; [contradiction |].
      match type of Hin with
      | In _ (if ?c then _ else _) => destruct c eqn:E; [|contradiction]
      end.
      destruct Hin as [Hin | []]. injection Hin as _ <-.
      digit_facts; rewrite !count_digit; trivial; reflexivity.
    + apply List.in_app_or in Hin. destruct Hin as [Hin | Hin].
      * destruct (Strptime.in_range a 49 57) eqn:E; [|contradiction].
        destruct Hin as [Hin | []]. injection Hin as _ <-.
        digit_facts. now rewrite count_digit.
      * destruct s as [|b s]; [contradiction |].
        match type of Hin with
        | In _ (if ?c then _ else _) => destruct c eqn:E; [|contradiction]
        end.
        destruct Hin as [Hin | []]. injection Hin as _ <-.
        digit_facts. rewrite count_blank by trivial. now rewrite count_digit.
  - (* literal *)
    destruct s as [|a s]; [contradiction |].
    cbv beta iota zeta in Hin.
    destruct (Ascii.eqb a c) eqn:E; [|contradiction].
    destruct Hin as [Hin | []]. injection Hin as _ <-.
    apply Ascii.eqb_eq in E. subst. reflexivity.
Qed.

Lemma match_items_count (sep : ascii) (items : list Strptime.fitem) :
  separator sep ->
  forall (s : string) (fs fs' : Strptime.fields) (rest : string),
    Strptime.match_items items s fs = Some (fs', rest) ->
    count sep s = (lits sep items + count sep rest)%nat.
Proof.
  intros Hsep. induction items as [|i items IH]; intros s fs fs' rest H; simpl in H.
  - injection H as _ <-. reflexivity.
  - apply first_some_some in H. destruct H as [[v r] [Hin H]]. simpl in H.
    rewrite (candidates_count sep i s v r Hsep Hin).
    rewrite (IH _ _ _ _ H). simpl. lia.
Qed.

(** Without a year directive the year field stays as it was. *)
Lemma match_items_year (items : list Strptime.fitem) :
  List.existsb sets_year items = false ->
  forall (s : string) (fs fs' : Strptime.fields) (rest : string),
    Strptime.match_items items s fs = Some (fs', rest) ->
    Strptime.f_year fs' = Strptime.f_year fs.
Proof.
  induction items as [|i items IH]; intros Hy s fs fs' rest H; simpl in H.
  - now injection H as <- _.
  - simpl in Hy. apply Bool.orb_false_iff in Hy. destruct Hy as [Hi Hy].
    apply first_some_some in H. destruct H as [[v r] [_ H]]. simpl in H.
    rewrite (IH Hy _ _ _ _ H). destruct i; try discriminate; reflexivity.
Qed.

(** What a successful [strptime] tells about the data and the date. *)
Lemma strptime_facts (data fmt : string) (d : datetime) :
  Strptime.strptime data fmt = Some d ->
  exists items,
    Strptime.parse_format fmt = Some items
    /\ (forall sep, separator sep -> count sep data = lits sep items)
    /\ (List.existsb sets_year items = false -> year d = 1900).
Proof.
  unfold Strptime.strptime.
  destruct (Strptime.parse_format fmt) as [items|]; [|discriminate].
  destruct (Strptime.match_items items data Strptime.no_fields)
    as [[fs rest]|] eqn:M; [|discriminate].
  destruct rest; [|discriminate].
  destruct (Strptime.valid_date _ _ _); [|discriminate].
  intros H. injection H as <-. exists items. split; [reflexivity | split].
  - intros sep Hsep. rewrite (match_items_count sep items Hsep _ _ _ _ M).
    simpl. lia.
  - intros Hy. simpl. now rewrite (match_items_year items Hy _ _ _ _ M).
Qed.

Lemma digit_is_plain (c : ascii) :
  PyStr.is_digit c = true ->
  Ascii.eqb c "%" = false /\ PyStr.is_space c = false.
Proof.
  intros H. split.
  - destruct (Ascii.eqb c "%") eqn:E; [|reflexivity].
    apply Ascii.eqb_eq in E. subst. discriminate.
  - unfold PyStr.is_digit in H. unfold PyStr.is_space.
    apply Bool.andb_true_iff in H. destruct H as [H1 H2].
    apply Nat.leb_le in H1. apply Nat.leb_le in H2.
    apply Bool.orb_false_iff. split; apply Bool.andb_false_iff.
    + right. apply Nat.leb_gt. lia.
    + right. apply Nat.leb_gt. lia.
Qed.

Lemma parse_format_digits (y : string) :
  PyStr.all_digits y = true -> Strptime.parse_format y = Some (lit_items y).
Proof.
  induction y as [|c y IH]; simpl; [reflexivity |].
  intros H. apply Bool.andb_true_iff in H. destruct H as [Hc Hy].
  destruct (digit_is_plain c Hc) as [-> ->]. now rewrite (IH Hy).
Qed.

Lemma count_digits (sep : ascii) (y : string) :
  separator sep -> PyStr.all_digits y = true -> count sep y = O.
Proof.
  intros Hsep. induction y as [|c y IH]; simpl; [reflexivity |].
  intros H. apply Bool.andb_true_iff in H. destruct H as [Hc Hy].
  now rewrite (digit_not_separator sep c Hsep Hc), (IH Hy).
Qed.

Lemma digit_char_is_digit (n : Z) : PyStr.is_digit (PyStr.digit_char (n mod 10)) = true.
Proof.
  pose proof (Z.mod_pos_bound n 10 ltac:(lia)) as B.
  assert (C : n mod 10 = 0 \/ n mod 10 = 1 \/ n mod 10 = 2 \/ n mod 10 = 3
              \/ n mod 10 = 4 \/ n mod 10 = 5 \/ n mod 10 = 6 \/ n mod 10 = 7
              \/ n mod 10 = 8 \/ n mod 10 = 9) by lia.
  repeat (destruct C as [C | C]; [rewrite C; reflexivity |]).
  rewrite C; reflexivity.
Qed.

Lemma nat_digits_all_digits (fuel : nat) :
  forall (n : Z) (acc : string),
    PyStr.all_digits acc = true ->
    PyStr.all_digits (PyStr.nat_digits fuel n acc) = true.
Proof.
  induction fuel as [|fuel IH]; intros n acc H; simpl; [exact H |].
  assert (A : PyStr.all_digits (String (PyStr.digit_char (n mod 10)) acc) = true).
  { simpl. now rewrite digit_char_is_digit, H. }
  destruct (n / 10 =? 0); [exact A | now apply IH].
Qed.

(** The decimal rendering of the current year is a run of digits. *)
Lemma of_Z_all_digits (n : Z) : PyStr.all_digits (PyStr.of_Z n) = true.
Proof. unfold PyStr.of_Z. now apply nat_digits_all_digits. Qed.

Lemma parse_format_app_bounded (n : nat) :
  forall (a : string), (String.length a <= n)%nat ->
  forall (ia : list Strptime.fitem) (b : string) (ib : list Strptime.fitem),
    Strptime.parse_format a = Some ia ->
    Strptime.parse_format b = Some ib ->
    Strptime.parse_format (a ++ b) = Some (ia ++ ib)%list.
Proof.
  induction n as [|n IH]; intros a Hlen ia b ib Ha Hb.
  - destruct a; [|simpl in Hlen; lia]. simpl in *. injection Ha as <-. exact Hb.
  - destruct a as [|c a]; [simpl in *; injection Ha as <-; exact Hb |].
    simpl in Hlen. cbn [Strptime.parse_format append] in *.
    destruct (Ascii.eqb c "%").
    + destruct a as [|d a]; [discriminate |].
      simpl in Hlen. cbn [append].
      destruct (if Ascii.eqb d "Y" then Some Strptime.DirY
                else if Ascii.eqb d "y" then Some Strptime.Diry
                else if Ascii.eqb d "m" then Some Strptime.Dirm
                else if Ascii.eqb d "d" then Some Strptime.Dird
                else if Ascii.eqb d "%" then Some (Strptime.Lit "%")
                else None) as [i|]; [|discriminate].
      destruct (Strptime.parse_format a) as [l|] eqn:P; [|discriminate].
      injection Ha as <-.
      rewrite (IH a ltac:(lia) l b ib P Hb). reflexivity.
    + destruct (PyStr.is_space c); [discriminate |].
      destruct (Strptime.parse_format a) as [l|] eqn:P; [|discriminate].
      simpl in Ha. injection Ha as <-.
      rewrite (IH a ltac:(lia) l b ib P Hb). reflexivity.
Qed.

(** The format with the separator and the year appended compiles to the
    items of the format, the separator and the digits of the year, all
    three literal. *)
Lemma parse_format_with_year (fmt : string) (pre : list Strptime.fitem)
      (sep : ascii) (y : string) :
  Strptime.parse_format fmt = Some pre ->
  Strptime.parse_format (String sep EmptyString) = Some [Strptime.Lit sep] ->
  PyStr.all_digits y = true ->
  Strptime.parse_format (fmt ++ String sep EmptyString ++ y)
  = Some (pre ++ Strptime.Lit sep :: lit_items y)%list.
Proof.
  intros Hf Hs Hy.
  rewrite (parse_format_app_bounded (String.length fmt) fmt (Nat.le_refl _) pre
             (String sep EmptyString ++ y) (Strptime.Lit sep :: lit_items y) Hf).
  - reflexivity.
  - change (Strptime.Lit sep :: lit_items y)
      with ([Strptime.Lit sep] ++ lit_items y)%list.
    apply (parse_format_app_bounded 1 (String sep EmptyString) (Nat.le_refl _)).
    + exact Hs.
    + now apply parse_format_digits.
Qed.

(** The two shapes of format that [_parse_date_flexible] builds for a
    year-less date: with slashes and with dashes. *)
Lemma appended_year_slash (date_str fmt y : string) (pre : list Strptime.fitem)
      (d : datetime) :
  Strptime.parse_format fmt = Some pre ->
  PyStr.all_digits y = true ->
  Strptime.strptime (date_str ++ "/" ++ y) (fmt ++ "/" ++ y) = Some d ->
  count "/" date_str = (lits "/" pre)%nat
  /\ count "-" date_str = lits "-" pre
  /\ (List.existsb sets_year pre = false -> year d = 1900).
Proof.
  intros Hf Hy H. apply strptime_facts in H. destruct H as (items & Hp & Hc & Hyr).
  rewrite (parse_format_with_year fmt pre "/" y Hf eq_refl Hy) in Hp.
  injection Hp as <-.
  pose proof (Hc "/"%char slash_separator) as C1.
  pose proof (Hc "-"%char dash_separator) as C2.
  rewrite !count_app, lits_app in C1, C2. simpl in C1, C2.
  rewrite lits_lit_items in C1, C2.
  rewrite (count_digits "/" y slash_separator Hy) in C1.
  rewrite (count_digits "-" y dash_separator Hy) in C2.
  repeat split; try lia.
  intros Hpre. apply Hyr. rewrite List.existsb_app, Hpre. simpl.
  clear - Hy. induction y as [|c y IH]; simpl in *; [reflexivity |].
  apply Bool.andb_true_iff in Hy. now apply IH.
Qed.

Lemma appended_year_dash (date_str fmt y : string) (pre : list Strptime.fitem)
      (d : datetime) :
  Strptime.parse_format fmt = Some pre ->
  PyStr.all_digits y = true ->
  Strptime.strptime (date_str ++ "-" ++ y) (fmt ++ "-" ++ y) = Some d ->
  count "/" date_str = (lits "/" pre)%nat
  /\ count "-" date_str = lits "-" pre
  /\ (List.existsb sets_year pre = false -> year d = 1900).
Proof.
  intros Hf Hy H. apply strptime_facts in H. destruct H as (items & Hp & Hc & Hyr).
  rewrite (parse_format_with_year fmt pre "-" y Hf eq_refl Hy) in Hp.
  injection Hp as <-.
  pose proof (Hc "/"%char slash_separator) as C1.
  pose proof (Hc "-"%char dash_separator) as C2.
  rewrite !count_app, lits_app in C1, C2. simpl in C1, C2.
  rewrite lits_lit_items in C1, C2.
  rewrite (count_digits "/" y slash_separator Hy) in C1.
  rewrite (count_digits "-" y dash_separator Hy) in C2.
  repeat split; try lia.
  intros Hpre. apply Hyr. rewrite List.existsb_app, Hpre. simpl.
  clear - Hy. induction y as [|c y IH]; simpl in *; [reflexivity |].
  apply Bool.andb_true_iff in Hy. now apply IH.
Qed.

Ltac decide_slash H :=
  match type of H with
  | (if ?c then _ else _) = _ =>
      let b := eval vm_compute in c in change c with b in H; cbv iota in H
  end.

(** C3 fails on the code: a year-less date never gets the processing
    year.  Whatever the current year, a date string with exactly two
    slash- or dash-separated fields that the flexible date parser
    accepts comes out in the year 1900, and so does every date of the
    institution whose layout is month/day: the year is appended to the
    format as literal text, where a directive was meant. *)
Theorem yearless_date_gets_year_1900 (current_year : Z) (date_str : string)
        (d : datetime) :
  PDFParser.two_fields "/" date_str || PDFParser.two_fields "-" date_str = true ->
  PDFParser._parse_date_flexible current_year date_str = Some d
  \/ PDFParser.bank_date current_year "%m/%d" date_str = Some d ->
  year d = 1900 /\ (current_year <> 1900 -> year d <> current_year).
Proof.
  intros H P.
  assert (Y : year d = 1900); [|split; [exact Y | rewrite Y; congruence]].
  pose proof (of_Z_all_digits current_year) as Hy.
  assert (F : count "/" date_str = 1%nat \/ count "-" date_str = 1%nat).
  { apply Bool.orb_true_iff in H.
    destruct H as [H | H]; apply two_fields_count in H; auto. }
  destruct P as [P | P].
  - unfold PDFParser._parse_date_flexible in P. rewrite H in P.
    apply first_some_some in P. destruct P as (fmt & Hin & Hf).
    simpl in Hin.
    destruct Hin as [<- | [<- | [<- | [<- | [<- | [<- | [<- | []]]]]]]];
      decide_slash Hf;
      first [ eapply appended_year_slash in Hf; [|reflexivity | exact Hy]
            | eapply appended_year_dash in Hf; [|reflexivity | exact Hy] ];
      destruct Hf as (C1 & C2 & Hyr); simpl in C1, C2;
      first [ lia | apply Hyr; reflexivity ].
  - unfold PDFParser.bank_date in P.
    destruct (PDFParser.two_fields "/" date_str).
    + eapply appended_year_slash in P; [|reflexivity | exact Hy].
      destruct P as (_ & _ & Hyr). apply Hyr. reflexivity.
    + apply strptime_facts in P. destruct P as (items & Hp & _ & Hyr).
      injection Hp as <-. apply Hyr. reflexivity.
Qed.

Lemma yearless_date_gets_year_1900_witness :
  PDFParser.two_fields "/" "01/15" || PDFParser.two_fields "-" "01/15" = true
  /\ PDFParser._parse_date_flexible 2026 "01/15" = Some (mkDate 1900 1 15)
  /\ year (mkDate 1900 1 15) = 1900
  /\ year (mkDate 1900 1 15) <> 2026.
Proof.
  assert (H : PDFParser.two_fields "/" "01/15"
              || PDFParser.two_fields "-" "01/15" = true) by reflexivity.
  assert (P : PDFParser._parse_date_flexible 2026 "01/15" = Some (mkDate 1900 1 15))
    by (vm_compute; reflexivity).
  destruct (yearless_date_gets_year_1900 2026 "01/15" (mkDate 1900 1 15) H
              (or_introl P)) as [Y N].
  split; [exact H | split; [exact P | split; [exact Y |]]].
  apply N. discriminate.
Defined.

(** ** What [float] reads in an amount of the text extractor *)

Lemma has_char_app (x : ascii) (a b : string) :
  PyStr.has_char x (a ++ b) = PyStr.has_char x a || PyStr.has_char x b.
Proof.
  induction a as [|c a IH]; simpl; [reflexivity |].
  rewrite IH. now rewrite Bool.orb_assoc.
Qed.

Lemma has_char_filter (x : ascii) (f : ascii -> bool) (s : string) :
  f x = true -> PyStr.has_char x (PyStr.filter f s) = PyStr.has_char x s.
Proof.
  intros Hx. induction s as [|c s IH]; simpl; [reflexivity |].
  destruct (f c) eqn:E; simpl; rewrite IH; [reflexivity |].
  destruct (Ascii.eqb x c) eqn:X; [|reflexivity].
  apply Ascii.eqb_eq in X. subst. congruence.
Qed.

Lemma has_char_remove_comma (x : ascii) (s : string) :
  Ascii.eqb x "," = false ->
  PyStr.has_char x (PyStr.remove "," s) = PyStr.has_char x s.
Proof.
  intros Hx. unfold PyStr.remove. induction s as [|c s IH]; [reflexivity |].
  cbn [PyStr.remove_from PyStr.startswith String.length Nat.sub].
  destruct (Ascii.eqb "," c) eqn:E; cbn [andb PyStr.has_char].
  - rewrite IH. apply Ascii.eqb_eq in E. subst. now rewrite Hx.
  - now rewrite IH.
Qed.

Lemma minus_in_cleaned (s : string) :
  PyStr.has_char "-" (PDFParser.cleaned s) = PyStr.has_char "-" s.
Proof.
  unfold PDFParser.cleaned.
  rewrite has_char_remove_comma by reflexivity.
  now rewrite has_char_filter by reflexivity.
Qed.

Lemma all_chars_filter (f : ascii -> bool) (s : string) :
  all_chars f (PyStr.filter f s) = true.
Proof.
  induction s as [|c s IH]; simpl; [reflexivity |].
  destruct (f c) eqn:E; [simpl; now rewrite E | exact IH].
Qed.

Lemma plain_of_amount_char (c : ascii) :
  PDFParser.amount_char c = true -> Ascii.eqb "," c = false ->
  plain_char c = true.
Proof.
  unfold PDFParser.amount_char, plain_char. rewrite (Ascii.eqb_sym "," c).
  intros H N. rewrite N in H.
  destruct (PyStr.is_digit c), (Ascii.eqb c "."), (Ascii.eqb c "-");
    simpl in *; congruence.
Qed.

Lemma all_chars_remove_comma (s : string) :
  all_chars PDFParser.amount_char s = true ->
  all_chars plain_char (PyStr.remove "," s) = true.
Proof.
  unfold PyStr.remove. induction s as [|c s IH]; [reflexivity |].
  cbn [all_chars]. intros H. apply Bool.andb_true_iff in H. destruct H as [Hc Hs].
  cbn [PyStr.remove_from PyStr.startswith String.length Nat.sub].
  destruct (Ascii.eqb "," c) eqn:E; cbn [andb].
  - exact (IH Hs).
  - cbn [all_chars]. now rewrite (plain_of_amount_char c Hc E), (IH Hs).
Qed.

(** What [float] is given by the amount parser holds digits, points and
    minus signs only. *)
Lemma cleaned_plain (s : string) : all_chars plain_char (PDFParser.cleaned s) = true.
Proof.
  unfold PDFParser.cleaned. apply all_chars_remove_comma, all_chars_filter.
Qed.

(** Such a character is no white space, underscore, plus sign, letter of
    an exponent or of [inf] and [nan], and has no lower case. *)
Lemma plain_char_facts (c : ascii) :
  plain_char c = true ->
  PyFloat.is_space c = false
  /\ Ascii.eqb c "_" = false
  /\ Ascii.eqb c "+" = false
  /\ Ascii.eqb c "e" || Ascii.eqb c "E" = false
  /\ PyStr.lower_char c = c.
Proof.
  destruct c as [[|] [|] [|] [|] [|] [|] [|] [|]];
    intros H; try discriminate H; repeat split; reflexivity.
Qed.

Lemma lstrip_plain (s : string) :
  all_chars plain_char s = true -> PyFloat.lstrip s = s.
Proof.
  destruct s as [|c s]; [reflexivity |]. cbn [all_chars PyFloat.lstrip].
  intros H. apply Bool.andb_true_iff in H. destruct H as [Hc _].
  now rewrite (proj1 (plain_char_facts c Hc)).
Qed.

Lemma rstrip_plain (s : string) :
  all_chars plain_char s = true -> PyFloat.rstrip s = s.
Proof.
  induction s as [|c s IH]; [reflexivity |]. cbn [all_chars PyFloat.rstrip].
  intros H. apply Bool.andb_true_iff in H. destruct H as [Hc Hs].
  rewrite (IH Hs). destruct s; [|reflexivity].
  now rewrite (proj1 (plain_char_facts c Hc)).
Qed.

Lemma underscores_plain (s : string) :
  all_chars plain_char s = true ->
  forall prev, Ascii.eqb prev "_" = false -> PyFloat.underscores_ok prev s = true.
Proof.
  induction s as [|c s IH]; intros H prev Hp; cbn [PyFloat.underscores_ok].
  - now rewrite Hp.
  - cbn [all_chars] in H. apply Bool.andb_true_iff in H. destruct H as [Hc Hs].
    destruct (plain_char_facts c Hc) as (_ & U & _).
    rewrite U, Hp. cbn [andb]. exact (IH Hs c U).
Qed.

Lemma filter_plain (s : string) :
  all_chars plain_char s = true -> PyStr.filter PyFloat.not_underscore s = s.
Proof.
  induction s as [|c s IH]; [reflexivity |]. cbn [all_chars PyStr.filter].
  intros H. apply Bool.andb_true_iff in H. destruct H as [Hc Hs].
  destruct (plain_char_facts c Hc) as (_ & U & _).
  unfold PyFloat.not_underscore at 1. rewrite U. cbn [negb]. now rewrite (IH Hs).
Qed.

Lemma lower_plain (s : string) :
  all_chars plain_char s = true -> PyStr.lower s = s.
Proof.
  induction s as [|c s IH]; [reflexivity |]. cbn [all_chars PyStr.lower].
  intros H. apply Bool.andb_true_iff in H. destruct H as [Hc Hs].
  destruct (plain_char_facts c Hc) as (_ & _ & _ & _ & L).
  now rewrite L, (IH Hs).
Qed.

Lemma split_exponent_plain (s : string) :
  all_chars plain_char s = true -> PyFloat.split_exponent s = (s, None).
Proof.
  induction s as [|c s IH]; [reflexivity |]. cbn [all_chars PyFloat.split_exponent].
  intros H. apply Bool.andb_true_iff in H. destruct H as [Hc Hs].
  destruct (plain_char_facts c Hc) as (_ & _ & _ & E & _).
  now rewrite E, (IH Hs).
Qed.

Lemma plain_is_no_name (s name : string) :
  all_chars plain_char s = true -> all_chars plain_char name = false ->
  String.eqb s name = false.
Proof.
  intros Hs Hn. destruct (String.eqb s name) eqn:E; [|reflexivity].
  apply String.eqb_eq in E. subst. congruence.
Qed.

Lemma span_digits_spec (s : string) :
  s = (fst (PyFloat.span_digits s) ++ snd (PyFloat.span_digits s))%string
  /\ PyStr.all_digits (fst (PyFloat.span_digits s)) = true.
Proof.
  induction s as [|c s [IH1 IH2]]; simpl; [split; reflexivity |].
  destruct (PyStr.is_digit c) eqn:E; [|split; reflexivity].
  destruct (PyFloat.span_digits s) as [d r]. simpl in *.
  split; [now rewrite <- IH1 | now rewrite E, IH2].
Qed.

Lemma all_digits_app (a b : string) :
  PyStr.all_digits (a ++ b) = PyStr.all_digits a && PyStr.all_digits b.
Proof.
  induction a as [|c a IH]; simpl; [reflexivity |].
  now rewrite IH, Bool.andb_assoc.
Qed.

Lemma digits_val_nonneg (s : string) :
  forall acc, 0 <= acc -> PyStr.all_digits s = true -> 0 <= PyStr.digits_val acc s.
Proof.
  induction s as [|c s IH]; intros acc Ha Hs;
    cbn [PyStr.digits_val PyStr.all_digits] in *; [exact Ha |].
  apply Bool.andb_true_iff in Hs. destruct Hs as [Hc Hs].
  apply IH; [|exact Hs].
  unfold PyStr.digit_val. unfold PyStr.is_digit in Hc. cbv zeta in Hc.
  apply Bool.andb_true_iff in Hc. destruct Hc as [H1 _].
  apply Nat.leb_le in H1. lia.
Qed.

Lemma normalize_aux_nonneg (k : nat) :
  forall m, 0 <= m -> 0 <= mant (Dec.normalize_aux m k).
Proof.
  induction k as [|k IH]; intros m Hm; simpl; [exact Hm |].
  destruct (m mod 10 =? 0); [|exact Hm].
  apply IH. apply Z.div_pos; lia.
Qed.

Lemma no_minus_in_digits (s : string) :
  PyStr.all_digits s = true -> PyStr.has_char "-" s = false.
Proof.
  induction s as [|c s IH]; cbn [PyStr.all_digits PyStr.has_char];
    [reflexivity |].
  intros H. apply Bool.andb_true_iff in H. destruct H as [Hc Hs].
  rewrite (IH Hs). destruct (Ascii.eqb "-" c) eqn:E; [|reflexivity].
  apply Ascii.eqb_eq in E. subst. discriminate.
Qed.

(** An unsigned literal denotes a number that is not negative and holds
    no minus sign. *)
Lemma unsigned_facts (s : string) (u : dec) :
  PyFloat.unsigned s = Some u ->
  0 <= mant u /\ PyStr.has_char "-" s = false.
Proof.
  unfold PyFloat.unsigned.
  destruct (span_digits_spec s) as [Hs Hd].
  destruct (PyFloat.span_digits s) as [ip r]. simpl in Hs, Hd.
  assert (V : 0 <= PyStr.digits_val 0 ip)
    by (apply digits_val_nonneg; [lia | exact Hd]).
  destruct r as [|c r'].
  - destruct ip as [|a ip']; [discriminate |].
    intros H. injection H as <-. split.
    + exact V.
    + rewrite Hs, has_char_app. rewrite (no_minus_in_digits _ Hd). reflexivity.
  - destruct (Ascii.eqb c ".") eqn:E; [|discriminate].
    destruct (PyStr.all_digits r') eqn:R; [|discriminate].
    assert (W : 0 <= PyStr.digits_val 0 (ip ++ r')).
    { apply digits_val_nonneg; [lia |]. now rewrite all_digits_app, Hd, R. }
    destruct (ip ++ r')%string as [|a ds] eqn:A; [discriminate |].
    intros H. injection H as <-. split.
    + unfold Dec.normalize. cbn [mant scale]. apply normalize_aux_nonneg.
      exact W.
    + rewrite Hs, has_char_app. rewrite (no_minus_in_digits _ Hd).
      apply Ascii.eqb_eq in E. subst c. simpl.
      now apply no_minus_in_digits.
Qed.

Lemma scale10_nonneg (d : dec) (k : Z) :
  0 <= mant d -> 0 <= mant (PyFloat.scale10 d k).
Proof.
  intros H. unfold PyFloat.scale10, Dec.normalize.
  destruct (0 <=? k) eqn:K; cbn [mant scale]; apply normalize_aux_nonneg;
    [|exact H].
  apply Z.leb_le in K. apply Z.mul_nonneg_nonneg; [exact H |].
  now apply Z.pow_nonneg.
Qed.

(** Rounding keeps the sign. *)
Lemma round_sign (d : dec) :
  (0 <= mant d -> nonnegative (PyFloat.round d))
  /\ (mant d <= 0 -> nonpositive (PyFloat.round d)).
Proof.
  unfold PyFloat.round. cbv zeta.
  destruct (Z.abs (mant d) * 2 ^ 1075 <=? 10 ^ Z.of_nat (scale d)) eqn:U.
  - split; intros _; cbn; lia.
  - apply Z.leb_gt in U.
    assert (P : 0 < 10 ^ Z.of_nat (scale d)) by (apply Z.pow_pos_nonneg; lia).
    assert (N : mant d <> 0).
    { intros E. rewrite E in U. simpl Z.abs in U. lia. }
    destruct ((2 ^ 1024 - 2 ^ 970) * 10 ^ Z.of_nat (scale d) <=? Z.abs (mant d)).
    + split; intros H; cbn; [apply Z.ltb_ge | apply Z.ltb_lt]; lia.
    + split; intros H; cbn; lia.
Qed.

(** On a string of digits, points and minus signs, the sign of what
    [float] accepts follows the presence of a minus; the result is never
    not-a-number. *)
Lemma float_of_plain (s : string) (a : pyfloat) :
  all_chars plain_char s = true ->
  PyFloat.float s = Some a ->
  if PyStr.has_char "-" s then nonpositive a else nonnegative a.
Proof.
  intros Hs. unfold PyFloat.float, PyFloat.strip. cbv zeta.
  rewrite (lstrip_plain s Hs), (rstrip_plain s Hs).
  rewrite (underscores_plain s Hs "000"%char eq_refl), (filter_plain s Hs).
  assert (Body : forall (negative : bool) (body : string),
             all_chars plain_char body = true ->
             (if String.eqb (PyStr.lower body) "inf"
                 || String.eqb (PyStr.lower body) "infinity"
              then Some (Infinite negative)
              else if String.eqb (PyStr.lower body) "nan" then Some NotANumber
              else
                let (m, e) := PyFloat.split_exponent body in
                match PyFloat.unsigned m,
                      match e with Some x => PyFloat.exponent x | None => Some 0 end
                with
                | Some d, Some k =>
                    Some (PyFloat.round
                            (if negative then Dec.neg (PyFloat.scale10 d k)
                             else PyFloat.scale10 d k))
                | _, _ => None
                end) = Some a ->
             PyStr.has_char "-" body = false
             /\ if negative then nonpositive a else nonnegative a).
  { intros negative body Hb. rewrite (lower_plain body Hb).
    rewrite (plain_is_no_name body "inf" Hb eq_refl),
      (plain_is_no_name body "infinity" Hb eq_refl),
      (plain_is_no_name body "nan" Hb eq_refl).
    cbn [orb]. rewrite (split_exponent_plain body Hb).
    destruct (PyFloat.unsigned body) as [d|] eqn:U; [|discriminate].
    destruct (unsigned_facts body d U) as [Hd Hm].
    intros H. injection H as <-. split; [exact Hm |].
    pose proof (scale10_nonneg d 0 Hd) as V.
    destruct negative.
    - apply round_sign. unfold Dec.neg. cbn [mant]. lia.
    - now apply round_sign. }
  destruct s as [|c t]; [intros H; now destruct (Body false EmptyString eq_refl H) |].
  cbn [all_chars] in Hs. apply Bool.andb_true_iff in Hs. destruct Hs as [Hc Ht].
  destruct (plain_char_facts c Hc) as (_ & _ & Plus & _).
  cbn [PyStr.has_char]. rewrite (Ascii.eqb_sym "-" c).
  destruct (Ascii.eqb c "-") eqn:M.
  - intros H. cbn [orb]. exact (proj2 (Body true t Ht H)).
  - rewrite Plus. intros H.
    assert (Hs : all_chars plain_char (String c t) = true)
      by (cbn [all_chars]; now rewrite Hc, Ht).
    destruct (Body false (String c t) Hs H) as [Hm Ha].
    cbn [PyStr.has_char] in Hm. rewrite (Ascii.eqb_sym "-" c), M in Hm.
    cbn [orb] in *. now rewrite Hm.
Qed.

Lemma neg_of_nonpositive (a : pyfloat) :
  nonpositive a -> nonnegative (PyFloat.neg a).
Proof.
  destruct a as [d|n|]; cbn; try contradiction.
  - lia.
  - now intros ->.
Qed.

Lemma nonnegative_is_number (a : pyfloat) :
  nonnegative a -> PyFloat.isnan a = false /\ PyFloat.ltb0 a = false.
Proof.
  destruct a as [d|n|]; cbn; try contradiction.
  - intros H. split; [reflexivity |]. unfold Dec.ltb0. apply Z.ltb_ge. exact H.
  - intros ->. split; reflexivity.
Qed.

Lemma nonpositive_is_number (a : pyfloat) :
  nonpositive a -> PyFloat.isnan a = false.
Proof. destruct a as [d|n|]; cbn; try contradiction; reflexivity. Qed.

Lemma neg_keeps_number (a : pyfloat) :
  PyFloat.isnan (PyFloat.neg a) = PyFloat.isnan a.
Proof. destruct a; reflexivity. Qed.

(** The amount parser never returns not-a-number. *)
Lemma parse_amount_is_number (s : string) :
  PyFloat.isnan (PDFParser._parse_amount s) = false.
Proof.
  unfold PDFParser._parse_amount.
  destruct (PyFloat.float (PDFParser.cleaned s)) as [a|] eqn:F; [|reflexivity].
  pose proof (float_of_plain _ a (cleaned_plain s) F) as S.
  assert (N : PyFloat.isnan a = false).
  { destruct (PyStr.has_char "-" (PDFParser.cleaned s));
      [now apply nonpositive_is_number | now apply nonnegative_is_number]. }
  destruct (_ || _)%bool; [now rewrite neg_keeps_number | exact N].
Qed.

(** Without an opening parenthesis, it returns nothing negative. *)
Lemma parse_amount_sign (s : string) :
  PyStr.has_char "(" s = false -> nonnegative (PDFParser._parse_amount s).
Proof.
  intros Hp. unfold PDFParser._parse_amount. rewrite Hp, Bool.orb_false_r.
  destruct (PyFloat.float (PDFParser.cleaned s)) as [a|] eqn:F; [|cbn; lia].
  pose proof (float_of_plain _ a (cleaned_plain s) F) as S.
  rewrite minus_in_cleaned in S.
  destruct (PyStr.has_char "-" s); [now apply neg_of_nonpositive | exact S].
Qed.

Lemma parse_amount_credit (s : string) :
  PyStr.has_char "(" s = false ->
  PDFParser.type_of (PDFParser._parse_amount s) = "credit".
Proof.
  intros Hp. unfold PDFParser.type_of.
  now rewrite (proj2 (nonnegative_is_number _ (parse_amount_sign s Hp))).
Qed.

(** ** What does hold of every extracted transaction *)

Lemma abs_nonneg (a : pyfloat) :
  PyFloat.isnan a = false -> nonnegative (PyFloat.abs a).
Proof.
  destruct a as [d|n|]; cbn; try discriminate; [|reflexivity].
  intros _. lia.
Qed.

Lemma type_of_values (a : pyfloat) :
  PDFParser.type_of a = "credit" \/ PDFParser.type_of a = "debit".
Proof. unfold PDFParser.type_of. destruct (PyFloat.ltb0 a); auto. Qed.

Lemma generic_pdf_well_typed (current_year : Z) (text : string) (t : txrow) :
  In t (PDFParser._parse_generic_pdf current_year text) -> well_typed t.
Proof.
  unfold PDFParser._parse_generic_pdf. intros H.
  apply List.in_concat in H. destruct H as (l & Hl & Ht).
  apply List.in_map_iff in Hl. destruct Hl as (pattern & <- & _).
  apply filter_map_in in Ht. destruct Ht as ([[ds desc] am] & _ & Hm).
  unfold PDFParser.generic_match in Hm.
  destruct (PDFParser._parse_date_flexible current_year ds); [|discriminate].
  injection Hm as <-. split; simpl;
    [apply type_of_values | apply abs_nonneg, parse_amount_is_number].
Qed.

(** The text extractor keeps the type in {credit, debit} and the amount
    non-negative; it does not keep the amount away from zero. *)
Lemma text_extractor_well_typed (current_year : Z) (pages : list string) (t : txrow) :
  In t (PDFParser.parse_pages current_year pages) -> well_typed t.
Proof.
  unfold PDFParser.parse_pages.
  destruct (String.eqb _ "unknown"); [apply generic_pdf_well_typed |].
  unfold PDFParser._parse_bank_specific_pdf.
  destruct (dict_get _ PDFParser.bank_patterns) as [info|];
    [|apply generic_pdf_well_typed].
  intros Ht. apply filter_map_in in Ht. destruct Ht as ([[ds desc] am] & _ & Hm).
  unfold PDFParser.bank_match in Hm.
  destruct (PDFParser.bank_date current_year _ ds); [|discriminate].
  injection Hm as <-. split; simpl;
    [apply type_of_values | apply abs_nonneg, parse_amount_is_number].
Qed.

Lemma sign_type_ok (a : pyfloat) :
  CSVParser.sign_type a = "credit" \/ CSVParser.sign_type a = "debit".
Proof. unfold CSVParser.sign_type. destruct (PyFloat.ltb0 a); auto. Qed.

Lemma single_column_type (r : row) (cols : list string) :
  snd (CSVParser.single_column r cols) = "credit"
  \/ snd (CSVParser.single_column r cols) = "debit".
Proof.
  induction cols as [|col cols IH]; [simpl; auto |].
  rewrite single_column_step.
  destruct (cell_value r col); [apply sign_type_ok | exact IH].
Qed.

Lemma split_columns_type (r : row) (cols : list string) :
  forall (dv cv : option pyfloat) (ret : option pyfloat * string),
    CSVParser.split_columns r cols dv cv = inl ret ->
    snd ret = "credit" \/ snd ret = "debit".
Proof.
  induction cols as [|col cols IH]; intros dv cv ret; [discriminate |].
  rewrite split_columns_step.
  destruct (cell_value r col) as [a|]; [|apply IH].
  destruct (PyStr.contains "debit" _); [apply IH |].
  destruct (PyStr.contains "credit" _); [apply IH |].
  intros H. injection H as <-. apply sign_type_ok.
Qed.

Lemma extract_type (r : row) (mapping : CSVParser.column_mapping) (bank : string) :
  snd (CSVParser._extract_amount_and_type r mapping bank) = "credit"
  \/ snd (CSVParser._extract_amount_and_type r mapping bank) = "debit".
Proof.
  unfold CSVParser._extract_amount_and_type.
  destruct (List.existsb _ _); [|apply single_column_type].
  destruct (CSVParser.split_columns r _ None None) as [ret|[dv cv]] eqn:E.
  - exact (split_columns_type r _ None None ret E).
  - destruct dv as [d|], cv as [c|];
      repeat match goal with
             | |- context [PyFloat.gtb0 ?x] => destruct (PyFloat.gtb0 x)
             end; simpl; auto; apply single_column_type.
Qed.

Lemma abs_not_negative (a : pyfloat) : PyFloat.ltb0 (PyFloat.abs a) = false.
Proof.
  destruct a as [d|n|]; cbn; try reflexivity.
  unfold Dec.ltb0, Dec.abs. cbn [mant]. apply Z.ltb_ge. lia.
Qed.

Lemma bank_row_positive (bank : string) (r : row) (t : txrow) :
  CSVParser.bank_row bank r = Some t ->
  (tx_type t = "credit" \/ tx_type t = "debit")
  /\ PyFloat.is_zero (tx_amount t) = false
  /\ PyFloat.ltb0 (tx_amount t) = false.
Proof.
  unfold CSVParser.bank_row.
  destruct (CSVParser.row_date _ r); [|discriminate].
  destruct (CSVParser.row_description _ r); [|discriminate].
  pose proof (extract_type r (CSVParser.mapping_of bank) bank) as T.
  destruct (CSVParser._extract_amount_and_type r _ bank) as [[a|] ty];
    [|discriminate].
  destruct (PyFloat.is_zero a) eqn:Z0; simpl; [discriminate |].
  intros H. injection H as <-. simpl. split; [exact T |].
  split; [now apply abs_of_nonzero | apply abs_not_negative].
Qed.

Lemma generic_amount_type (r : row) (cols : list string)
      (a : option pyfloat) (ty : string) :
  CSVParser.generic_amount r cols = Some (a, ty) -> ty = "credit" \/ ty = "debit".
Proof.
  induction cols as [|col cols IH]; simpl.
  - intros H. injection H as _ <-. auto.
  - destruct (Pandas.loc col r) as [val|]; [|discriminate].
    destruct (CSVParser.filled val); [|exact IH].
    destruct (CSVParser.to_float val); [|exact IH].
    intros H. injection H as _ <-.
    destruct (PyStr.contains "credit" _); auto.
    destruct (_ && _)%bool; auto.
Qed.

Lemma generic_row_positive (date_col desc_col : string) (cols : list string)
      (r : row) (t : txrow) :
  CSVParser.generic_row date_col desc_col cols r = Some t ->
  (tx_type t = "credit" \/ tx_type t = "debit")
  /\ PyFloat.is_zero (tx_amount t) = false
  /\ PyFloat.ltb0 (tx_amount t) = false.
Proof.
  unfold CSVParser.generic_row.
  destruct (Pandas.loc date_col r) as [dv|]; [|discriminate].
  destruct (CSVParser._parse_date dv); [|discriminate].
  destruct (Pandas.loc desc_col r) as [sv|]; [|discriminate].
  destruct (CSVParser.generic_amount r cols) as [[[a|] ty]|] eqn:G;
    try discriminate.
  destruct (PyFloat.is_zero a) eqn:Z0; simpl; [discriminate |].
  intros H. injection H as <-. simpl. split.
  - exact (generic_amount_type r cols _ _ G).
  - split; [now apply abs_of_nonzero | apply abs_not_negative].
Qed.

(** The tabular extractors, bank-specific and generic, test the amount
    before they append: every transaction has a type in {credit, debit}
    and an amount that is neither zero nor negative.  (The amount is
    positive, unless the cell read as not-a-number.) *)
Lemma tabular_extractor_nonzero (read : result DataFrame) (rows : list txrow)
      (t : txrow) :
  CSVParser.parse_csv read = Ok rows ->
  In t rows ->
  (tx_type t = "credit" \/ tx_type t = "debit")
  /\ PyFloat.is_zero (tx_amount t) = false
  /\ PyFloat.ltb0 (tx_amount t) = false.
Proof.
  unfold CSVParser.parse_csv. destruct read as [df|e]; [|discriminate].
  destruct (String.eqb _ "unknown").
  - unfold CSVParser._parse_generic_csv.
    destruct (CSVParser.date_columns df) as [|dc dcs]; [discriminate |].
    destruct (CSVParser.description_columns df) as [|sc scs]; [discriminate |].
    destruct (CSVParser.amount_columns df) as [|ac acs]; [discriminate |].
    intros H Ht. injection H as <-.
    apply filter_map_in in Ht. destruct Ht as (r & _ & Hr).
    exact (generic_row_positive _ _ _ r t Hr).
  - intros H Ht. injection H as <-.
    unfold CSVParser._parse_bank_specific_csv in Ht.
    apply filter_map_in in Ht. destruct Ht as (r & _ & Hr).
    exact (bank_row_positive _ r t Hr).
Qed.

(** ** A check of the digest against the standard test vector *)

Lemma sha256_abc :
  SHA256.hexdigest "abc"
  = "ba7816bf8f01cfea414140de5dae2223b00361a396177a9cb410ff61f20015ad".
Proof. vm_compute. reflexivity. Qed.

(** * Further properties *)

(** ** The sign of a parsed amount *)



(** ** The text extractor never reports a debit *)

Lemma push_no_paren (g : nat) (t : string) (c : Regex.captures) :
  no_paren c ->
  (g = 3%nat -> PyStr.has_char "(" t = false) ->
  no_paren (Regex.push g t c).
Proof.
  destruct c as [[a b] d]. unfold no_paren. cbn [snd]. intros Hc Ht.
  destruct g as [|[|[|[|g]]]]; cbn [Regex.push snd]; trivial.
  rewrite has_char_app, Hc, (Ht eq_refl). reflexivity.
Qed.

Lemma class_excludes_paren (cls : ascii -> bool) (a : ascii) :
  cls "("%char = false -> cls a = true ->
  PyStr.has_char "(" (String a EmptyString) = false.
Proof.
  intros Hp Ha. cbn [PyStr.has_char]. rewrite Bool.orb_false_r.
  destruct (Ascii.eqb "(" a) eqn:E; [|reflexivity].
  apply Ascii.eqb_eq in E. subst. congruence.
Qed.

Lemma rep_no_paren (cls : ascii -> bool) (min : nat) (max : option nat)
      (greedy : bool) (grp : nat)
      (k : string -> Regex.captures -> option (Regex.captures * string)) :
  (grp = 3%nat -> cls "("%char = false) ->
  (forall s c r, no_paren c -> k s c = Some r -> no_paren (fst r)) ->
  forall (s : string) (n : nat) (c : Regex.captures) (r : Regex.captures * string),
    no_paren c ->
    Regex.rep _ cls min max greedy grp k n s c = Some r ->
    no_paren (fst r).
Proof.
  intros Hcls Hk. induction s as [|a s IH]; intros n c r Hc H;
    cbn [Regex.rep] in H.
  - destruct greedy; destruct (min <=? n)%nat; try discriminate;
      first [ exact (Hk _ _ _ Hc H)
            | destruct (k EmptyString c) as [r'|] eqn:K; [|discriminate];
              injection H as <-; exact (Hk _ _ _ Hc K) ].
  - assert (More : forall r',
               (if cls a && Regex.below n max
                then Regex.rep _ cls min max greedy grp k (S n) s
                       (Regex.push grp (String a EmptyString) c)
                else None) = Some r' -> no_paren (fst r')).
    { intros r' M. destruct (cls a && Regex.below n max)%bool eqn:E;
        [|discriminate].
      apply Bool.andb_true_iff in E. destruct E as [Ea _].
      eapply IH; [|exact M].
      apply push_no_paren; [exact Hc |].
      intros G. exact (class_excludes_paren cls a (Hcls G) Ea). }
    assert (Stop : forall r',
               (if (min <=? n)%nat then k (String a s) c else None) = Some r' ->
               no_paren (fst r')).
    { intros r' S0. destruct (min <=? n)%nat; [|discriminate].
      exact (Hk _ _ _ Hc S0). }
    destruct greedy.
    + destruct (if cls a && Regex.below n max
                then Regex.rep _ cls min max true grp k (S n) s
                       (Regex.push grp (String a EmptyString) c)
                else None) as [r'|] eqn:M.
      * injection H as <-. exact (More r' eq_refl).
      * exact (Stop r H).
    + destruct (if (min <=? n)%nat then k (String a s) c else None)
        as [r'|] eqn:S0.
      * injection H as <-. exact (Stop r' eq_refl).
      * exact (More r H).
Qed.

(** A match of a pattern whose third group admits no opening parenthesis
    has none in its third capture. *)
Lemma match_here_no_paren (items : list Regex.item) :
  Forall paren_free items ->
  forall (s : string) (c : Regex.captures) (r : Regex.captures * string),
    no_paren c ->
    Regex.match_here items s c = Some r ->
    no_paren (fst r).
Proof.
  induction items as [|i items IH]; intros Hf s c r Hc H;
    cbn [Regex.match_here] in H.
  - injection H as <-. exact Hc.
  - inversion Hf as [|? ? Hi Hitems]; subst.
    destruct i as [cls min max greedy grp | lit grp].
    + exact (rep_no_paren cls min max greedy grp _ Hi
               (fun s0 c0 r0 => IH Hitems s0 c0 r0) s O c r Hc H).
    + destruct (PyStr.startswith lit s).
      * destruct (Regex.match_here items (Regex.drop (String.length lit) s)
                    (Regex.push grp lit c)) as [r'|] eqn:M.
        -- injection H as <-.
           apply (IH Hitems _ _ _ (push_no_paren grp lit c Hc Hi) M).
        -- exact (IH Hitems _ _ _ Hc H).
      * exact (IH Hitems _ _ _ Hc H).
Qed.

Lemma findall_no_paren (items : list Regex.item) (text : string)
      (m : Regex.captures) :
  Forall paren_free items ->
  In m (Regex.findall items text) -> no_paren m.
Proof.
  intros Hf. unfold Regex.findall. generalize O.
  induction text as [|a text IH]; intros skip H; cbn [Regex.findall_from] in H.
  - contradiction.
  - destruct skip as [|j]; [|exact (IH _ H)].
    destruct (Regex.match_here items (String a text) Regex.no_captures)
      as [[c rest]|] eqn:M; [|exact (IH _ H)].
    destruct H as [<- | H]; [|exact (IH _ H)].
    assert (N0 : no_paren Regex.no_captures) by reflexivity.
    exact (match_here_no_paren items Hf _ _ _ N0 M).
Qed.

Ltac paren_free_items :=
  repeat first
    [ apply Forall_nil
    | apply Forall_cons;
      [ cbv; first [ intros _; reflexivity | intros K; discriminate K ] | ] ].

Lemma bank_patterns_paren_free (bank : string) (info : PDFParser.pattern_info) :
  dict_get bank PDFParser.bank_patterns = Some info ->
  Forall paren_free (PDFParser.transaction_pattern info).
Proof.
  unfold PDFParser.bank_patterns. cbn [dict_get].
  repeat match goal with
         | |- (if ?b then _ else _) = _ -> _ => destruct b
         end;
    intros H; try discriminate; injection H as <-;
    cbv [PDFParser.transaction_pattern PDFParser.date_md PDFParser.date_full
         PDFParser.description_part PDFParser.amount_dollar
         PDFParser.amount_rupee app];
    paren_free_items.
Qed.

Lemma generic_patterns_paren_free :
  Forall (Forall paren_free) PDFParser.generic_patterns.
Proof.
  unfold PDFParser.generic_patterns.
  repeat first
    [ apply Forall_nil
    | apply Forall_cons;
      [ cbv [PDFParser.description_part PDFParser.amount_dollar app];
        paren_free_items | ] ].
Qed.

(** Every transaction the text extractor builds, for a known institution
    or through the generic patterns, has type 'credit': no amount token
    a pattern can match holds a parenthesis, and a minus sign is undone
    by the amount parser, so the signed amount is never negative. *)
Theorem text_extractor_only_credit (current_year : Z) (pages : list string)
        (t : txrow) :
  In t (PDFParser.parse_pages current_year pages) ->
  tx_type t = "credit".
Proof.
  assert (G : forall text, In t (PDFParser._parse_generic_pdf current_year text) ->
                           tx_type t = "credit").
  { intros text H. unfold PDFParser._parse_generic_pdf in H.
    apply List.in_concat in H. destruct H as (l & Hl & Ht).
    apply List.in_map_iff in Hl. destruct Hl as (pattern & <- & Hp).
    apply filter_map_in in Ht. destruct Ht as (m & Hin & Hm).
    pose proof (proj1 (List.Forall_forall _ _) generic_patterns_paren_free
                      pattern Hp) as Hf.
    pose proof (findall_no_paren pattern text m Hf Hin) as Hn.
    destruct m as [[ds desc] am]. unfold no_paren in Hn. cbn [snd] in Hn.
    unfold PDFParser.generic_match in Hm.
    destruct (PDFParser._parse_date_flexible current_year ds); [|discriminate].
    injection Hm as <-. cbn [tx_type].
    exact (parse_amount_credit am Hn). }
  unfold PDFParser.parse_pages.
  destruct (String.eqb _ "unknown"); [apply G |].
  unfold PDFParser._parse_bank_specific_pdf.
  destruct (dict_get _ PDFParser.bank_patterns) as [info|] eqn:D; [|apply G].
  intros Ht. apply filter_map_in in Ht. destruct Ht as (m & Hin & Hm).
  pose proof (findall_no_paren _ _ m (bank_patterns_paren_free _ info D) Hin) as Hn.
  destruct m as [[ds desc] am]. unfold no_paren in Hn. cbn [snd] in Hn.
  unfold PDFParser.bank_match in Hm.
  destruct (PDFParser.bank_date current_year _ ds); [|discriminate].
  injection Hm as <-. cbn [tx_type].
  exact (parse_amount_credit am Hn).
Qed.

Lemma text_extractor_only_credit_witness :
  let page := "Wells Fargo statement" ++ newline
              ++ "01/15/2024 STARBUCKS #1234 -5.99" in
  PDFParser.parse_pages 2026 [page]
  = [mkTx (mkDate 2024 1 15) "STARBUCKS #1234" (mkDec 599 2) "credit"
          "wells_fargo" None]
  /\ tx_type (mkTx (mkDate 2024 1 15) "STARBUCKS #1234" (mkDec 599 2) "credit"
                   "wells_fargo" None) = "credit".
Proof.
  cbv zeta.
  assert (E : PDFParser.parse_pages 2026
                ["Wells Fargo statement" ++ newline
                 ++ "01/15/2024 STARBUCKS #1234 -5.99"]
              = [mkTx (mkDate 2024 1 15) "STARBUCKS #1234" (mkDec 599 2) "credit"
                      "wells_fargo" None]) by (vm_compute; reflexivity).
  split; [exact E |].
  apply (text_extractor_only_credit 2026
           ["Wells Fargo statement" ++ newline
            ++ "01/15/2024 STARBUCKS #1234 -5.99"]).
  rewrite E. left. reflexivity.
Defined.

(** ** Year-less dates written with a dash *)

(** A date string with exactly two dash-separated fields, such as
    "01-15", is never parsed by the flexible date parser: the year is
    appended with a slash to the formats that hold a slash and with a
    dash to the others, and no resulting format fits the resulting
    string. *)
Theorem dash_yearless_date_is_never_parsed (current_year : Z) (date_str : string) :
  PDFParser.two_fields "-" date_str = true ->
  PDFParser._parse_date_flexible current_year date_str = None.
Proof.
  intros H.
  destruct (PDFParser._parse_date_flexible current_year date_str) as [d|] eqn:P;
    [exfalso | reflexivity].
  pose proof (of_Z_all_digits current_year) as Hy.
  pose proof (proj1 (two_fields_count "-" date_str) H) as F.
  unfold PDFParser._parse_date_flexible in P.
  rewrite H, Bool.orb_true_r in P.
  apply first_some_some in P. destruct P as (fmt & Hin & Hf).
  simpl in Hin.
  destruct Hin as [<- | [<- | [<- | [<- | [<- | [<- | [<- | []]]]]]]];
    decide_slash Hf;
    first [ eapply appended_year_slash in Hf; [|reflexivity | exact Hy]
          | eapply appended_year_dash in Hf; [|reflexivity | exact Hy] ];
    destruct Hf as (C1 & C2 & _); simpl in C1, C2; lia.
Qed.

Lemma dash_yearless_date_is_never_parsed_witness :
  PDFParser.two_fields "-" "01-15" = true
  /\ PDFParser._parse_date_flexible 2026 "01-15" = None.
Proof.
  split; [reflexivity |].
  exact (dash_yearless_date_is_never_parsed 2026 "01-15" eq_refl).
Defined.

(** ** The institution detectors *)

(** Both detectors answer "unknown" or one of the six institution tags,
    and every tag they answer has its entry in the table of the
    extractor: a transaction pattern for the text extractor, a column
    mapping for the tabular one.  The fallbacks for a missing entry are
    thus never taken after a detection. *)
Theorem detected_bank_is_configured (text : string) (cols : list string) :
  (PDFParser._detect_bank_from_pdf text = "unknown"
   \/ (In (PDFParser._detect_bank_from_pdf text) bank_tags
       /\ exists info,
            dict_get (PDFParser._detect_bank_from_pdf text) PDFParser.bank_patterns
            = Some info))
  /\ (CSVParser._detect_bank_from_columns cols = "unknown"
      \/ (In (CSVParser._detect_bank_from_columns cols) bank_tags
          /\ exists mapping,
               dict_get (CSVParser._detect_bank_from_columns cols)
                        CSVParser.bank_column_mappings
               = Some mapping)).
Proof.
  split.
  - unfold PDFParser._detect_bank_from_pdf.
    repeat match goal with
           | |- context [if ?b then _ else _] => destruct b
           end;
      first [ left; reflexivity
            | right; split; [simpl; tauto | eexists; reflexivity] ].
  - unfold CSVParser._detect_bank_from_columns.
    repeat match goal with
           | |- context [if ?b then _ else _] => destruct b
           end;
      first [ left; reflexivity
            | right; split; [simpl; tauto | eexists; reflexivity] ].
Qed.

(** ** The tabular extractor on frames that lack expected columns *)

Lemma in_index_in (name : string) (r : row) :
  Pandas.in_index name r = true -> In name (List.map fst r).
Proof.
  induction r as [|[k v] r IH]; simpl; [discriminate |].
  destruct (String.eqb k name) eqn:E; simpl.
  - intros _. left. now apply String.eqb_eq.
  - intros H. right. now apply IH.
Qed.

Lemma in_iterrows (df : DataFrame) (r : row) (name : string) :
  In r (Pandas.iterrows df) -> Pandas.in_index name r = true ->
  In name (columns df).
Proof.
  unfold Pandas.iterrows. intros Hr Hn.
  apply List.in_map_iff in Hr. destruct Hr as (line & <- & _).
  apply in_index_in in Hn. apply List.in_map_iff in Hn.
  destruct Hn as ([k v] & Hk & Hin). simpl in Hk. subst k.
  exact (List.in_combine_l _ _ _ _ Hin).
Qed.

Lemma find_column_none (r : row) (names : list string) :
  (forall n, In n names -> Pandas.in_index n r = false) ->
  CSVParser._find_column r names = None.
Proof.
  induction names as [|n names IH]; intros H; simpl; [reflexivity |].
  rewrite (H n) by (now left). apply IH. intros n' Hn'. apply H. now right.
Qed.

Lemma find_column_absent (df : DataFrame) (r : row) (names : list string) :
  In r (Pandas.iterrows df) ->
  (forall name, In name names -> ~ In name (columns df)) ->
  CSVParser._find_column r names = None.
Proof.
  intros Hr Hc. apply find_column_none. intros n Hn.
  destruct (Pandas.in_index n r) eqn:E; [|reflexivity].
  destruct (Hc n Hn (in_iterrows df r n Hr E)).
Qed.

Lemma filter_map_none {A B : Type} (f : A -> option B) (l : list A) :
  (forall x, In x l -> f x = None) -> filter_map f l = [].
Proof.
  induction l as [|x l IH]; intros H; simpl; [reflexivity |].
  rewrite (H x) by (now left). apply IH. intros y Hy. apply H. now right.
Qed.

(** When the header of a frame holds none of the date column names of
    the detected institution, the bank-specific extractor skips every
    row: the file parses, without an error, to no transaction at all
    (where the generic extractor would have raised or looked for any
    date-like column). *)
Theorem known_bank_without_date_column_yields_nothing (df : DataFrame)
        (bank : string) :
  (forall name, In name (CSVParser.m_date (CSVParser.mapping_of bank)) ->
                ~ In name (columns df)) ->
  CSVParser._parse_bank_specific_csv df bank = []
  /\ (CSVParser._detect_bank_from_columns (columns df) = bank ->
      String.eqb bank "unknown" = false ->
      CSVParser.parse_csv (Ok df) = Ok []).
Proof.
  intros H.
  assert (E : CSVParser._parse_bank_specific_csv df bank = []).
  { unfold CSVParser._parse_bank_specific_csv. apply filter_map_none.
    intros r Hr. unfold CSVParser.bank_row, CSVParser.row_date.
    now rewrite (find_column_absent df r _ Hr H). }
  split; [exact E |].
  intros Hb Hu. unfold CSVParser.parse_csv. now rewrite Hb, Hu, E.
Qed.

Lemma known_bank_without_date_column_yields_nothing_witness :
  let df := mkFrame ["Wells Posting Date"; "Description"; "Amount"]
                    [[Val "01/15/2024"; Val "COFFEE"; Val "-5.99"]] in
  CSVParser._detect_bank_from_columns (columns df) = "wells_fargo"
  /\ CSVParser.parse_csv (Ok df) = Ok [].
Proof.
  cbv zeta. split; [reflexivity |].
  refine (proj2 (known_bank_without_date_column_yields_nothing
                   (mkFrame ["Wells Posting Date"; "Description"; "Amount"]
                            [[Val "01/15/2024"; Val "COFFEE"; Val "-5.99"]])
                   "wells_fargo" _) eq_refl eq_refl).
  intros name [<- | []] [K | [K | [K | []]]]; discriminate K.
Defined.

(** When the header holds none of the description column names of the
    institution, every transaction of the bank-specific extractor has the
    description "Unknown". *)
Theorem missing_description_column_gives_unknown (df : DataFrame) (bank : string)
        (t : txrow) :
  (forall name, In name (CSVParser.m_description (CSVParser.mapping_of bank)) ->
                ~ In name (columns df)) ->
  In t (CSVParser._parse_bank_specific_csv df bank) ->
  tx_description t = "Unknown".
Proof.
  intros H Ht. unfold CSVParser._parse_bank_specific_csv in Ht.
  apply filter_map_in in Ht. destruct Ht as (r & Hr & Hb).
  unfold CSVParser.bank_row in Hb.
  destruct (CSVParser.row_date _ r); [|discriminate].
  unfold CSVParser.row_description in Hb.
  rewrite (find_column_absent df r _ Hr H) in Hb.
  destruct (CSVParser._extract_amount_and_type r _ bank) as [[a|] ty];
    [|discriminate].
  destruct (negb (PyFloat.is_zero a)); [|discriminate].
  injection Hb as <-. reflexivity.
Qed.

Lemma missing_description_column_gives_unknown_witness :
  let df := mkFrame ["Date"; "Chase Memo"; "Amount"]
                    [[Val "01/15/2024"; Val "COFFEE"; Val "-5.99"]] in
  CSVParser._parse_bank_specific_csv df "chase"
  = [mkTx (mkDate 2024 1 15) "Unknown" (mkDec 599 2) "debit" "chase" None]
  /\ tx_description
       (mkTx (mkDate 2024 1 15) "Unknown" (mkDec 599 2) "debit" "chase" None)
     = "Unknown".
Proof.
  cbv zeta.
  assert (E : CSVParser._parse_bank_specific_csv
                (mkFrame ["Date"; "Chase Memo"; "Amount"]
                         [[Val "01/15/2024"; Val "COFFEE"; Val "-5.99"]]) "chase"
              = [mkTx (mkDate 2024 1 15) "Unknown" (mkDec 599 2) "debit" "chase" None])
    by (vm_compute; reflexivity).
  split; [exact E |].
  apply (missing_description_column_gives_unknown
           (mkFrame ["Date"; "Chase Memo"; "Amount"]
                    [[Val "01/15/2024"; Val "COFFEE"; Val "-5.99"]]) "chase").
  - intros name [<- | []] [K | [K | [K | []]]]; discriminate K.
  - rewrite E. left. reflexivity.
Defined.

(** ** What every row of the tabular extractor carries *)

Lemma generic_row_tag (date_col desc_col : string) (cols : list string)
      (r : row) (t : txrow) :
  CSVParser.generic_row date_col desc_col cols r = Some t ->
  tx_bank t = "unknown" /\ tx_category t = None.
Proof.
  unfold CSVParser.generic_row.
  destruct (Pandas.loc date_col r) as [dv|]; [|discriminate].
  destruct (CSVParser._parse_date dv); [|discriminate].
  destruct (Pandas.loc desc_col r) as [sv|]; [|discriminate].
  destruct (CSVParser.generic_amount r cols) as [[[a|] ty]|]; try discriminate.
  destruct (negb (PyFloat.is_zero a)); [|discriminate].
  intros H. injection H as <-. split; reflexivity.
Qed.

Lemma bank_row_tag (bank : string) (r : row) (t : txrow) :
  CSVParser.bank_row bank r = Some t ->
  tx_bank t = bank /\ tx_category t = None.
Proof.
  unfold CSVParser.bank_row.
  destruct (CSVParser.row_date _ r); [|discriminate].
  destruct (CSVParser.row_description _ r); [|discriminate].
  destruct (CSVParser._extract_amount_and_type r _ bank) as [[a|] ty];
    [|discriminate].
  destruct (negb (PyFloat.is_zero a)); [|discriminate].
  intros H. injection H as <-. split; reflexivity.
Qed.

(** A frame that parses yields at most one transaction per data line,
    and each of them carries the institution detected from the header
    ("unknown" on the generic path), a type that is 'credit' or 'debit',
    and no category yet. *)
Theorem tabular_rows_are_tagged (df : DataFrame) (rows : list txrow) :
  CSVParser.parse_csv (Ok df) = Ok rows ->
  (List.length rows <= List.length (data df))%nat
  /\ forall t, In t rows ->
       tx_bank t = CSVParser._detect_bank_from_columns (columns df)
       /\ (tx_type t = "credit" \/ tx_type t = "debit")
       /\ tx_category t = None.
Proof.
  unfold CSVParser.parse_csv.
  destruct (String.eqb (CSVParser._detect_bank_from_columns (columns df)) "unknown")
    eqn:U.
  - apply String.eqb_eq in U. rewrite U.
    unfold CSVParser._parse_generic_csv.
    destruct (CSVParser.date_columns df) as [|dc dcs]; [discriminate |].
    destruct (CSVParser.description_columns df) as [|sc scs]; [discriminate |].
    destruct (CSVParser.amount_columns df) as [|ac acs]; [discriminate |].
    intros H. injection H as <-. split.
    + rewrite <- iterrows_length. apply filter_map_length.
    + intros t Ht. apply filter_map_in in Ht. destruct Ht as (r & _ & Hr).
      destruct (generic_row_tag _ _ _ r t Hr) as [B C].
      destruct (generic_row_positive _ _ _ r t Hr) as [T _]. auto.
  - intros H. injection H as <-. split.
    + unfold CSVParser._parse_bank_specific_csv.
      rewrite <- iterrows_length. apply filter_map_length.
    + intros t Ht. unfold CSVParser._parse_bank_specific_csv in Ht.
      apply filter_map_in in Ht. destruct Ht as (r & _ & Hr).
      destruct (bank_row_tag _ r t Hr) as [B C].
      destruct (bank_row_positive _ r t Hr) as [T _]. auto.
Qed.

Lemma tabular_rows_are_tagged_witness :
  let df := mkFrame ["Transaction Date"; "Post Date"; "Description"; "Category";
                     "Type"; "Amount"]
                    [[Val "01/15/2024"; Val "01/16/2024"; Val "STARBUCKS #1234";
                      Val "Food & Drink"; Val "Sale"; Val "-5.99"];
                     [Val "01/15/2024"; Val "01/16/2024"; Val "PAYROLL DEPOSIT";
                      Val "Payroll"; Val "Payment"; Val "3000.0"]] in
  CSVParser.parse_csv (Ok df)
  = Ok [mkTx (mkDate 2024 1 15) "STARBUCKS #1234" (mkDec 599 2) "debit" "chase" None;
        mkTx (mkDate 2024 1 15) "PAYROLL DEPOSIT" (mkDec 3000 0) "credit" "chase" None]
  /\ (2 <= List.length (data df))%nat.
Proof.
  cbv zeta.
  assert (E : CSVParser.parse_csv
                (Ok (mkFrame ["Transaction Date"; "Post Date"; "Description";
                              "Category"; "Type"; "Amount"]
                       [[Val "01/15/2024"; Val "01/16/2024"; Val "STARBUCKS #1234";
                         Val "Food & Drink"; Val "Sale"; Val "-5.99"];
                        [Val "01/15/2024"; Val "01/16/2024"; Val "PAYROLL DEPOSIT";
                         Val "Payroll"; Val "Payment"; Val "3000.0"]]))
              = Ok [mkTx (mkDate 2024 1 15) "STARBUCKS #1234" (mkDec 599 2)
                         "debit" "chase" None;
                    mkTx (mkDate 2024 1 15) "PAYROLL DEPOSIT" (mkDec 3000 0)
                         "credit" "chase" None]) by (vm_compute; reflexivity).
  split; [exact E |].
  exact (proj1 (tabular_rows_are_tagged _ _ E)).
Defined.

(** ** Rows of the banks with one signed amount column *)

Lemma extract_signed (bank : string) (r : row) :
  In bank signed_banks ->
  CSVParser._extract_amount_and_type r (CSVParser.mapping_of bank) bank
  = match cell_value r "Amount" with
    | Some amount => (Some (PyFloat.abs amount), CSVParser.sign_type amount)
    | None => (None, "debit")
    end.
Proof.
  intros Hb. simpl in Hb.
  destruct Hb as [<- | [<- | [<- | []]]];
    unfold CSVParser._extract_amount_and_type;
    cbn [List.existsb CSVParser.separate_banks];
    match goal with
    | |- (if ?b then _ else _) = _ =>
        let v := eval vm_compute in b in change b with v
    end; cbv iota;
    match goal with
    | |- context [CSVParser.m_amount ?m] =>
        let v := eval vm_compute in (CSVParser.m_amount m) in
        change (CSVParser.m_amount m) with v
    end;
    rewrite single_column_step;
    destruct (cell_value r "Amount"); reflexivity.
Qed.

(** For chase, wells_fargo and bank_of_america the sign of the "Amount"
    cell decides the type: a row whose date parses and whose amount cell
    reads as a float other than zero yields one transaction, 'debit' when
    the float is negative and 'credit' otherwise, with the absolute value
    as amount; a row that has no "Amount" cell, an empty one, one that
    [float] cannot read or one that holds a zero is skipped. *)
Theorem signed_amount_row (bank : string) (r : row) :
  In bank signed_banks ->
  (forall (date : datetime) (v : pyfloat),
      CSVParser.row_date (CSVParser.mapping_of bank) r = Some date ->
      cell_value r "Amount" = Some v ->
      PyFloat.is_zero v = false ->
      exists description,
        CSVParser.row_description (CSVParser.mapping_of bank) r = Some description
        /\ CSVParser.bank_row bank r
           = Some (mkTx date (PyStr.strip description) (PyFloat.abs v)
                        (if PyFloat.ltb0 v then "debit" else "credit") bank None))
  /\ (zero_or_empty r "Amount" -> CSVParser.bank_row bank r = None).
Proof.
  intros Hb. pose proof (extract_signed bank r Hb) as X. split.
  - intros date v Hd Hv Hnz.
    destruct (row_description_total (CSVParser.mapping_of bank) r) as [desc Hs].
    exists desc. split; [exact Hs |].
    rewrite (bank_row_of_parts bank r date desc Hd Hs), X, Hv.
    rewrite (abs_of_nonzero v Hnz), abs_abs. reflexivity.
  - intros Hz. unfold zero_or_empty in Hz.
    apply bank_row_without_amount. intros a t. rewrite X.
    destruct (cell_value r "Amount") as [v|]; [|discriminate].
    intros K. injection K as <- _. now apply abs_of_zero.
Qed.

Lemma signed_amount_row_witness :
  let r := [("Transaction Date", Val "01/15/2024"); ("Post Date", Val "01/16/2024");
            ("Description", Val "STARBUCKS #1234"); ("Category", Val "Food & Drink");
            ("Type", Val "Sale"); ("Amount", Val "-5.99")] in
  In "chase" signed_banks
  /\ CSVParser.bank_row "chase" r
     = Some (mkTx (mkDate 2024 1 15) "STARBUCKS #1234" (mkDec 599 2)
                  "debit" "chase" None).
Proof.
  cbv zeta.
  assert (Hb : In "chase" signed_banks) by (simpl; tauto).
  split; [exact Hb |].
  destruct (proj1 (signed_amount_row "chase"
              [("Transaction Date", Val "01/15/2024");
               ("Post Date", Val "01/16/2024");
               ("Description", Val "STARBUCKS #1234");
               ("Category", Val "Food & Drink");
               ("Type", Val "Sale"); ("Amount", Val "-5.99")] Hb)
             (mkDate 2024 1 15) (Finite (mkDec (-599) 2)))
    as (desc & Hs & B).
  - vm_compute; reflexivity.
  - vm_compute; reflexivity.
  - reflexivity.
  - vm_compute in Hs. injection Hs as <-. exact B.
Defined.

(** ** Saving transactions *)

Lemma existing_iff (st : Store) (u : nat) (h : string) :
  TransactionManager.existing st u h = true <-> In h (user_hashes u st).
Proof.
  unfold TransactionManager.existing, user_hashes.
  rewrite List.existsb_exists, List.in_map_iff. split.
  - intros (t & Hin & Ht). apply Bool.andb_true_iff in Ht. destruct Ht as [Hu Hh].
    exists t. split; [now apply String.eqb_eq |].
    apply List.filter_In. now split.
  - intros (t & Hh & Hin). apply List.filter_In in Hin. destruct Hin as [Hin Hu].
    exists t. split; [exact Hin |]. unfold owned_by in Hu.
    rewrite Hu. simpl. now apply String.eqb_eq.
Qed.

Lemma user_hashes_snoc (st : Store) (u : nat) (t : Transaction) :
  user_hashes u (mkStore (bank_accounts st) (transactions st ++ [t])
                         (uploaded_files st))
  = (user_hashes u st
     ++ (if owned_by u t then [transaction_hash t] else []))%list.
Proof.
  unfold user_hashes. cbn [transactions].
  rewrite List.filter_app, List.map_app. cbn [List.filter].
  destruct (owned_by u t); reflexivity.
Qed.

(** Every row is either saved or counted as a duplicate; the saved rows
    are appended to the transactions table, for the given owner, account
    and file, and nothing else of the store changes. *)
Lemma save_rows_accounting (rows : list txrow) (u acc : nat) (file : string) :
  forall (st st' : Store) (s d s' d' : nat),
    TransactionManager.save_rows rows u acc file st s d = Ok (st', s', d') ->
    (s' + d' = s + d + List.length rows)%nat
    /\ bank_accounts st' = bank_accounts st
    /\ uploaded_files st' = uploaded_files st
    /\ exists new,
         transactions st' = (transactions st ++ new)%list
         /\ (s + List.length new = s')%nat
         /\ Forall (fun t => t_user_id t = u /\ t_bank_account_id t = acc
                             /\ original_file_name t = file) new.
Proof.
  induction rows as [|r rows IH]; intros st st' s d s' d' H.
  - simpl in H. injection H as <- <- <-. repeat split; simpl; try lia.
    exists []. rewrite List.app_nil_r. repeat split; simpl; try lia. constructor.
  - rewrite save_rows_cons in H.
    destruct (TransactionManager.existing st u (row_hash r)).
    + destruct (IH _ _ _ _ _ _ H) as (C & A & F & new & T & L & P).
      repeat split; trivial; [simpl; lia |]. exists new. auto.
    + destruct (PyFloat.isnan (tx_amount r)); [discriminate |].
      destruct (IH _ _ _ _ _ _ H) as (C & A & F & new & T & L & P).
      cbn [bank_accounts uploaded_files transactions] in *.
      repeat split; trivial; [simpl; lia |].
      eexists (_ :: new). rewrite T, <- List.app_assoc. split; [reflexivity |].
      split; [simpl; lia |]. constructor; [repeat split | exact P].
Qed.

(** The counts of [save_transactions], when it returns, add up to the
    number of rows, the transactions table has grown by exactly the saved
    rows, all of them for the given owner, account and file, and the
    other two tables are left as they were. *)
Theorem save_transactions_accounting (st st' : Store) (rows : list txrow)
        (user_id account : nat) (file : string) (saved_count duplicate_count : nat) :
  TransactionManager.save_transactions st rows user_id account file
  = Ok (st', saved_count, duplicate_count) ->
  (saved_count + duplicate_count = List.length rows)%nat
  /\ bank_accounts st' = bank_accounts st
  /\ uploaded_files st' = uploaded_files st
  /\ exists new,
       transactions st' = (transactions st ++ new)%list
       /\ List.length new = saved_count
       /\ Forall (fun t => t_user_id t = user_id /\ t_bank_account_id t = account
                           /\ original_file_name t = file) new.
Proof.
  unfold TransactionManager.save_transactions. intros H.
  destruct (save_rows_accounting _ _ _ _ _ _ _ _ _ _ H)
    as (C & A & F & new & T & L & P).
  repeat split; trivial. exists new. auto.
Qed.

Lemma save_rows_unique (rows : list txrow) (u acc : nat) (file : string) :
  forall (st st' : Store) (s d s' d' : nat),
    TransactionManager.save_rows rows u acc file st s d = Ok (st', s', d') ->
    (NoDup (user_hashes u st) -> NoDup (user_hashes u st'))
    /\ (forall u', u' <> u -> user_hashes u' st' = user_hashes u' st)
    /\ (forall h, In h (user_hashes u st) -> In h (user_hashes u st'))
    /\ (forall r, In r rows -> In (row_hash r) (user_hashes u st')).
Proof.
  induction rows as [|r rows IH]; intros st st' s d s' d' H.
  - simpl in H. injection H as <- <- <-. repeat split; auto. intros r [].
  - rewrite save_rows_cons in H.
    destruct (TransactionManager.existing st u (row_hash r)) eqn:E.
    + destruct (IH _ _ _ _ _ _ H) as (N & O & M & R).
      repeat split; trivial.
      intros r' [<- | Hr']; [|now apply R].
      apply M. now apply existing_iff.
    + destruct (PyFloat.isnan (tx_amount r)); [discriminate |].
      destruct (IH _ _ _ _ _ _ H) as (N & O & M & R).
      assert (Hn : ~ In (row_hash r) (user_hashes u st)).
      { intros K. apply existing_iff in K. congruence. }
      rewrite user_hashes_snoc in N, M. unfold owned_by, stored in N, M.
      cbn [t_user_id transaction_hash] in N, M. rewrite Nat.eqb_refl in N, M.
      repeat split.
      * intros Hnd. apply N.
        apply List.NoDup_app; [exact Hnd | repeat constructor; intros [] |].
        intros h Hh [<- | []]. exact (Hn Hh).
      * intros u' Hu'. rewrite (O u' Hu'), user_hashes_snoc.
        unfold owned_by, stored. cbn [t_user_id].
        destruct (Nat.eqb_spec u u') as [K | K]; [congruence |].
        now rewrite List.app_nil_r.
      * intros h Hh. apply M. apply List.in_or_app. now left.
      * intros r' [<- | Hr']; [|now apply R].
        apply M. apply List.in_or_app. right. now left.
Qed.

(** [save_transactions], when it returns, has kept the stored hashes of
    the owner pairwise distinct and has not touched what is stored for
    any other owner; afterwards the hash of every row it was given is on
    record for the owner. *)
Theorem save_transactions_keeps_hashes_unique (st st' : Store)
        (rows : list txrow) (user_id account : nat) (file : string)
        (saved_count duplicate_count : nat) :
  NoDup (user_hashes user_id st) ->
  TransactionManager.save_transactions st rows user_id account file
  = Ok (st', saved_count, duplicate_count) ->
  NoDup (user_hashes user_id st')
  /\ (forall other, other <> user_id -> user_hashes other st' = user_hashes other st)
  /\ (forall r, In r rows -> In (row_hash r) (user_hashes user_id st')).
Proof.
  unfold TransactionManager.save_transactions. intros Hnd H.
  destruct (save_rows_unique _ _ _ _ _ _ _ _ _ _ H) as (N & O & _ & R).
  repeat split; auto.
Qed.

Lemma save_transactions_accounting_witness :
  let coffee := mkTx (mkDate 2024 1 15) "COFFEE" (mkDec 599 2) "debit" "chase"
                     (Some "Food & Dining") in
  let again := mkTx (mkDate 2024 1 15) "COFFEE" (mkDec 599 2) "credit" "unknown"
                    None in
  let pay := mkTx (mkDate 2024 1 16) "PAYROLL" (mkDec 3000 0) "credit" "chase"
                  (Some "Salary/Income") in
  exists st',
    TransactionManager.save_transactions empty_store [coffee; again; pay] 1 1 "jan.csv"
    = Ok (st', 2%nat, 1%nat)
    /\ (2 + 1 = List.length [coffee; again; pay])%nat
    /\ List.length (transactions st') = 2%nat.
Proof.
  cbv zeta.
  set (rows := [mkTx (mkDate 2024 1 15) "COFFEE" (mkDec 599 2) "debit" "chase"
                     (Some "Food & Dining");
                mkTx (mkDate 2024 1 15) "COFFEE" (mkDec 599 2) "credit" "unknown"
                     None;
                mkTx (mkDate 2024 1 16) "PAYROLL" (mkDec 3000 0) "credit" "chase"
                     (Some "Salary/Income")]).
  assert (E : exists st',
             TransactionManager.save_transactions empty_store rows 1 1 "jan.csv"
             = Ok (st', 2%nat, 1%nat)) by (vm_compute; eexists; reflexivity).
  destruct E as [st' E]. exists st'.
  destruct (save_transactions_accounting _ _ _ _ _ _ _ _ E)
    as (C & _ & _ & new & T & L & _).
  split; [exact E | split; [exact C |]].
  rewrite T, List.length_app, L. reflexivity.
Defined.
Lemma save_transactions_keeps_hashes_unique_witness :
  let rows := [mkTx (mkDate 2024 1 15) "COFFEE" (mkDec 599 2) "debit" "chase" None;
               mkTx (mkDate 2024 1 15) "COFFEE" (mkDec 599 2) "credit" "unknown"
                    None] in
  exists st',
    TransactionManager.save_transactions empty_store rows 1 1 "jan.csv"
    = Ok (st', 1%nat, 1%nat)
    /\ NoDup (user_hashes 1 st').
Proof.
  cbv zeta.
  set (rows := [mkTx (mkDate 2024 1 15) "COFFEE" (mkDec 599 2) "debit" "chase" None;
                mkTx (mkDate 2024 1 15) "COFFEE" (mkDec 599 2) "credit" "unknown"
                     None]).
  assert (E : exists st',
             TransactionManager.save_transactions empty_store rows 1 1 "jan.csv"
             = Ok (st', 1%nat, 1%nat)) by (vm_compute; eexists; reflexivity).
  destruct E as [st' E]. exists st'. split; [exact E |].
  exact (proj1 (save_transactions_keeps_hashes_unique empty_store st' rows 1 1
                  "jan.csv" 1 1 (NoDup_nil string) E)).
Defined.

Lemma save_rows_all_existing (rows : list txrow) (u acc : nat) (file : string)
      (st : Store) :
  (forall r, In r rows -> In (row_hash r) (user_hashes u st)) ->
  forall s d,
    TransactionManager.save_rows rows u acc file st s d
    = Ok (st, s, (d + List.length rows)%nat).
Proof.
  induction rows as [|r rows IH]; intros H s d.
  - simpl. now rewrite Nat.add_0_r.
  - rewrite save_rows_cons.
    rewrite (proj2 (existing_iff st u (row_hash r)) (H r (or_introl eq_refl))).
    rewrite IH by (intros r' Hr'; apply H; now right).
    simpl. do 2 f_equal. lia.
Qed.

(** Saving is idempotent for an owner: once a batch of rows has been
    saved, saving the same rows again for that owner, under any account
    and file name, stores nothing and counts every row as a duplicate. *)
Theorem saving_again_saves_nothing (st st1 : Store) (rows : list txrow)
        (user_id account : nat) (file : string) (saved_count duplicate_count : nat)
        (account2 : nat) (file2 : string) :
  TransactionManager.save_transactions st rows user_id account file
  = Ok (st1, saved_count, duplicate_count) ->
  TransactionManager.save_transactions st1 rows user_id account2 file2
  = Ok (st1, O, List.length rows).
Proof.
  unfold TransactionManager.save_transactions. intros H.
  destruct (save_rows_unique _ _ _ _ _ _ _ _ _ _ H) as (_ & _ & _ & R).
  now rewrite (save_rows_all_existing rows user_id account2 file2 st1 R).
Qed.

Lemma saving_again_saves_nothing_witness :
  let rows := [mkTx (mkDate 2024 1 15) "COFFEE" (mkDec 599 2) "debit" "chase" None;
               mkTx (mkDate 2024 1 16) "PAYROLL" (mkDec 3000 0) "credit" "chase"
                    None] in
  exists st1,
    TransactionManager.save_transactions empty_store rows 1 1 "jan.csv"
    = Ok (st1, 2%nat, 0%nat)
    /\ TransactionManager.save_transactions st1 rows 1 7 "export.csv"
       = Ok (st1, 0%nat, 2%nat).
Proof.
  cbv zeta.
  set (rows := [mkTx (mkDate 2024 1 15) "COFFEE" (mkDec 599 2) "debit" "chase" None;
                mkTx (mkDate 2024 1 16) "PAYROLL" (mkDec 3000 0) "credit" "chase"
                     None]).
  assert (E : exists st1,
             TransactionManager.save_transactions empty_store rows 1 1 "jan.csv"
             = Ok (st1, 2%nat, 0%nat)) by (vm_compute; eexists; reflexivity).
  destruct E as [st1 E]. exists st1. split; [exact E |].
  exact (saving_again_saves_nothing _ _ _ _ _ _ _ _ 7%nat "export.csv" E).
Defined.





(** ** Bank accounts *)

Lemma find_snoc {A : Type} (f : A -> bool) (l : list A) (a : A) :
  List.find f l = None -> f a = true -> List.find f (l ++ [a]) = Some a.
Proof.
  induction l as [|x l IH]; simpl; intros Hn Ha; [now rewrite Ha |].
  destruct (f x); [discriminate | now apply IH].
Qed.

Lemma same_account_key (u : nat) (bank account : string) (a : BankAccount) :
  BankAccountManager.same_account u bank account a = true <->
  account_key a = (u, bank, account).
Proof.
  unfold BankAccountManager.same_account, account_key. split.
  - intros H. apply Bool.andb_true_iff in H. destruct H as [H H3].
    apply Bool.andb_true_iff in H. destruct H as [H1 H2].
    apply Nat.eqb_eq in H1. apply String.eqb_eq in H2. apply String.eqb_eq in H3.
    now subst.
  - intros H. injection H as -> -> ->.
    now rewrite Nat.eqb_refl, !String.eqb_refl.
Qed.

(** [create_or_get_account] returns an account of the store it leaves,
    with the owner, bank and name asked for; asked again, it returns the
    same account and changes nothing.  It adds at most one account, at
    the end of the table, never a second one for the same owner, bank and
    name, and it leaves the other tables alone. *)
Theorem account_is_created_once (st : Store) (user_id : nat)
        (bank account : string) :
  let result := BankAccountManager.create_or_get_account st user_id bank account in
  account_key (fst result) = (user_id, bank, account)
  /\ In (fst result) (bank_accounts (snd result))
  /\ BankAccountManager.create_or_get_account (snd result) user_id bank account
     = result
  /\ (exists new, bank_accounts (snd result) = (bank_accounts st ++ new)%list
                  /\ (List.length new <= 1)%nat)
  /\ transactions (snd result) = transactions st
  /\ uploaded_files (snd result) = uploaded_files st
  /\ (NoDup (List.map account_key (bank_accounts st)) ->
      NoDup (List.map account_key (bank_accounts (snd result)))).
Proof.
  cbv zeta. unfold BankAccountManager.create_or_get_account.
  destruct (List.find (BankAccountManager.same_account user_id bank account)
                      (bank_accounts st)) as [a|] eqn:F.
  - destruct (List.find_some _ _ F) as [Hin Ha]. cbn [fst snd].
    rewrite F. repeat split; trivial.
    + now apply same_account_key.
    + exists []. rewrite List.app_nil_r. split; [reflexivity | simpl; lia].
  - cbn [fst snd bank_accounts transactions uploaded_files].
    set (a := mkAccount (S (List.length (bank_accounts st))) user_id bank account).
    assert (Ha : BankAccountManager.same_account user_id bank account a = true)
      by (apply same_account_key; reflexivity).
    rewrite (find_snoc _ _ a F Ha). repeat split; trivial.
    + apply List.in_or_app. right. now left.
    + exists [a]. split; [reflexivity | simpl; lia].
    + intros Hnd. rewrite List.map_app. simpl.
      apply List.NoDup_app; [exact Hnd | repeat constructor; intros [] |].
      intros k Hk [<- | []].
      apply List.in_map_iff in Hk. destruct Hk as (b & Hb & Hin).
      pose proof (List.find_none _ _ F b Hin) as N.
      rewrite (proj2 (same_account_key user_id bank account b) Hb) in N.
      discriminate.
Qed.

(** ** One file through the upload handling *)

Lemma create_or_get_account_facts (st st1 : Store) (u : nat)
      (bank account : string) (a : BankAccount) :
  BankAccountManager.create_or_get_account st u bank account = (a, st1) ->
  account_key a = (u, bank, account)
  /\ In a (bank_accounts st1)
  /\ transactions st1 = transactions st
  /\ uploaded_files st1 = uploaded_files st
  /\ (exists new, bank_accounts st1 = (bank_accounts st ++ new)%list
                  /\ (List.length new <= 1)%nat)
  /\ (NoDup (List.map account_key (bank_accounts st)) ->
      NoDup (List.map account_key (bank_accounts st1))).
Proof.
  unfold BankAccountManager.create_or_get_account.
  destruct (List.find (BankAccountManager.same_account u bank account)
                      (bank_accounts st)) as [b|] eqn:F;
    intros H; injection H as <- <-.
  - destruct (List.find_some _ _ F) as [Hin Hb].
    repeat split; trivial; [now apply same_account_key |].
    exists []. rewrite List.app_nil_r. split; [reflexivity | simpl; lia].
  - cbn [bank_accounts transactions uploaded_files].
    repeat split; trivial.
    + apply List.in_or_app. right. now left.
    + eexists. split; [reflexivity | simpl; lia].
    + intros Hnd. rewrite List.map_app. simpl.
      apply List.NoDup_app; [exact Hnd | repeat constructor; intros [] |].
      intros k Hk [<- | []].
      apply List.in_map_iff in Hk. destruct Hk as (b & Hb & Hin).
      pose proof (List.find_none _ _ F b Hin) as N.
      rewrite (proj2 (same_account_key u bank account b) Hb) in N.
      discriminate.
Qed.

Lemma record_file_upload_facts (st st' : Store) (u : nat) (nm c bank : string)
      (n : nat) :
  FileManager.record_file_upload st u nm c bank n = Ok st' ->
  bank_accounts st' = bank_accounts st
  /\ transactions st' = transactions st
  /\ uploaded_files st'
     = (uploaded_files st
        ++ [mkUploaded u nm (FileManager.generate_file_hash c) (String.length c)
                       bank n "processed"])%list.
Proof.
  unfold FileManager.record_file_upload.
  destruct (List.existsb _ _); [discriminate |].
  intros H. injection H as <-. repeat split.
Qed.

Lemma user_hashes_ext (st st' : Store) (u : nat) :
  transactions st' = transactions st -> user_hashes u st' = user_hashes u st.
Proof. intros H. unfold user_hashes. now rewrite H. Qed.

(** A file the upload handling reports an error for leaves no
    transaction and no uploaded-file record behind, at most the bank
    account, and is not on record as processed: it can be uploaded again.
    The error is the one the parser raised, with the store exactly as
    before, or the one the database raised for a parsed row whose amount
    is not a number; the unique constraint on the file hash is never what
    fails. *)
Theorem failed_file_stores_nothing (env : Env) (user_id : nat)
        (st st' : Store) (f : upload) (e : string) :
  Main.process_file env user_id st f = (st', Main.Failed e) ->
  FileManager.is_file_processed st (content f) = false
  /\ FileManager.is_file_processed st' (content f) = false
  /\ transactions st' = transactions st
  /\ uploaded_files st' = uploaded_files st
  /\ (exists new, bank_accounts st' = (bank_accounts st ++ new)%list
                  /\ (List.length new <= 1)%nat)
  /\ ((BankParser.parse_file env f = Err e /\ st' = st)
      \/ (exists rows r,
            BankParser.parse_file env f = Ok rows
            /\ In r rows
            /\ PyFloat.isnan (tx_amount r) = true
            /\ e = TransactionManager.amount_is_null)).
Proof.
  intros H. apply process_file_inversion in H.
  destruct H as [(_ & _ & K) | (N & [(e' & P & -> & K) | [(_ & _ & K) | K]])];
    try discriminate.
  - injection K as <-. repeat split; trivial; [|now left].
    exists []. rewrite List.app_nil_r. split; [reflexivity | simpl; lia].
  - destruct K as (t & l & acc & st1 & P & A & [(e' & S & -> & K) | K]).
    + injection K as <-.
      destruct (create_or_get_account_facts _ _ _ _ _ _ A)
        as (_ & _ & T1 & F1 & New & _).
      repeat split; trivial.
      * now rewrite (is_file_processed_ext st st1).
      * right. unfold TransactionManager.save_transactions in S.
        destruct (save_rows_error _ _ _ _ _ _ _ _ S) as (E & r & Hr & Hn).
        destruct (categorize_keeps_amounts _ _ Hr) as (r0 & Hr0 & Ha).
        exists (t :: l), r0. rewrite <- Ha. auto.
    + destruct K as (st2 & s & d & _ & _ & K). discriminate.
Qed.

Lemma failed_file_stores_nothing_witness :
  let env := mkEnv (fun _ => Ok (mkFrame ["Date"; "Description"; "Amount"]
                                         [[Val "01/15/2024"; Val "COFFEE";
                                           Val "NAN"]]))
                   (fun _ => Err "not a PDF") 2026 in
  let f := mkUpload "january.csv" sample_csv in
  exists st',
    Main.process_file env 1 empty_store f
    = (st', Main.Failed TransactionManager.amount_is_null)
    /\ bank_accounts st' = [mkAccount 1 1 "unknown" "Primary"]
    /\ transactions st' = []
    /\ uploaded_files st' = [].
Proof.
  cbv zeta.
  assert (E : Main.process_file
                (mkEnv (fun _ => Ok (mkFrame ["Date"; "Description"; "Amount"]
                                             [[Val "01/15/2024"; Val "COFFEE";
                                               Val "NAN"]]))
                       (fun _ => Err "not a PDF") 2026)
                1 empty_store (mkUpload "january.csv" sample_csv)
              = (mkStore [mkAccount 1 1 "unknown" "Primary"] [] [],
                 Main.Failed TransactionManager.amount_is_null))
    by (vm_compute; reflexivity).
  eexists. split; [exact E |]. split; [reflexivity |].
  destruct (failed_file_stores_nothing _ _ _ _ _ _ E) as (_ & _ & T & F & _).
  split; [exact T | exact F].
Defined.

(** A file reported as processed was parsed to at least one row; the two
    counts of the report add up to the number of parsed rows; the
    transactions table has grown by the saved count; the file is the
    last uploaded-file record, with its name, hash, size, the bank
    detected from its bytes, the saved count and the status 'processed';
    and the owner has a "Primary" account for that bank. *)
Theorem processed_file_is_recorded_with_its_counts (env : Env) (user_id : nat)
        (st st' : Store) (f : upload) (saved_count duplicate_count : nat) :
  Main.process_file env user_id st f
  = (st', Main.Processed saved_count duplicate_count) ->
  let bank := BankParser.detect_bank_format (PyRepr.bytes (content f)) in
  (exists rows,
      BankParser.parse_file env f = Ok rows
      /\ (0 < List.length rows)%nat
      /\ (saved_count + duplicate_count = List.length rows)%nat)
  /\ List.length (transactions st')
     = (List.length (transactions st) + saved_count)%nat
  /\ uploaded_files st'
     = (uploaded_files st
        ++ [mkUploaded user_id (name f) (FileManager.generate_file_hash (content f))
                       (String.length (content f)) bank saved_count "processed"])%list
  /\ (exists acc, In acc (bank_accounts st')
                  /\ account_key acc = (user_id, bank, "Primary")).
Proof.
  intros H bank. apply process_file_inversion in H.
  destruct H as [(_ & _ & K) | (N & [(e' & _ & _ & K) | [(_ & _ & K) | K]])];
    try discriminate.
  destruct K as (t & l & acc & st1 & P & A & [(e' & _ & _ & K) | K]);
    [discriminate |].
  destruct K as (st2 & s & d & S & R & K).
  injection K as <- <-.
  destruct (create_or_get_account_facts _ _ _ _ _ _ A) as (Ka & Ia & T1 & F1 & _).
  destruct (save_rows_accounting _ _ _ _ _ _ _ _ _ _ S)
    as (C & A2 & F2 & new & T2 & L & _).
  destruct (record_file_upload_facts _ _ _ _ _ _ _ R) as (A3 & T3 & F3).
  unfold TransactionCategorizer.categorize_transactions in C.
  rewrite List.length_map in C. simpl in L.
  repeat split.
  - exists (t :: l). repeat split; [exact P | simpl; lia | simpl in *; lia].
  - rewrite T3, T2, List.length_app, T1. lia.
  - rewrite F3, F2, F1. reflexivity.
  - exists acc. split; [|exact Ka]. now rewrite A3, A2.
Qed.

Lemma processed_file_is_recorded_with_its_counts_witness :
  let f := mkUpload "january.csv" sample_csv in
  let st' := fst (Main.process_file sample_env 1 empty_store f) in
  Main.process_file sample_env 1 empty_store f = (st', Main.Processed 1 0)
  /\ List.length (transactions st') = 1%nat
  /\ uploaded_files st'
     = [mkUploaded 1 "january.csv" (FileManager.generate_file_hash sample_csv)
                   (String.length sample_csv)
                   (BankParser.detect_bank_format (PyRepr.bytes sample_csv))
                   1 "processed"].
Proof.
  cbv zeta.
  assert (E : Main.process_file sample_env 1 empty_store
                (mkUpload "january.csv" sample_csv)
              = (fst (Main.process_file sample_env 1 empty_store
                        (mkUpload "january.csv" sample_csv)),
                 Main.Processed 1 0)) by (vm_compute; reflexivity).
  destruct (processed_file_is_recorded_with_its_counts _ _ _ _ _ _ _ E)
    as (_ & L & F & _).
  split; [exact E | split; [exact L | exact F]].
Defined.

(** An extension other than pdf and csv is an error of its own: the
    parsers and the external readers are not consulted, and the upload
    handling reports the error without touching the store. *)
Theorem unsupported_extension_is_an_error (env : Env) (user_id : nat)
        (st : Store) (f : upload) :
  String.eqb (BankParser.file_extension f) "pdf" = false ->
  String.eqb (BankParser.file_extension f) "csv" = false ->
  BankParser.parse_file env f
  = Err ("Error parsing file " ++ name f ++ ": Unsupported file format: "
         ++ BankParser.file_extension f)
  /\ (FileManager.is_file_processed st (content f) = false ->
      Main.process_file env user_id st f
      = (st, Main.Failed ("Error parsing file " ++ name f
                          ++ ": Unsupported file format: "
                          ++ BankParser.file_extension f))).
Proof.
  intros Hp Hc.
  assert (P : BankParser.parse_file env f
              = Err ("Error parsing file " ++ name f ++ ": Unsupported file format: "
                     ++ BankParser.file_extension f)).
  { unfold BankParser.parse_file. now rewrite Hp, Hc. }
  split; [exact P |].
  intros N. now apply process_file_failed.
Qed.

Lemma unsupported_extension_is_an_error_witness :
  let f := mkUpload "Statement.2024.XLSX" sample_csv in
  BankParser.file_extension f = "xlsx"
  /\ BankParser.parse_file sample_env f
     = Err "Error parsing file Statement.2024.XLSX: Unsupported file format: xlsx".
Proof.
  cbv zeta. split; [reflexivity |].
  exact (proj1 (unsupported_extension_is_an_error sample_env 1 empty_store
                  (mkUpload "Statement.2024.XLSX" sample_csv) eq_refl eq_refl)).
Defined.

(** ** Many files through the upload handling *)

Lemma process_file_appends (env : Env) (u : nat) (st st' : Store) (f : upload)
      (o : Main.outcome) :
  Main.process_file env u st f = (st', o) ->
  exists a t r,
    bank_accounts st' = (bank_accounts st ++ a)%list
    /\ transactions st' = (transactions st ++ t)%list
    /\ uploaded_files st' = (uploaded_files st ++ r)%list
    /\ Forall (fun x => t_user_id x = u) t
    /\ Forall (fun x => uf_user_id x = u) r
    /\ List.length r = (if is_processed o then 1 else 0)%nat.
Proof.
  intros H. apply process_file_inversion in H.
  assert (Same : forall o0, st' = st -> o = o0 -> is_processed o0 = false ->
                 exists a t r,
                   bank_accounts st' = (bank_accounts st ++ a)%list
                   /\ transactions st' = (transactions st ++ t)%list
                   /\ uploaded_files st' = (uploaded_files st ++ r)%list
                   /\ Forall (fun x => t_user_id x = u) t
                   /\ Forall (fun x => uf_user_id x = u) r
                   /\ List.length r = (if is_processed o then 1 else 0)%nat).
  { intros o0 -> -> Ho. exists [], [], []. rewrite !List.app_nil_r, Ho.
    repeat split; constructor. }
  destruct H as [(_ & S & K) | (N & [(e' & _ & S & K) | [(_ & S & K) | K]])];
    try (eapply Same; [exact S | exact K | reflexivity]).
  destruct K as (t & l & acc & st1 & P & A & K).
  destruct (create_or_get_account_facts _ _ _ _ _ _ A)
    as (_ & _ & T1 & F1 & (a & A1 & _) & _).
  destruct K as [(e' & _ & -> & ->) | (st2 & s & d & S & R & ->)].
  - exists a, [], []. rewrite !List.app_nil_r. repeat split; trivial; constructor.
  - destruct (save_rows_accounting _ _ _ _ _ _ _ _ _ _ S)
      as (_ & A2 & F2 & new & T2 & _ & Pn).
    destruct (record_file_upload_facts _ _ _ _ _ _ _ R) as (A3 & T3 & F3).
    exists a, new. eexists. repeat split.
    + now rewrite A3, A2.
    + now rewrite T3, T2, T1.
    + rewrite F3, F2, F1. reflexivity.
    + eapply List.Forall_impl; [|exact Pn]. intros x Hx. apply Hx.
    + repeat constructor.
    + reflexivity.
Qed.

Lemma process_files_append (env : Env) (user_id : nat) (files : list upload) :
  forall (st st' : Store) (reports : list Main.outcome),
    Main.process_files env user_id st files = (st', reports) ->
    List.length reports = List.length files
    /\ exists a t r,
         bank_accounts st' = (bank_accounts st ++ a)%list
         /\ transactions st' = (transactions st ++ t)%list
         /\ uploaded_files st' = (uploaded_files st ++ r)%list
         /\ Forall (fun x => t_user_id x = user_id) t
         /\ Forall (fun x => uf_user_id x = user_id) r
         /\ List.length r = List.length (List.filter is_processed reports).
Proof.
  induction files as [|f files IH]; intros st st' reports H; simpl in H.
  - injection H as <- <-. split; [reflexivity |].
    exists [], [], []. rewrite !List.app_nil_r. repeat split; constructor.
  - destruct (Main.process_file env user_id st f) as [st1 o] eqn:E1.
    destruct (Main.process_files env user_id st1 files) as [st2 os] eqn:E2.
    injection H as <- <-.
    destruct (IH _ _ _ E2) as (L & a2 & t2 & r2 & A2 & T2 & F2 & Pt2 & Pr2 & N2).
    destruct (process_file_appends _ _ _ _ _ _ E1)
      as (a1 & t1 & r1 & A1 & T1 & F1 & Pt1 & Pr1 & N1).
    split; [simpl; now rewrite L |].
    exists (a1 ++ a2)%list, (t1 ++ t2)%list, (r1 ++ r2)%list.
    repeat split.
    + now rewrite A2, A1, List.app_assoc.
    + now rewrite T2, T1, List.app_assoc.
    + now rewrite F2, F1, List.app_assoc.
    + apply List.Forall_app. now split.
    + apply List.Forall_app. now split.
    + rewrite List.length_app, N1, N2. simpl.
      destruct (is_processed o); reflexivity.
Qed.

(** Without a database or without a current user the upload handling
    reports that one error and leaves the store alone.  Otherwise it
    reports once for each file and only ever appends: the three tables
    of the store after a batch start with the tables before it, every
    transaction and every file record added belongs to the current user,
    and one file record is added for each file reported as processed. *)
Theorem upload_handling_only_appends (env : Env) (session : Main.session_state)
        (files : list upload) (st st' : Store) (report : Main.report) :
  Main.process_uploaded_files env session st files = (st', report) ->
  match report with
  | Main.NotInitialized =>
      (Main.db_initialized session = false \/ Main.current_user session = None)
      /\ st' = st
  | Main.Reports reports =>
      exists user,
        Main.current_user session = Some user
        /\ Main.db_initialized session = true
        /\ List.length reports = List.length files
        /\ exists a t r,
             bank_accounts st' = (bank_accounts st ++ a)%list
             /\ transactions st' = (transactions st ++ t)%list
             /\ uploaded_files st' = (uploaded_files st ++ r)%list
             /\ Forall (fun x => t_user_id x = usr_id user) t
             /\ Forall (fun x => uf_user_id x = usr_id user) r
             /\ List.length r = List.length (List.filter is_processed reports)
  end.
Proof.
  intros H.
  destruct (process_uploaded_files_cases env session st files)
    as [(user & U & D & E) | (G & E)]; rewrite E in H; injection H as <- <-.
  - exists user. split; [exact U |]. split; [exact D |].
    apply (process_files_append env (usr_id user) files st).
    apply surjective_pairing.
  - split; [tauto | reflexivity].
Qed.

Lemma upload_handling_only_appends_witness :
  let files := [mkUpload "january.csv" sample_csv;
                mkUpload "empty.csv" header_only_csv;
                mkUpload "copy.csv" sample_csv;
                mkUpload "export.csv" unlabelled_csv] in
  let session :=
    Main.mkSession true (Some (mkUser 1 "default_user" "user@example.com")) in
  exists st' reports,
    Main.process_uploaded_files sample_env session empty_store files
    = (st', Main.Reports reports)
    /\ List.map is_processed reports = [true; false; false; false]
    /\ List.length reports = 4%nat.
Proof.
  cbv zeta.
  set (files := [mkUpload "january.csv" sample_csv;
                 mkUpload "empty.csv" header_only_csv;
                 mkUpload "copy.csv" sample_csv;
                 mkUpload "export.csv" unlabelled_csv]).
  set (session := Main.mkSession true
                    (Some (mkUser 1 "default_user" "user@example.com"))).
  assert (E : exists st' reports,
             Main.process_uploaded_files sample_env session empty_store files
             = (st', Main.Reports reports)
             /\ List.map is_processed reports = [true; false; false; false])
    by (vm_compute; do 2 eexists; split; reflexivity).
  destruct E as (st' & reports & E & M). exists st', reports.
  split; [exact E |]. split; [exact M |].
  destruct (upload_handling_only_appends _ _ _ _ _ _ E) as (user & _ & _ & L & _).
  exact L.
Defined.

Lemma process_file_consistent (env : Env) (u : nat) (st st' : Store) (f : upload)
      (o : Main.outcome) :
  consistent st ->
  Main.process_file env u st f = (st', o) ->
  consistent st'.
Proof.
  intros (Cf & Ch & Ca) H. apply process_file_inversion in H.
  destruct H as [(_ & -> & _) | (N & [(e' & _ & -> & _) | [(_ & -> & _) | K]])];
    try (repeat split; assumption).
  destruct K as (t & l & acc & st1 & P & A & K).
  destruct (create_or_get_account_facts _ _ _ _ _ _ A)
    as (_ & _ & T1 & F1 & _ & Na).
  destruct K as [(e' & _ & -> & _) | (st2 & s & d & S & R & _)].
  - repeat split.
    + now rewrite F1.
    + intros v. rewrite (user_hashes_ext st st1 v T1). apply Ch.
    + exact (Na Ca).
  - destruct (save_rows_accounting _ _ _ _ _ _ _ _ _ _ S) as (_ & A2 & F2 & _).
    destruct (save_rows_unique _ _ _ _ _ _ _ _ _ _ S) as (Nu & Ou & _ & _).
    destruct (record_file_upload_facts _ _ _ _ _ _ _ R) as (A3 & T3 & _).
    repeat split.
    + eapply record_keeps_hashes_unique; [|exact R]. now rewrite F2, F1.
    + intros v. rewrite (user_hashes_ext st2 st' v T3).
      destruct (Nat.eq_dec v u) as [-> | Hv].
      * apply Nu. rewrite (user_hashes_ext st st1 u T1). apply Ch.
      * rewrite (Ou v Hv), (user_hashes_ext st st1 v T1). apply Ch.
    + rewrite A3, A2. exact (Na Ca).
Qed.

Lemma process_files_consistent (env : Env) (user_id : nat) (files : list upload) :
  forall (st : Store),
    consistent st -> consistent (fst (Main.process_files env user_id st files)).
Proof.
  induction files as [|f files IH]; intros st C; simpl; [exact C |].
  destruct (Main.process_file env user_id st f) as [st1 o] eqn:E1.
  pose proof (IH st1 (process_file_consistent _ _ _ _ _ _ C E1)) as K.
  destruct (Main.process_files env user_id st1 files) as [st2 os].
  exact K.
Qed.

(** The upload handling keeps the store consistent: after any batch of
    files, in any session and whatever the parsers return, file hashes
    are still pairwise distinct, so are the transaction hashes of each
    owner, and no owner has two accounts with the same bank and name. *)
Theorem upload_handling_keeps_the_store_consistent (env : Env)
        (session : Main.session_state) (files : list upload)
        (st st' : Store) (report : Main.report) :
  consistent st ->
  Main.process_uploaded_files env session st files = (st', report) ->
  consistent st'.
Proof.
  intros C H.
  destruct (process_uploaded_files_cases env session st files)
    as [(user & _ & _ & E) | (_ & E)]; rewrite E in H; injection H as <- _.
  - now apply process_files_consistent.
  - exact C.
Qed.

Lemma upload_handling_keeps_the_store_consistent_witness :
  let files := [mkUpload "january.csv" sample_csv;
                mkUpload "copy.csv" sample_csv] in
  let session :=
    Main.mkSession true (Some (mkUser 1 "default_user" "user@example.com")) in
  consistent empty_store
  /\ consistent (fst (Main.process_uploaded_files sample_env session
                        empty_store files)).
Proof.
  cbv zeta.
  assert (C0 : consistent empty_store).
  { repeat split; constructor. }
  split; [exact C0 |].
  exact (upload_handling_keeps_the_store_consistent sample_env _ _ empty_store
           _ _ C0 (surjective_pairing _)).
Defined.



(** ** The categorizer on every description *)

Lemma walk_in_table (table : list (string * list string)) (dl c : string) :
  TransactionCategorizer.walk table dl = Some c -> In c (List.map fst table).
Proof.
  induction table as [|[c0 p0] table IH]; simpl; [discriminate |].
  destruct (TransactionCategorizer.hit dl p0).
  - intros H. injection H as <-. now left.
  - intros H. right. now apply IH.
Qed.

Lemma categorize_label (d : cell) :
  In (TransactionCategorizer._categorize_transaction d) category_labels.
Proof.
  unfold TransactionCategorizer._categorize_transaction, category_labels.
  destruct d as [|d]; [apply List.in_or_app; right; now left |].
  destruct (TransactionCategorizer.walk _ (PyStr.lower d)) as [c|] eqn:W.
  - apply List.in_or_app. left. exact (walk_in_table _ _ _ W).
  - repeat match goal with
           | |- context [if ?b then _ else _] => destruct b
           end; simpl; tauto.
Qed.

(** The categorizer answers one of twelve labels for every description,
    'Other' for a missing one.  Applied to a frame it keeps the rows in
    number and order and every field but the category, which it sets, in
    each row, to the label of that row's description. *)
Theorem categorizer_fills_only_the_category (description : cell)
        (df : list txrow) :
  In (TransactionCategorizer._categorize_transaction description) category_labels
  /\ List.length category_labels = 12%nat
  /\ TransactionCategorizer._categorize_transaction NaN = "Other"
  /\ List.map uncategorized (TransactionCategorizer.categorize_transactions df)
     = List.map uncategorized df
  /\ List.map tx_category (TransactionCategorizer.categorize_transactions df)
     = List.map
         (fun t => Some (TransactionCategorizer._categorize_transaction
                           (Val (tx_description t)))) df
  /\ Forall (fun t => exists c, tx_category t = Some c /\ In c category_labels)
            (TransactionCategorizer.categorize_transactions df).
Proof.
  split; [apply categorize_label |].
  split; [reflexivity |]. split; [reflexivity |].
  unfold TransactionCategorizer.categorize_transactions.
  rewrite !List.map_map. repeat split.
  apply List.Forall_forall. intros t Ht.
  apply List.in_map_iff in Ht. destruct Ht as (t0 & <- & _).
  eexists. split; [reflexivity | apply categorize_label].
Qed.

(** ** The digests *)

Lemma string_length_app (a b : string) :
  String.length (a ++ b) = (String.length a + String.length b)%nat.
Proof. induction a as [|c a IH]; simpl; [reflexivity | now rewrite IH]. Qed.

Lemma hex_length (n : nat) (x : Z) : String.length (SHA256.hex n x) = n.
Proof. induction n as [|n IH]; simpl; [reflexivity | now rewrite IH]. Qed.

Lemma hexdigest_length (msg : string) : String.length (SHA256.hexdigest msg) = 64%nat.
Proof.
  unfold SHA256.hexdigest.
  destruct (SHA256.blocks _ _ SHA256.initial) as [[[[[[[a b] c] d] e] f] g] h].
  rewrite !string_length_app, !hex_length. reflexivity.
Qed.

(** Every file hash and every transaction hash is a string of exactly 64
    characters, whatever the bytes of the file or the fields of the
    transaction: it fills the 64-character hash columns and never
    exceeds them. *)
Theorem hashes_have_64_characters (file_content : string) (date : datetime)
        (amount : pyfloat) (description : string) :
  String.length (FileManager.generate_file_hash file_content) = 64%nat
  /\ String.length
       (TransactionManager.generate_transaction_hash date amount description)
     = 64%nat.
Proof.
  unfold FileManager.generate_file_hash,
    TransactionManager.generate_transaction_hash.
  split; apply hexdigest_length.
Qed.

(** ** Detection by substring *)

Lemma startswith_app_contains (a b s : string) :
  PyStr.startswith (a ++ b) s = true -> PyStr.contains b s = true.
Proof.
  revert s. induction a as [|c a IH]; intros s H.
  - simpl in H. destruct s; simpl; now rewrite H.
  - destruct s as [|x s]; [discriminate |].
    cbn [append PyStr.startswith] in H.
    apply Bool.andb_true_iff in H. destruct H as [_ H].
    cbn [PyStr.contains]. rewrite (IH s H). apply Bool.orb_true_r.
Qed.

(** A text that holds [a ++ b] holds [b]. *)
Lemma contains_suffix (a b s : string) :
  PyStr.contains (a ++ b) s = true -> PyStr.contains b s = true.
Proof.
  induction s as [|x s IH]; intros H.
  - cbn [PyStr.contains] in H. rewrite Bool.orb_false_r in H.
    exact (startswith_app_contains a b _ H).
  - cbn [PyStr.contains] in H. apply Bool.orb_true_iff in H.
    destruct H as [H | H]; [exact (startswith_app_contains a b _ H) |].
    cbn [PyStr.contains]. rewrite (IH H). apply Bool.orb_true_r.
Qed.

(** The institution is detected by substring, and the first test is for
    "chase": any statement text that mentions a purchase, in any letter
    case, is taken for a Chase statement by both text detectors, and any
    header with a column such as "Purchase Date" makes the tabular
    detector answer chase, whatever other institution is named. *)
Theorem purchase_is_detected_as_chase (text : string) (cols : list string)
        (col : string) :
  PyStr.contains "purchase" (PyStr.lower text) = true ->
  In col cols ->
  PyStr.contains "purchase" (PyStr.lower col) = true ->
  PDFParser._detect_bank_from_pdf text = "chase"
  /\ BankParser.detect_bank_format text = "chase"
  /\ CSVParser._detect_bank_from_columns cols = "chase".
Proof.
  intros Ht Hin Hc.
  pose proof (contains_suffix "pur" "chase" _ Ht) as T.
  pose proof (contains_suffix "pur" "chase" _ Hc) as C.
  repeat split.
  - unfold PDFParser._detect_bank_from_pdf. now rewrite T.
  - unfold BankParser.detect_bank_format. now rewrite T.
  - unfold CSVParser._detect_bank_from_columns.
    assert (E : List.existsb (PyStr.contains "chase") (List.map PyStr.lower cols)
                = true).
    { apply List.existsb_exists. exists (PyStr.lower col). split; [|exact C].
      now apply List.in_map. }
    rewrite E, Bool.orb_true_r. reflexivity.
Qed.

Lemma purchase_is_detected_as_chase_witness :
  let text := "Wells Fargo statement" ++ newline
              ++ "01/15/2024 PURCHASE AUTHORIZED ON 01/14 5.99" in
  PDFParser._detect_bank_from_pdf text = "chase"
  /\ BankParser.detect_bank_format text = "chase"
  /\ CSVParser._detect_bank_from_columns ["Purchase Date"; "Narration"; "Debit"]
     = "chase".
Proof.
  cbv zeta.
  apply (purchase_is_detected_as_chase _ ["Purchase Date"; "Narration"; "Debit"]
           "Purchase Date");
    [reflexivity | simpl; tauto | reflexivity].
Defined.

(** ** A document without text *)

Lemma full_text_of_empty_pages (pages : list string) :
  (forall p, In p pages -> p = EmptyString) ->
  PDFParser.full_text pages = EmptyString.
Proof.
  induction pages as [|p pages IH]; intros H; simpl; [reflexivity |].
  rewrite (H p) by (now left). apply IH. intros q Hq. apply H. now right.
Qed.

(** A PDF whose pages yield no text (no page, or pages that are images)
    parses, without an error, to no transaction, and the upload handling
    reports a file with no transactions and records nothing. *)
Theorem document_without_text_has_no_transactions (env : Env) (user_id : nat)
        (st : Store) (f : upload) (pages : list string) :
  (forall p, In p pages -> p = EmptyString) ->
  PDFParser.parse_pages (current_year env) pages = []
  /\ (BankParser.file_extension f = "pdf" ->
      extract_pages env (content f) = Ok pages ->
      FileManager.is_file_processed st (content f) = false ->
      Main.process_file env user_id st f = (st, Main.NoTransactions)).
Proof.
  intros H.
  assert (E : PDFParser.parse_pages (current_year env) pages = []).
  { unfold PDFParser.parse_pages. now rewrite (full_text_of_empty_pages pages H). }
  split; [exact E |].
  intros Hext Hp Hn. apply process_file_empty; [exact Hn |].
  unfold BankParser.parse_file. rewrite Hext. simpl.
  unfold BankParser.parse_pdf. now rewrite Hp, E.
Qed.

Lemma document_without_text_has_no_transactions_witness :
  let env := mkEnv (fun _ => Err "not a CSV")
                   (fun _ => Ok [EmptyString; EmptyString]) 2026 in
  Main.process_file env 1 empty_store (mkUpload "scan.PDF" "%PDF-1.7")
  = (empty_store, Main.NoTransactions).
Proof.
  cbv zeta.
  refine (proj2 (document_without_text_has_no_transactions
                   (mkEnv (fun _ => Err "not a CSV")
                          (fun _ => Ok [EmptyString; EmptyString]) 2026)
                   1 empty_store (mkUpload "scan.PDF" "%PDF-1.7")
                   [EmptyString; EmptyString] _) eq_refl eq_refl eq_refl).
  intros p [<- | [<- | []]]; reflexivity.
Defined.

(** ** Users *)

Lemma find_by_unique_id (users : list User) (u : User) :
  NoDup (List.map usr_id users) -> In u users ->
  UserManager.get_user_by_id users (usr_id u) = Some u.
Proof.
  unfold UserManager.get_user_by_id.
  induction users as [|x users IH]; intros Hnd Hin; [contradiction |].
  simpl in Hnd. inversion Hnd as [|? ? Hx Hrest]; subst. simpl.
  destruct Hin as [-> | Hin]; [now rewrite Nat.eqb_refl |].
  destruct (Nat.eqb_spec (usr_id x) (usr_id u)) as [E | E].
  - exfalso. apply Hx. rewrite E. now apply List.in_map.
  - now apply IH.
Qed.

Lemma ids_unique (users : list User) :
  List.map usr_id users = List.seq 1 (List.length users) ->
  NoDup (List.map usr_id users).
Proof. intros ->. apply List.seq_NoDup. Qed.

(** On a users table with distinct names, distinct e-mails and keys
    counting from 1, [create_or_get_user], when it returns, returns a
    user of the table it leaves with the name asked for; the table is the
    old one with at most one user added at the end and is again of that
    kind; asking again for the name, with any e-mail, returns the same
    user and changes nothing; and the user is the one found by its
    key. *)
Theorem user_is_created_once (users users' : list User) (name mail : string)
        (u : User) :
  users_ok users ->
  UserManager.create_or_get_user users name mail = Ok (u, users') ->
  username u = name
  /\ In u users'
  /\ (exists new, users' = (users ++ new)%list /\ (List.length new <= 1)%nat)
  /\ users_ok users'
  /\ (forall mail2,
        UserManager.create_or_get_user users' name mail2 = Ok (u, users'))
  /\ UserManager.get_user_by_id users' (usr_id u) = Some u.
Proof.
  intros (Hn & He & Hi). unfold UserManager.create_or_get_user.
  destruct (List.find (fun x => String.eqb (username x) name) users)
    as [x|] eqn:F.
  - intros H. injection H as <- <-.
    destruct (List.find_some _ _ F) as [Hin Hx]. apply String.eqb_eq in Hx.
    repeat split; trivial.
    + exists []. rewrite List.app_nil_r. split; [reflexivity | simpl; lia].
    + intros mail2. now rewrite F.
    + apply find_by_unique_id; [now apply ids_unique | exact Hin].
  - destruct (List.existsb (fun x => String.eqb (email x) mail) users) eqn:E;
      [discriminate |].
    intros H. injection H as <- <-.
    set (u := mkUser (S (List.length users)) name mail).
    assert (In' : In u (users ++ [u])) by (apply List.in_or_app; right; now left).
    assert (Ok' : users_ok (users ++ [u])).
    { repeat split.
      - rewrite List.map_app. simpl.
        apply List.NoDup_app; [exact Hn | repeat constructor; intros [] |].
        intros k Hk [<- | []].
        apply List.in_map_iff in Hk. destruct Hk as (y & Hy & Hin).
        pose proof (List.find_none _ _ F y Hin) as N. simpl in N.
        rewrite Hy, String.eqb_refl in N. discriminate.
      - rewrite List.map_app. simpl.
        apply List.NoDup_app; [exact He | repeat constructor; intros [] |].
        intros k Hk [<- | []].
        apply List.in_map_iff in Hk. destruct Hk as (y & Hy & Hin).
        assert (T : List.existsb (fun x => String.eqb (email x) mail) users = true).
        { apply List.existsb_exists. exists y. split; [exact Hin |].
          now apply String.eqb_eq. }
        rewrite T in E. discriminate.
      - rewrite List.map_app, List.length_app, Hi. simpl.
        rewrite Nat.add_1_r, List.seq_S. reflexivity. }
    repeat split; trivial.
    + exists [u]. split; [reflexivity | simpl; lia].
    + apply Ok'.
    + apply Ok'.
    + apply Ok'.
    + intros mail2.
      rewrite (find_snoc _ users u F) by (simpl; apply String.eqb_refl).
      reflexivity.
    + apply find_by_unique_id; [apply ids_unique; apply Ok' | exact In'].
Qed.

Lemma user_is_created_once_witness :
  users_ok []
  /\ UserManager.get_default_user []
     = Ok (mkUser 1 "default_user" "user@example.com",
           [mkUser 1 "default_user" "user@example.com"])
  /\ UserManager.create_or_get_user [mkUser 1 "default_user" "user@example.com"]
       "default_user" "someone@else.org"
     = Ok (mkUser 1 "default_user" "user@example.com",
           [mkUser 1 "default_user" "user@example.com"]).
Proof.
  assert (O0 : users_ok []) by (repeat split; constructor).
  split; [exact O0 | split; [reflexivity |]].
  destruct (user_is_created_once [] [mkUser 1 "default_user" "user@example.com"]
              "default_user" "user@example.com"
              (mkUser 1 "default_user" "user@example.com") O0 eq_refl)
    as (_ & _ & _ & _ & Again & _).
  exact (Again "someone@else.org").
Defined.
